(** * picaso.atmsetup: a shallow embedding of the ATMSETUP class

    The development follows [src/picaso/atmsetup.py].  Python floats and
    numpy float64 cells are IEEE binary64 numbers, modelled by Rocq's
    primitive floats; Python lists and numpy arrays are lists (nested for
    arrays of higher rank); dictionaries are finite maps; exceptions are
    an error type threaded through a small monad. *)

From Stdlib Require Import Floats ZArith Bool Ascii String.
From stdpp Require Import gmap strings list fin_maps.

Set Warnings "-inexact-float".

Local Open Scope string_scope.
Local Open Scope list_scope.

(** ** Exceptions and the error monad *)

Inductive pyerr : Type :=
| IndexError
| TypeError
| ValueError
| KeyError (key : string)
| NameError (name : string)
| UnboundLocalError (name : string)
| AttributeError (name : string)
| AssertionError (msg : string)
| Exception (msg : string)
| ExternalError (msg : string).

Inductive result (A : Type) : Type :=
| Ok (a : A)
| Raise (e : pyerr).
Arguments Ok {A} a.
Arguments Raise {A} e.

#[global] Instance result_ret : MRet result := fun A a => Ok a.
#[global] Instance result_bind : MBind result := fun A B f m =>
  match m with
  | Ok a => f a
  | Raise e => Raise e
  end.
#[global] Instance result_fmap : FMap result := fun A B f m =>
  match m with
  | Ok a => Ok (f a)
  | Raise e => Raise e
  end.

Definition is_ok {A} (m : result A) : bool :=
  match m with Ok _ => true | Raise _ => false end.

(** [try: x = m / except: x = d] *)
Definition try_default {A} (m : result A) (d : A) : A :=
  match m with Ok a => a | Raise _ => d end.

(** Monadic left fold: a [for] loop whose body may raise. *)
Fixpoint foldM {A B} (f : A -> B -> result A) (a : A) (l : list B) : result A :=
  match l with
  | [] => Ok a
  | b :: l' => a' ← f a b; foldM f a' l'
  end.

(** [l[k]] for a Python list and a possibly negative index. *)
Definition py_index (len : nat) (k : Z) : result nat :=
  if (0 <=? k)%Z && (k <? Z.of_nat len)%Z then Ok (Z.to_nat k)
  else if (- Z.of_nat len <=? k)%Z && (k <? 0)%Z then Ok (Z.to_nat (Z.of_nat len + k))
  else Raise IndexError.

Definition py_get {A} (l : list A) (k : Z) : result A :=
  i ← py_index (length l) k;
  match l !! i with
  | Some a => Ok a
  | None => Raise IndexError
  end.

(** ** Characters of a formula

    A formula is a string of ASCII characters.  [float(c)] of a one
    character string succeeds exactly on the decimal digits; [isupper] and
    [islower] are the ASCII letter classes.  The codes 128 to 255, which
    the type [ascii] also holds, stand for no character of a formula: a
    property below says nothing of the code on a string that holds one. *)

Definition isupper (c : ascii) : bool :=
  (65 <=? nat_of_ascii c)%nat && (nat_of_ascii c <=? 90)%nat.

Definition islower (c : ascii) : bool :=
  (97 <=? nat_of_ascii c)%nat && (nat_of_ascii c <=? 122)%nat.

Definition float_of_char (c : ascii) : result float :=
  match c with
  | "0"%char => Ok 0%float
  | "1"%char => Ok 1%float
  | "2"%char => Ok 2%float
  | "3"%char => Ok 3%float
  | "4"%char => Ok 4%float
  | "5"%char => Ok 5%float
  | "6"%char => Ok 6%float
  | "7"%char => Ok 7%float
  | "8"%char => Ok 8%float
  | "9"%char => Ok 9%float
  | _ => Raise ValueError
  end.

(** An entry of [molecule_list]: a float (one digit) or a str (a symbol). *)
Inductive pyval : Type :=
| PFloat (x : float)
| PStr (s : string).

(** [float(s)] for a str entry of [molecule_list].  Such an entry is one
    uppercase letter followed by lowercase letters; of these Python's
    [float] parses only the spellings of infinity and of not-a-number. *)
Definition float_of_symbol (s : string) : result float :=
  if String.eqb s "Inf" || String.eqb s "Infinity" then Ok infinity
  else if String.eqb s "Nan" then Ok nan
  else Raise ValueError.

Definition py_float (v : pyval) : result float :=
  match v with
  | PFloat x => Ok x
  | PStr s => float_of_symbol s
  end.

(** ** The molecular weight resolver, [get_weights] *)

Section Weights.

(** [ELEMENTS] of [picaso.elements] is not part of the sources: the
    table is a parameter, a lookup from a key to the element's [mass]
    that fails on an unknown key. *)
Variable ele : string -> option float.

Definition ele_mass (s : string) : result float :=
  match ele s with
  | Some m => Ok m
  | None => Raise (KeyError s)
  end.

(** The body of the first loop, at character [c] of index [j]. *)
Definition scan_char (ml : list pyval) (j : nat) (c : ascii)
  : result (list pyval) :=
  match float_of_char c with
  | Ok x => Ok (ml ++ [PFloat x])
  | Raise _ =>
      if isupper c then Ok (ml ++ [PStr (String c "")])
      else if islower c then
        (* molecule_list[j-1] = molecule_list[j-1] + i[j] *)
        k ← py_index (length ml) (Z.of_nat j - 1);
        match ml !! k with
        | Some (PStr s) => Ok (<[k := PStr (s +:+ String c "")]> ml)
        | Some (PFloat _) => Raise TypeError
        | None => Raise IndexError
        end
      else Ok ml
  end.

Fixpoint scan_from (i : string) (j : nat) (ml : list pyval)
  : result (list pyval) :=
  match i with
  | EmptyString => Ok ml
  | String c i' => ml' ← scan_char ml j c; scan_from i' (S j) ml'
  end.

Definition molecule_list_of (i : string) : result (list pyval) :=
  scan_from i 0 [].

(** The body of the second loop, at index [j] of [molecule_list]. *)
Definition weigh_at (ml : list pyval) (totmass : float) (j : nat)
  : result float :=
  match ml !! j with
  | Some (PStr s) =>
      mass ← ele_mass s;
      let num :=
        try_default (v ← py_get ml (Z.of_nat j + 1); py_float v) 1%float in
      Ok (totmass + mass * num)%float
  | _ => Ok totmass
  end.

Definition totmass_of (ml : list pyval) : result float :=
  foldM (weigh_at ml) 0%float (seq 0 (length ml)).

(** One turn of [for i in molecule]. *)
Definition weight_of (i : string) : result float :=
  ml ← molecule_list_of i; totmass_of ml.

(** The argument is a str or a list of str. *)
Inductive molecule_arg : Type :=
| MStr (s : string)
| MList (l : list string).

Definition get_weights (molecule : molecule_arg)
  : result (gmap string float) :=
  let molecule :=
    match molecule with MStr s => [s] | MList l => l end in
  foldM (fun weights i => m ← weight_of i; Ok (<[i := m]> weights))
        ∅ molecule.

(** [self.get_weights([i])[i]], as the profile loaders call it. *)
Definition weight_lookup (i : string) : result float :=
  weights ← get_weights (MList [i]);
  match weights !! i with
  | Some m => Ok m
  | None => Raise (KeyError i)
  end.

End Weights.

(** A few rows of the element table, for the examples. *)
Definition sample_elements (s : string) : option float :=
  if String.eqb s "H" then Some 1.00794%float
  else if String.eqb s "He" then Some 4.002602%float
  else if String.eqb s "C" then Some 12.0107%float
  else if String.eqb s "N" then Some 14.0067%float
  else if String.eqb s "O" then Some 15.9994%float
  else if String.eqb s "Na" then Some 22.98977%float
  else if String.eqb s "Cl" then Some 35.453%float
  else if String.eqb s "Ti" then Some 47.867%float
  else None.


(** ** numpy arrays

    An array of rank 1 is a list of cells, one of higher rank a list of
    arrays of the rank below, in the order of the indices.  (An array with
    no rows does not record its trailing dimensions.) *)

Abbreviation arr1 := (list float).
Abbreviation arr2 := (list (list float)).
Abbreviation arr3 := (list (list (list float))).
Abbreviation arr4 := (list (list (list (list float)))).

Inductive ndarray : Type :=
| A1 (a : arr1)
| A2 (a : arr2)
| A3 (a : arr3)
| A4 (a : arr4).

Definition ndim (a : ndarray) : nat :=
  match a with A1 _ => 1 | A2 _ => 2 | A3 _ => 3 | A4 _ => 4 end.

(** [a.shape[0]] *)
Definition nrows (a : ndarray) : nat :=
  match a with
  | A1 a => length a | A2 a => length a | A3 a => length a | A4 a => length a
  end.

Fixpoint mapR {A B} (f : A -> result B) (l : list A) : result (list B) :=
  match l with
  | [] => Ok []
  | a :: l' => b ← f a; bs ← mapR f l'; Ok (b :: bs)
  end.

(** Cell by cell over two arrays of one length; numpy refuses the rest. *)
Fixpoint zipR {A B C} (f : A -> B -> result C) (l : list A) (k : list B)
  : result (list C) :=
  match l, k with
  | [], [] => Ok []
  | a :: l', b :: k' => c ← f a b; cs ← zipR f l' k'; Ok (c :: cs)
  | _, _ => Raise ValueError
  end.

(** The right-hand side of a slice assignment: of the slice's length, or
    of length one and repeated. *)
Definition broadcast {A} (n : nat) (l : list A) : result (list A) :=
  if decide (length l = n) then Ok l
  else match l with
       | [x] => Ok (replicate n x)
       | _ => Raise ValueError
       end.

(** [np.zeros(shape)]; a negative dimension is refused. *)
Definition zeros1 (n : Z) : result arr1 :=
  if (n <? 0)%Z then Raise ValueError else Ok (replicate (Z.to_nat n) 0%float).
Definition zeros2 (n : Z) (m : nat) : result arr2 :=
  if (n <? 0)%Z then Raise ValueError
  else Ok (replicate (Z.to_nat n) (replicate m 0%float)).
Definition zeros3 (n : Z) (g t : nat) : result arr3 :=
  if (n <? 0)%Z then Raise ValueError
  else Ok (replicate (Z.to_nat n) (replicate g (replicate t 0%float))).
Definition zeros4 (n : Z) (m g t : nat) : result arr4 :=
  if (n <? 0)%Z then Raise ValueError
  else Ok (replicate (Z.to_nat n)
             (replicate m (replicate g (replicate t 0%float)))).

(** [p[g, t]] and [p[g, t] = x] on a gangle by tangle plane. *)
Definition cell (p : arr2) (g t : nat) : result float :=
  match p !! g with
  | Some row =>
      match row !! t with
      | Some x => Ok x
      | None => Raise IndexError
      end
  | None => Raise IndexError
  end.

Definition set_cell (p : arr2) (g t : nat) (x : float) : result arr2 :=
  match p !! g with
  | Some row =>
      if decide (t < length row) then Ok (<[g := <[t := x]> row]> p)
      else Raise IndexError
  | None => Raise IndexError
  end.

(** [a[:, g, t]] and [a[:, g, t] = col] *)
Definition slice3 (a : arr3) (g t : nat) : result arr1 :=
  mapR (fun p => cell p g t) a.

Definition assign3 (a : arr3) (g t : nat) (col : arr1) : result arr3 :=
  col' ← broadcast (length a) col;
  zipR (fun p x => set_cell p g t x) a col'.

(** [a[:, :, g, t]] and [a[:, :, g, t] = m] *)
Definition slice4 (a : arr4) (g t : nat) : result arr2 :=
  mapR (fun lv => slice3 lv g t) a.

Definition assign4 (a : arr4) (g t : nat) (m : arr2) : result arr4 :=
  m' ← broadcast (length a) m;
  zipR (fun lv row => assign3 lv g t row) a m'.

(** [a[1:]] and [a[:-1]] *)
Definition py_tail {A} (l : list A) : list A := drop 1 l.
Definition py_init {A} (l : list A) : list A := take (length l - 1) l.

(** ** Level to layer

    [0.5*(x[1:] + x[:-1])] and [np.sqrt(x[1:] * x[:-1])] on a column, and
    the first of them row by row on a matrix and plane by plane on an
    array of rank three. *)

Definition mean2 (hi lo : float) : float := (0.5 * (hi + lo))%float.
Definition geomean2 (hi lo : float) : float := sqrt (hi * lo)%float.

Definition layer_mean (lev : arr1) : arr1 :=
  zip_with mean2 (py_tail lev) (py_init lev).

Definition layer_geomean (lev : arr1) : arr1 :=
  zip_with geomean2 (py_tail lev) (py_init lev).

Definition layer_mean2 (lev : arr2) : arr2 :=
  zip_with (zip_with mean2) (py_tail lev) (py_init lev).

(** [0.5*(w[:-1] + w[1:])], the operands in the order of [get_mmw]. *)
Definition mean2' (lo hi : float) : float := (0.5 * (lo + hi))%float.

Definition layer_mean_mmw (lev : arr1) : arr1 :=
  zip_with mean2' (py_init lev) (py_tail lev).

Definition layer_mean_mmw3 (lev : arr3) : arr3 :=
  zip_with (zip_with (zip_with mean2')) (py_init lev) (py_tail lev).

(** [(p[1:] - p[:-1]) / gravity] *)
Definition layer_colden (gravity : float) (p : arr1) : arr1 :=
  zip_with (fun hi lo => ((hi - lo) / gravity)%float) (py_tail p) (py_init p).

Definition layer_colden3 (gravity : float) (p : arr3) : arr3 :=
  zip_with (zip_with (zip_with (fun hi lo => ((hi - lo) / gravity)%float)))
           (py_tail p) (py_init p).

(** ** Tables

    A pandas DataFrame (and a dict of columns) is a list of named columns
    in column order; the one-row frame [weights] pairs a name with a mass. *)

Abbreviation frame := (list (string * list float)).

Fixpoint assoc_get {V} (k : string) (l : list (string * V)) : option V :=
  match l with
  | [] => None
  | (k', v) :: l' => if String.eqb k k' then Some v else assoc_get k l'
  end.

(** [frame[k] = v]: in place when the column exists, appended otherwise. *)
Fixpoint assoc_set {V} (k : string) (v : V) (l : list (string * V))
  : list (string * V) :=
  match l with
  | [] => [(k, v)]
  | (k', v') :: l' =>
      if String.eqb k k' then (k, v) :: l' else (k', v') :: assoc_set k v l'
  end.

Definition frame_keys {V} (f : list (string * V)) : list string := f.*1.

Definition py_in (k : string) (l : list string) : bool :=
  existsb (String.eqb k) l.

(** [read[k].values] *)
Definition frame_col (f : frame) (k : string) : result arr1 :=
  match assoc_get k f with
  | Some c => Ok c
  | None => Raise (KeyError k)
  end.

Definition frame_nrows (f : frame) : nat :=
  match f with
  | [] => 0
  | (_, c) :: _ => length c
  end.

(** [read[keys].as_matrix()]: one row per row of the frame. *)
Definition as_matrix (n : nat) (cols : list arr1) : arr2 :=
  (fun r => (fun c : arr1 => default 0%float (c !! r)) <$> cols) <$> seq 0 n.

Definition frame_matrix (f : frame) (keys : list string) : result arr2 :=
  cols ← mapR (frame_col f) keys;
  Ok (as_matrix (frame_nrows f) cols).

(** [np.where(k == np.array(header))[0][0]] *)
Fixpoint index_of (k : string) (header : list string) : result nat :=
  match header with
  | [] => Raise IndexError
  | h :: header' =>
      if String.eqb k h then Ok 0 else S <$> index_of k header'
  end.

(** [l.pop(k)], the list that is left. *)
Definition list_pop {A} (l : list A) (k : nat) : result (list A) :=
  if decide (k < length l) then Ok (delete k l) else Raise IndexError.

(** [s.split(',')] *)
Fixpoint split_comma_aux (s : string) (cur : string) : list string :=
  match s with
  | EmptyString => [cur]
  | String c s' =>
      if Ascii.eqb c ","%char then cur :: split_comma_aux s' ""
      else split_comma_aux s' (cur +:+ String c "")
  end.

Definition split_comma (s : string) : list string := split_comma_aux s "".

(** ** Configuration and instance state *)

Inductive cfgval : Type :=
| VNone
| VNumber (x : float)
| VStr (s : string).

(** [isinstance(v, (float, int))] *)
Definition is_number (v : cfgval) : bool :=
  match v with VNumber _ => true | _ => false end.

(** [input['atmosphere']['profile']['profile']] *)
Inductive profile_obj : Type :=
| PFrame (f : frame)
| PDict (f : frame)
| POther.

Record config : Type := mk_config {
  num_gangle : nat;
  num_tangle : nat;
  profile_type : string;
  profile_filepath : option string;
  profile_profile : profile_obj;
  whichones : option (list string);
  PT_T : cfgval;
  PT_logg1 : cfgval;
  PT_logKir : cfgval;
  PT_logPc : cfgval;
  clouds_filepath : option string;
  clouds_wavenumber : string;
  scattering_g0 : option float;
  scattering_w0 : option float
}.

(** The attributes of an [ATMSETUP] instance that the methods below read
    or write; [None] is an attribute not set yet.  [layer_cloud] and
    [layer_scattering] are the dictionaries [self.layer['cloud']] and
    [self.layer['scattering']]. *)
Record atmsetup : Type := mk_atmsetup {
  dimension : option string;
  nlevel : option Z;
  nlayer : option Z;
  input_npts_wave : option nat;
  output_npts_wave : option nat;
  level : gmap string ndarray;
  layer : gmap string ndarray;
  layer_cloud : option (gmap string ndarray);
  layer_scattering : option (gmap string ndarray);
  molecules : option (list string);
  weights : option (list (string * float));
  continuum_molecules : option (list (string * string));
  gangles : option (list string);
  tangles : option (list string);
  gravity : option float;
  warnings : list string
}.

(** [ATMSETUP.__init__] *)
Definition init_atmsetup : atmsetup :=
  mk_atmsetup None None None None None ∅ ∅ None None None None None None None
              None [].

Definition set_dimension (d : string) (st : atmsetup) : atmsetup :=
  mk_atmsetup (Some d) (nlevel st) (nlayer st) (input_npts_wave st)
    (output_npts_wave st) (level st) (layer st) (layer_cloud st)
    (layer_scattering st) (molecules st) (weights st)
    (continuum_molecules st) (gangles st) (tangles st) (gravity st)
    (warnings st).

Definition set_nlevels (n : Z) (st : atmsetup) : atmsetup :=
  mk_atmsetup (dimension st) (Some n) (Some (n - 1)%Z) (input_npts_wave st)
    (output_npts_wave st) (level st) (layer st) (layer_cloud st)
    (layer_scattering st) (molecules st) (weights st)
    (continuum_molecules st) (gangles st) (tangles st) (gravity st)
    (warnings st).

Definition set_npts (n_in n_out : nat) (st : atmsetup) : atmsetup :=
  mk_atmsetup (dimension st) (nlevel st) (nlayer st) (Some n_in)
    (Some n_out) (level st) (layer st) (layer_cloud st)
    (layer_scattering st) (molecules st) (weights st)
    (continuum_molecules st) (gangles st) (tangles st) (gravity st)
    (warnings st).

Definition set_level (k : string) (a : ndarray) (st : atmsetup) : atmsetup :=
  mk_atmsetup (dimension st) (nlevel st) (nlayer st) (input_npts_wave st)
    (output_npts_wave st) (<[k := a]> (level st)) (layer st) (layer_cloud st)
    (layer_scattering st) (molecules st) (weights st)
    (continuum_molecules st) (gangles st) (tangles st) (gravity st)
    (warnings st).

Definition set_layer (k : string) (a : ndarray) (st : atmsetup) : atmsetup :=
  mk_atmsetup (dimension st) (nlevel st) (nlayer st) (input_npts_wave st)
    (output_npts_wave st) (level st) (<[k := a]> (layer st)) (layer_cloud st)
    (layer_scattering st) (molecules st) (weights st)
    (continuum_molecules st) (gangles st) (tangles st) (gravity st)
    (warnings st).

Definition set_cloud (d : gmap string ndarray) (st : atmsetup) : atmsetup :=
  mk_atmsetup (dimension st) (nlevel st) (nlayer st) (input_npts_wave st)
    (output_npts_wave st) (level st) (layer st) (Some d)
    (layer_scattering st) (molecules st) (weights st)
    (continuum_molecules st) (gangles st) (tangles st) (gravity st)
    (warnings st).

Definition set_scattering (d : gmap string ndarray) (st : atmsetup)
  : atmsetup :=
  mk_atmsetup (dimension st) (nlevel st) (nlayer st) (input_npts_wave st)
    (output_npts_wave st) (level st) (layer st) (layer_cloud st)
    (Some d) (molecules st) (weights st)
    (continuum_molecules st) (gangles st) (tangles st) (gravity st)
    (warnings st).

Definition set_molecules (l : list string) (st : atmsetup) : atmsetup :=
  mk_atmsetup (dimension st) (nlevel st) (nlayer st) (input_npts_wave st)
    (output_npts_wave st) (level st) (layer st) (layer_cloud st)
    (layer_scattering st) (Some l) (weights st)
    (continuum_molecules st) (gangles st) (tangles st) (gravity st)
    (warnings st).

Definition set_weights (w : list (string * float)) (st : atmsetup)
  : atmsetup :=
  mk_atmsetup (dimension st) (nlevel st) (nlayer st) (input_npts_wave st)
    (output_npts_wave st) (level st) (layer st) (layer_cloud st)
    (layer_scattering st) (molecules st) (Some w)
    (continuum_molecules st) (gangles st) (tangles st) (gravity st)
    (warnings st).

Definition set_continuum (l : list (string * string)) (st : atmsetup)
  : atmsetup :=
  mk_atmsetup (dimension st) (nlevel st) (nlayer st) (input_npts_wave st)
    (output_npts_wave st) (level st) (layer st) (layer_cloud st)
    (layer_scattering st) (molecules st) (weights st)
    (Some l) (gangles st) (tangles st) (gravity st)
    (warnings st).

Definition set_angles (gs ts : option (list string)) (st : atmsetup)
  : atmsetup :=
  mk_atmsetup (dimension st) (nlevel st) (nlayer st) (input_npts_wave st)
    (output_npts_wave st) (level st) (layer st) (layer_cloud st)
    (layer_scattering st) (molecules st) (weights st)
    (continuum_molecules st) gs ts (gravity st)
    (warnings st).

Definition set_gravity (g : float) (st : atmsetup) : atmsetup :=
  mk_atmsetup (dimension st) (nlevel st) (nlayer st) (input_npts_wave st)
    (output_npts_wave st) (level st) (layer st) (layer_cloud st)
    (layer_scattering st) (molecules st) (weights st)
    (continuum_molecules st) (gangles st) (tangles st) (Some g)
    (warnings st).

(** [add_warnings]: [self.warnings += [warn]] *)
Definition add_warnings (warn : string) (st : atmsetup) : atmsetup :=
  mk_atmsetup (dimension st) (nlevel st) (nlayer st) (input_npts_wave st)
    (output_npts_wave st) (level st) (layer st) (layer_cloud st)
    (layer_scattering st) (molecules st) (weights st)
    (continuum_molecules st) (gangles st) (tangles st) (gravity st)
    (warnings st ++ [warn]).

(** Reading an attribute or a dictionary entry. *)
Definition attr {A} (name : string) (o : option A) : result A :=
  match o with
  | Some a => Ok a
  | None => Raise (AttributeError name)
  end.

Definition item {A} (k : string) (d : gmap string A) : result A :=
  match d !! k with
  | Some a => Ok a
  | None => Raise (KeyError k)
  end.

(** [self.c.pconv = 1e6], bars to dyn/cm2 *)
Definition pconv : float := 1e6%float.

(** ** The profile loaders *)

(** An HDF5 file as the loader reads it: the [header] attribute and the
    groups by gangle and tangle label, each leaf a levels by columns
    table. *)
Record h5file : Type := mk_h5file {
  h5_header : string;
  h5_groups : list (string * list (string * arr2))
}.

Section Atmosphere.

(** What the class takes from its collaborators: the element table, the
    file readers, the Boltzmann constant, numpy's dot product of two
    vectors, and the wavenumber grid helpers of [picaso.wavelength]. *)
Variable ele : string -> option float.
Variable read_csv : string -> result frame.
Variable h5py_File : option string -> result h5file.
Variable path_exists : string -> bool.
Variable k_b : float.
Variable np_dot : arr1 -> arr1 -> float.
Variable get_cld_input_grid : string -> arr1.
Variable regrid : arr2 -> arr1 -> arr1 -> arr2.

Variable cfg : config.

(** [self.level['electrons'] = read['e-'].values] and its layer. *)
Definition load_electrons (read : frame) (st : atmsetup) : result atmsetup :=
  e ← frame_col read "e-";
  Ok (set_layer "electrons" (A1 (layer_mean e))
        (set_level "electrons" (A1 e) st)).

(** One turn of the loop over [whichones]. *)
Definition whichones_step (read : frame)
    (acc : list (string * float) * atmsetup) (i : string)
  : result (list (string * float) * atmsetup) :=
  let '(weights, st) := acc in
  match weight_lookup ele i with
  | Ok m => Ok (assoc_set i m weights, st)
  | Raise _ =>
      if String.eqb i "e-" then
        st' ← load_electrons read st; Ok (weights, st')
      else
        Raise (Exception ("Molecule " +:+ i +:+
          " in whichones is not recognized, check list and resubmit"))
  end.

(** One turn of the loop over [read.keys()]. *)
Definition column_step (read : frame)
    (acc : list (string * float) * atmsetup) (i : string)
  : result (list (string * float) * atmsetup) :=
  let '(weights, st) := acc in
  if py_in i ["pressure"; "temperature"] then Ok (weights, st)
  else
    match m ← weight_lookup ele i;
          mols ← attr "molecules" (molecules st); Ok (m, mols) with
    | Ok (m, mols) =>
        Ok (assoc_set i m weights, set_molecules (mols ++ [i]) st)
    | Raise _ =>
        if String.eqb i "e-" then
          st' ← load_electrons read st; Ok (weights, st')
        else
          Ok (weights,
              add_warnings ("Ignoring " +:+ i +:+
                " in input file, not recognized molecule") st)
    end.

(** [calc_PT] *)
Definition calc_PT (T logKir logg1 logPc : cfgval) : result frame :=
  Raise (Exception "TODO: Temperature parameterization option not included yet").

(** The block under [#GET TP PROFILE]: the columns of the frame, or the
    analytic profile. *)
Definition load_pt (read : frame) (st : atmsetup) : result atmsetup :=
  if py_in "temperature" (frame_keys read)
     && py_in "pressure" (frame_keys read) then
    temp ← frame_col read "temperature";
    let st := set_level "temperature" (A1 temp) st in
    pres ← frame_col read "pressure";
    let pres := (fun p => (p * pconv)%float) <$> pres in
    let st := set_level "pressure" (A1 pres) st in
    let st := set_layer "temperature" (A1 (layer_mean temp)) st in
    Ok (set_layer "pressure" (A1 (layer_geomean pres)) st)
  else if is_number (PT_T cfg) && is_number (PT_logg1 cfg)
          && is_number (PT_logKir cfg) && is_number (PT_logPc cfg) then
    (* self.profile = calc_TP(T, logKir, logg1, logPc): no such name *)
    Raise (NameError "calc_TP")
  else
    Raise (Exception
      "There is not adequte information to compute PT profile").

(** [get_profile].  The frame is a DataFrame ([true]) or a dict. *)
Definition get_profile (st : atmsetup) : result atmsetup :=
  let st := set_dimension "1d" st in
  '(is_frame, read) ←
    (if String.eqb (profile_type cfg) "user" then
       match profile_filepath cfg with
       | Some path => f ← read_csv path; Ok (true, f)
       | None =>
           match profile_profile cfg with
           | PFrame f => Ok (true, f)
           | PDict f => Ok (false, f)
           | POther =>
               Raise (Exception
                 "Provide dictionary or a pointer to pointer to filepath")
           end
       end
     else
       Raise (Exception "TODO: only capability for user is included right now"));
  '(weights, st) ←
    match whichones cfg with
    | Some l =>
        let st := set_molecules l st in
        if decide (1 <= length l) then foldM (whichones_step read) ([], st) l
        else Ok ([], st)
    | None =>
        foldM (column_step read) ([], set_molecules [] st) (frame_keys read)
    end;
  (* self.level['mixingratios'] = read[list(weights.keys())].as_matrix() *)
  m ← (if is_frame : bool then frame_matrix read (frame_keys weights)
       else Raise TypeError);
  let st := set_level "mixingratios" (A2 m) st in
  let st := set_layer "mixingratios" (A2 (layer_mean2 m)) st in
  let st := set_weights weights st in
  st ← load_pt read st;
  Ok (set_nlevels (Z.of_nat (length m)) st).

(** [l[i]] for an index that is not negative. *)
Definition nth_r {A} (l : list A) (i : nat) : result A :=
  match l !! i with
  | Some a => Ok a
  | None => Raise IndexError
  end.

Definition assoc_item {V} (k : string) (l : list (string * V)) : result V :=
  match assoc_get k l with
  | Some v => Ok v
  | None => Raise (KeyError k)
  end.

(** [h5db[self.gangles[g]][self.tangles[t]].value] *)
Definition dataset (h5db : h5file) (gs ts : list string) (g t : nat)
  : result arr2 :=
  gname ← nth_r gs g;
  grp ← assoc_item gname (h5_groups h5db);
  tname ← nth_r ts t;
  assoc_item tname grp.

(** [tbl[:, k]] and [tbl[:, ks]] *)
Definition table_col (tbl : arr2) (k : nat) : result arr1 :=
  mapR (fun row => nth_r row k) tbl.

Definition table_cols (tbl : arr2) (ks : list nat) : result arr2 :=
  mapR (fun row => mapR (nth_r row) ks) tbl.

(** Entries of [self.level] and [self.layer] read as arrays of a rank. *)
Definition item3 (k : string) (d : gmap string ndarray) : result arr3 :=
  a ← item k d;
  match a with
  | A3 a => Ok a
  | _ => Raise IndexError
  end.

Definition item4 (k : string) (d : gmap string ndarray) : result arr4 :=
  a ← item k d;
  match a with
  | A4 a => Ok a
  | _ => Raise IndexError
  end.

(** A local variable that is bound on some paths only. *)
Definition local {A} (name : string) (o : option A) : result A :=
  match o with
  | Some a => Ok a
  | None => Raise (UnboundLocalError name)
  end.

(** The local variables of [get_profile_3d] that the loops change. *)
Record locals3d : Type := mk_locals3d {
  lc_first : bool;
  lc_itemp : option nat;
  lc_ipress : option nat;
  lc_iheader : list nat;
  lc_self : atmsetup
}.

(** One turn of the loop over [iheader] in the first pass. *)
Definition register_step (header : list string)
    (acc : list (string * float) * list string)
    (i : nat) : result (list (string * float) * list string) :=
  let '(weights, mols) := acc in
  name ← nth_r header i;
  m ← weight_lookup ele name;
  Ok (assoc_set name m weights, mols ++ [name]).

(** The block under [if first:]. *)
Definition first_pass (header : list string) (ielec : option nat)
    (nlev : nat) (lc : locals3d) : result locals3d :=
  itemp ← index_of "temperature" header;
  ipress ← index_of "pressure" header;
  ie ← local "ielec" ielec;
  ih ← list_pop (lc_iheader lc) ie;
  ih ← list_pop ih itemp;
  ih ← list_pop ih ipress;
  let num_mol := length ih in
  lm ← zeros4 (Z.of_nat nlev) num_mol (num_gangle cfg) (num_tangle cfg);
  ym ← zeros4 (Z.of_nat nlev - 1) num_mol (num_gangle cfg) (num_tangle cfg);
  let st := set_level "mixingratios" (A4 lm) (lc_self lc) in
  let st := set_layer "mixingratios" (A4 ym) st in
  '(weights, mols) ←
    foldM (register_step header) ([], []) ih;
  Ok (mk_locals3d false (Some itemp) (Some ipress) ih
        (set_molecules mols (set_weights weights st))).

(** [self.level[k][:, g, t] = col] followed by
    [self.layer[k][:, g, t] = f(self.level[k][1:, g, t], self.level[k][:-1, g, t])] *)
Definition fill_facet3 (k : string) (f : float -> float -> float)
    (g t : nat) (col : arr1) (st : atmsetup) : result atmsetup :=
  lev ← item3 k (level st);
  lev ← assign3 lev g t col;
  let st := set_level k (A3 lev) st in
  lay ← item3 k (layer st);
  lev ← item3 k (level st);
  hi ← slice3 (py_tail lev) g t;
  lo ← slice3 (py_init lev) g t;
  lay ← assign3 lay g t (zip_with f hi lo);
  Ok (set_layer k (A3 lay) st).

Definition fill_facet4 (k : string) (g t : nat) (m : arr2) (st : atmsetup)
  : result atmsetup :=
  lev ← item4 k (level st);
  lev ← assign4 lev g t m;
  let st := set_level k (A4 lev) st in
  lay ← item4 k (layer st);
  lev ← item4 k (level st);
  hi ← slice4 (py_tail lev) g t;
  lo ← slice4 (py_init lev) g t;
  lay ← assign4 lay g t (zip_with (zip_with mean2) hi lo);
  Ok (set_layer k (A4 lay) st).

(** The body of the loops over [g] and [t]. *)
Definition facet_body (h5db : h5file) (header : list string)
    (electron : bool) (ielec : option nat) (nlev : nat)
    (lc : locals3d) (g t : nat) : result locals3d :=
  lc ← (if lc_first lc then first_pass header ielec nlev lc else Ok lc);
  let st := lc_self lc in
  gs ← attr "gangles" (gangles st);
  ts ← attr "tangles" (tangles st);
  st ←
    (if electron then
       tbl ← dataset h5db gs ts g t;
       ie ← local "ielec" ielec;
       col ← table_col tbl ie;
       fill_facet3 "electrons" mean2 g t col st
     else Ok st);
  tbl ← dataset h5db gs ts g t;
  itemp ← local "itemp" (lc_itemp lc);
  col ← table_col tbl itemp;
  st ← fill_facet3 "temperature" mean2 g t col st;
  tbl ← dataset h5db gs ts g t;
  ipress ← local "ipress" (lc_ipress lc);
  col ← table_col tbl ipress;
  st ← fill_facet3 "pressure" geomean2 g t
         ((fun p => (p * pconv)%float) <$> col) st;
  tbl ← dataset h5db gs ts g t;
  m ← table_cols tbl (lc_iheader lc);
  st ← fill_facet4 "mixingratios" g t m st;
  Ok (mk_locals3d (lc_first lc) (lc_itemp lc) (lc_ipress lc)
        (lc_iheader lc) st).

(** [get_profile_3d] *)
Definition get_profile_3d (st : atmsetup) : result atmsetup :=
  let st := set_dimension "3d" st in
  h5db ← h5py_File (profile_filepath cfg);
  let header := split_comma (h5_header h5db) in
  let iheader := seq 0 (length header) in
  let gs := (h5_groups h5db).*1 in
  let st := set_angles (Some gs) (tangles st) st in
  let ng := num_gangle cfg in
  g0 ← nth_r gs 0;
  grp0 ← assoc_item g0 (h5_groups h5db);
  let ts := grp0.*1 in
  let st := set_angles (gangles st) (Some ts) st in
  let nt := num_tangle cfg in
  t0 ← nth_r ts 0;
  tbl0 ← assoc_item t0 grp0;
  let nlev := length tbl0 in
  let st := set_nlevels (Z.of_nat nlev) st in
  a ← zeros3 (Z.of_nat nlev) ng nt;
  let st := set_level "temperature" (A3 a) st in
  a ← zeros3 (Z.of_nat nlev) ng nt;
  let st := set_level "pressure" (A3 a) st in
  a ← zeros3 (Z.of_nat nlev - 1) ng nt;
  let st := set_layer "temperature" (A3 a) st in
  a ← zeros3 (Z.of_nat nlev - 1) ng nt;
  let st := set_layer "pressure" (A3 a) st in
  '(electron, ielec, st) ←
    (if py_in "e-" header then
       a ← zeros3 (Z.of_nat nlev) ng nt;
       let st := set_level "electrons" (A3 a) st in
       a ← zeros3 (Z.of_nat nlev - 1) ng nt;
       let st := set_layer "electrons" (A3 a) st in
       ie ← index_of "e-" header;
       Ok (true, Some ie, st)
     else Ok (false, None, st));
  lc ← foldM (fun lc g =>
                foldM (fun lc t =>
                         facet_body h5db header electron ielec nlev lc g t)
                      lc (seq 0 nt))
             (mk_locals3d true None None iheader st) (seq 0 ng);
  Ok (lc_self lc).

(** ** Physical derivations *)

Definition item1 (k : string) (d : gmap string ndarray) : result arr1 :=
  a ← item k d;
  match a with
  | A1 a => Ok a
  | _ => Raise ValueError
  end.

Definition item2 (k : string) (d : gmap string ndarray) : result arr2 :=
  a ← item k d;
  match a with
  | A2 a => Ok a
  | _ => Raise ValueError
  end.

(** [self.weights.values[0]], the masses in column order. *)
Definition weights_row (st : atmsetup) : result arr1 :=
  w ← attr "weights" (weights st);
  match w with
  | [] => Raise IndexError
  | _ => Ok w.*2
  end.

(** [m @ w] for a matrix and a vector. *)
Definition matvec (m : arr2) (w : arr1) : result arr1 :=
  mapR (fun row =>
          if decide (length row = length w) then Ok (np_dot row w)
          else Raise ValueError) m.

(** [0.5*(w[:-1] + w[1:])] on an array of rank one or three. *)
Definition nd_layer_mmw (w : ndarray) : result ndarray :=
  match w with
  | A1 w => Ok (A1 (layer_mean_mmw w))
  | A3 w => Ok (A3 (layer_mean_mmw3 w))
  | _ => Raise ValueError
  end.

(** [get_mmw].  In the 1-D state the level mixing ratios are the matrix
    [get_profile] stored. *)
Definition get_mmw (st : atmsetup) : result atmsetup :=
  dim ← attr "dimension" (dimension st);
  weighted_matrix ←
    (if String.eqb dim "1d" then
       m ← item2 "mixingratios" (level st);
       w ← weights_row st;
       A1 <$> matvec m w
     else if String.eqb dim "3d" then
       n ← attr "nlevel" (nlevel st);
       wm ← zeros3 n (num_gangle cfg) (num_tangle cfg);
       A3 <$>
         foldM (fun wm g =>
                  foldM (fun wm t =>
                           m ← item4 "mixingratios" (level st);
                           m ← slice4 m g t;
                           w ← weights_row st;
                           v ← matvec m w;
                           assign3 wm g t v)
                        wm (seq 0 (num_tangle cfg)))
               wm (seq 0 (num_gangle cfg))
     else Raise (UnboundLocalError "weighted_matrix"));
  let st := set_level "mmw" weighted_matrix st in
  lay ← nd_layer_mmw weighted_matrix;
  Ok (set_layer "mmw" lay st).

(** Cell by cell on two arrays of one shape. *)
Definition nd_zip (f : float -> float -> float) (a b : ndarray)
  : result ndarray :=
  match a, b with
  | A1 a, A1 b => A1 <$> zipR (fun x y => Ok (f x y)) a b
  | A2 a, A2 b => A2 <$> zipR (zipR (fun x y => Ok (f x y))) a b
  | A3 a, A3 b => A3 <$> zipR (zipR (zipR (fun x y => Ok (f x y)))) a b
  | A4 a, A4 b =>
      A4 <$> zipR (zipR (zipR (zipR (fun x y => Ok (f x y))))) a b
  | _, _ => Raise ValueError
  end.

(** [get_density]: [pressure / (k_b * temperature)] *)
Definition get_density (st : atmsetup) : result atmsetup :=
  p ← item "pressure" (level st);
  t ← item "temperature" (level st);
  den ← nd_zip (fun p t => (p / (k_b * t))%float) p t;
  Ok (set_level "den" den st).

(** [get_column_density] *)
Definition get_column_density (st : atmsetup) : result atmsetup :=
  p ← item "pressure" (level st);
  g ← attr "gravity" (gravity st);
  match p with
  | A1 p => Ok (set_layer "colden" (A1 (layer_colden g p)) st)
  | A3 p => Ok (set_layer "colden" (A3 (layer_colden3 g p)) st)
  | _ => Raise ValueError
  end.

(** ** The continuum selector, [get_needed_continuum] *)

Definition line_excluded : list string :=
  ["H"; "H2-"; "H2"; "H-"; "He"; "N2"; "H+"].

Definition get_needed_continuum (st : atmsetup) : result atmsetup :=
  mols ← attr "molecules" (molecules st);
  let has k := py_in k mols in
  let electrons := bool_decide (is_Some (level st !! "electrons")) in
  let cm := [] in
  let cm := if has "H2" then cm ++ [("H2", "H2")] else cm in
  let cm := if has "H2" && has "He" then cm ++ [("H2", "He")] else cm in
  let cm := if has "H2" && has "N2" then cm ++ [("H2", "N2")] else cm in
  let cm := if has "H2" && has "H" then cm ++ [("H2", "H")] else cm in
  let cm := if has "H2" && has "CH4" then cm ++ [("H2", "CH4")] else cm in
  let cm := if has "H-" then cm ++ [("H-", "bf")] else cm in
  let cm := if has "H" && electrons then cm ++ [("H-", "ff")] else cm in
  let cm := if has "H2" && electrons then cm ++ [("H2", "H2-")] else cm in
  let st := set_continuum cm st in
  (* if 'H+' in ['H','H2-','H2','H-','He','N2'] *)
  let st :=
    if py_in "H+" ["H"; "H2-"; "H2"; "H-"; "He"; "N2"]
    then add_warnings "No H+ continuum opacity included" st else st in
  Ok (set_molecules
        (List.filter (fun x => negb (py_in x line_excluded)) mols) st).

(** ** The cloud loader, [get_clouds] *)

(** [assert b, msg] *)
Definition py_assert (b : bool) (msg : string) : result unit :=
  if b then Ok tt else Raise (AssertionError msg).

(** [np.reshape(col, (n, m))], row by row. *)
Fixpoint chunks (n m : nat) (l : arr1) : arr2 :=
  match n with
  | 0 => []
  | S n' => take m l :: chunks n' m (drop m l)
  end.

Definition reshape2 (n : Z) (m : nat) (l : arr1) : result arr2 :=
  if (n <? 0)%Z then Raise ValueError
  else if decide (length l = Z.to_nat n * m) then Ok (chunks (Z.to_nat n) m l)
  else Raise ValueError.

(** One of the columns [opd], [g0], [w0] of a 1-D cloud file, reshaped
    and put on the output grid. *)
Definition cloud_column (cld_input : frame) (k : string) (nlay : Z)
    (input_wno wno : arr1) : result arr2 :=
  col ← frame_col cld_input k;
  lowres ← reshape2 nlay (length input_wno) col;
  Ok (regrid lowres input_wno wno).

(** One facet of the 3-D clouds: a column of the facet's table, reshaped,
    regridded and stored at [[:, :, g, t]]. *)
Definition cloud_facet (data : arr2) (k : nat) (nlay : Z)
    (input_wno wno : arr1) (a : arr4) (g t : nat) : result arr4 :=
  col ← table_col data k;
  lowres ← reshape2 nlay (length input_wno) col;
  assign4 a g t (regrid lowres input_wno wno).

Definition str_is (o : option string) (s : string) : bool :=
  match o with
  | Some d => String.eqb d s
  | None => false
  end.

Definition cloud_grid_msg : string :=
  "Cloud input file is not on the same grid as the input PT profile:".

Definition cloud_grid_msg_3d : string :=
  "Cloud input file is not on the same grid as the input PT/Angles profile:".

Definition cloud_not_recognized : string :=
  "CLD input not recognized. Either input a filepath, or input None".

(** The branch of the [if]/[elif] chain that the dimension, the cloud
    file path and the flat scattering value select. *)
Inductive cloud_case : Type :=
| CloudFile1d
| CloudFree1d
| CloudFlat1d
| Cloud3d
| CloudOther.

Definition cloud_case_of (st : atmsetup) : result cloud_case :=
  let is_dim d := dim ← attr "dimension" (dimension st); Ok (String.eqb dim d) in
  c1 ← (if bool_decide (is_Some (clouds_filepath cfg)) then is_dim "1d"
        else Ok false);
  if c1 : bool then Ok CloudFile1d
  else
    c2 ← (if bool_decide (clouds_filepath cfg = None)
             && bool_decide (scattering_g0 cfg = None) then is_dim "1d"
          else Ok false);
    if c2 : bool then Ok CloudFree1d
    else
      c3 ← (if bool_decide (clouds_filepath cfg = None)
               && bool_decide (is_Some (scattering_g0 cfg)) then is_dim "1d"
            else Ok false);
      if c3 : bool then Ok CloudFlat1d
      else
        c4 ← is_dim "3d";
        if c4 : bool then Ok Cloud3d else Ok CloudOther.

(** The three cloud arrays of one facet, stored in [self.layer['cloud']]
    as the loop of the 3-D branch does. *)
Definition cloud_facets (cld_input : h5file) (iopd ig0 iw0 : nat) (nlay : Z)
    (input_wno wno : arr1) (acc : arr4 * arr4 * arr4 * atmsetup) (g t : nat)
  : result (arr4 * arr4 * arr4 * atmsetup) :=
  let '(opd, g0, w0, st) := acc in
  gs ← attr "gangles" (gangles st);
  ts ← attr "tangles" (tangles st);
  data ← dataset cld_input gs ts g t;
  _ ← py_assert
        (Z.of_nat (length data) =? nlay * Z.of_nat (length input_wno))%Z
        cloud_grid_msg_3d;
  opd ← cloud_facet data iopd nlay input_wno wno opd g t;
  let st := set_cloud {["opd" := A4 opd]} st in
  g0 ← cloud_facet data ig0 nlay input_wno wno g0 g t;
  d ← attr "cloud" (layer_cloud st);
  let st := set_cloud (<["g0" := A4 g0]> d) st in
  w0 ← cloud_facet data iw0 nlay input_wno wno w0 g t;
  d ← attr "cloud" (layer_cloud st);
  let st := set_cloud (<["w0" := A4 w0]> d) st in
  Ok (opd, g0, w0, st).

Definition get_clouds (wno : arr1) (st : atmsetup) : result atmsetup :=
  let input_wno := get_cld_input_grid (clouds_wavenumber cfg) in
  let st := set_npts (length input_wno) (length wno) st in
  let n_in := length input_wno in
  let n_out := length wno in
  case ← cloud_case_of st;
  match case with
  | CloudFile1d =>
      path ← attr "filepath" (clouds_filepath cfg);
      if path_exists path then
        cld_input ← read_csv path;
        nlay ← attr "nlayer" (nlayer st);
        _ ← py_assert
              (Z.of_nat (frame_nrows cld_input) =? nlay * Z.of_nat n_in)%Z
              cloud_grid_msg;
        _ ← py_assert (py_in "g0" (frame_keys cld_input))
              "Please make sure g0 is a named column in cld file";
        _ ← py_assert (py_in "w0" (frame_keys cld_input))
              "Please make sure w0 is a named column in cld file";
        _ ← py_assert (py_in "opd" (frame_keys cld_input))
              "Please make sure opd is a named column in cld file";
        opd ← cloud_column cld_input "opd" nlay input_wno wno;
        g0 ← cloud_column cld_input "g0" nlay input_wno wno;
        w0 ← cloud_column cld_input "w0" nlay input_wno wno;
        Ok (set_cloud
              (<["w0" := A2 w0]> (<["g0" := A2 g0]> {["opd" := A2 opd]})) st)
      else
        Raise (Exception
          "Cld file specified does not exist. Replace with None or find real file")
  | CloudFree1d =>
      nlay ← attr "nlayer" (nlayer st);
      zeros ← zeros2 nlay n_out;
      Ok (set_cloud
            (<["opd" := A2 zeros]> (<["g0" := A2 zeros]> {["w0" := A2 zeros]}))
            st)
  | CloudFlat1d =>
      nlay ← attr "nlayer" (nlayer st);
      zeros ← zeros2 nlay n_out;
      (* zeros + w0 and zeros + g0; None cannot be added to an array *)
      w0 ← match scattering_w0 cfg with
           | Some x => Ok x
           | None => Raise TypeError
           end;
      g0 ← match scattering_g0 cfg with
           | Some x => Ok x
           | None => Raise TypeError
           end;
      let plus x :=
        (fun row : arr1 => (fun z => (z + x)%float) <$> row) <$> zeros in
      let st :=
        set_scattering (<["g0" := A2 (plus g0)]> {["w0" := A2 (plus w0)]}) st in
      Ok (set_cloud
            (<["opd" := A2 zeros]> (<["g0" := A2 zeros]> {["w0" := A2 zeros]}))
            st)
  | Cloud3d =>
      (* ONLY OPTION FOR 3D INPUT *)
      cld_input ← h5py_File (clouds_filepath cfg);
      nlay ← attr "nlayer" (nlayer st);
      let ng := num_gangle cfg in
      let nt := num_tangle cfg in
      opd ← zeros4 nlay n_out ng nt;
      g0 ← zeros4 nlay n_out ng nt;
      w0 ← zeros4 nlay n_out ng nt;
      let header := split_comma (h5_header cld_input) in
      _ ← py_assert (py_in "g0" header)
            "Please make sure g0 is a named column in hdf5 cld file";
      _ ← py_assert (py_in "w0" header)
            "Please make sure w0 is a named column in hdf5 cld file";
      _ ← py_assert (py_in "opd" header)
            "Please make sure opd is a named column in hdf5 cld file";
      iopd ← index_of "opd" header;
      ig0 ← index_of "g0" header;
      iw0 ← index_of "w0" header;
      '(_, _, _, st) ←
        foldM (fun acc g =>
                 foldM (fun acc t =>
                          cloud_facets cld_input iopd ig0 iw0 nlay input_wno
                                       wno acc g t)
                       acc (seq 0 nt))
              (opd, g0, w0, st) (seq 0 ng);
      Ok st
  | CloudOther => Raise (Exception cloud_not_recognized)
  end.

(** ** The column disaggregator, [disect] *)

(** [p[g, t]] for indices that may be negative. *)
Definition cell_z {A} (p : list (list A)) (g t : Z) : result A :=
  row ← py_get p g; py_get row t.

(** [a[:, g, t]]: the first axis is kept, the next two are indexed. *)
Definition nd_slice (a : ndarray) (g t : Z) : result ndarray :=
  match a with
  | A3 a => A1 <$> mapR (fun p => cell_z p g t) a
  | A4 a => A2 <$> mapR (fun p => cell_z p g t) a
  | _ => Raise IndexError
  end.

(** [a[:, :, g, t]] *)
Definition nd_slice2 (a : ndarray) (g t : Z) : result ndarray :=
  match a with
  | A4 a => A2 <$> mapR (mapR (fun p => cell_z p g t)) a
  | _ => Raise IndexError
  end.

Definition disect_level (k : string) (g t : Z) (st : atmsetup)
  : result atmsetup :=
  a ← item k (level st); a ← nd_slice a g t; Ok (set_level k a st).

Definition disect_layer (k : string) (g t : Z) (st : atmsetup)
  : result atmsetup :=
  a ← item k (layer st); a ← nd_slice a g t; Ok (set_layer k a st).

Definition disect_cloud (k : string) (g t : Z) (st : atmsetup)
  : result atmsetup :=
  d ← match layer_cloud st with
      | Some d => Ok d
      | None => Raise (KeyError "cloud")
      end;
  a ← item k d; a ← nd_slice2 a g t; Ok (set_cloud (<[k := a]> d) st).

Definition disect (g t : Z) (st : atmsetup) : result atmsetup :=
  st ← disect_level "temperature" g t st;
  st ← disect_level "pressure" g t st;
  st ← disect_layer "temperature" g t st;
  st ← disect_layer "pressure" g t st;
  st ← disect_layer "mmw" g t st;
  a ← item "mixingratios" (layer st);
  a ← nd_slice2 a g t;
  let st := set_layer "mixingratios" a st in
  st ← disect_layer "colden" g t st;
  st ← disect_layer "electrons" g t st;
  st ← disect_cloud "opd" g t st;
  st ← disect_cloud "g0" g t st;
  disect_cloud "w0" g t st.

End Atmosphere.

(** ** Gravity, [get_gravity]

    [self.input['planet']] holds the gravity, or the mass and the radius,
    each with its unit (a missing value is [None]).  astropy is not part
    of the sources: [to_unit x unit target] stands for
    [(x * u.Unit(unit)).to(target).value], which fails on a unit that
    cannot be converted, and [newton m r] for
    [(self.c.G * m / (r**2)).value], the quantity arithmetic with the
    constant of gravitation in cgs. *)

Record planet_input : Type := mk_planet_input {
  planet_gravity : option float;
  planet_gravity_unit : option string;
  planet_mass : option float;
  planet_mass_unit : option string;
  planet_radius : option float;
  planet_radius_unit : option string
}.

Section Gravity.

Variable to_unit : float -> option string -> string -> result float.
Variable newton : float -> float -> float.

Definition get_gravity (planet : planet_input) (st : atmsetup)
  : result atmsetup :=
  g ← match planet_gravity planet with
      | Some x => to_unit x (planet_gravity_unit planet) "cm/(s**2)"
      | None =>
          match planet_mass planet, planet_radius planet with
          | Some m, Some r =>
              m ← to_unit m (planet_mass_unit planet) "g";
              r ← to_unit r (planet_radius_unit planet) "cm";
              Ok (newton m r)
          | _, _ =>
              Raise (Exception
                "Need to specify gravity or radius and mass + additional units")
          end
      end;
  Ok (set_gravity g st).

End Gravity.

(** ** Vocabulary of the properties

    The shape of a nested array: its leading dimension and the dimensions
    of every sub-array. *)
Definition shape2 (n m : nat) (p : arr2) : Prop :=
  length p = n /\ Forall (fun r => length r = m) p.

Definition shape3 (n g t : nat) (a : arr3) : Prop :=
  length a = n /\ Forall (shape2 g t) a.

Definition shape4 (n m g t : nat) (a : arr4) : Prop :=
  length a = n /\ Forall (shape3 m g t) a.

(** The level to layer rules as the specification writes them: the layer
    value between the levels [i] and [i+1]. *)
Definition arith_mean (a b : float) : float := (0.5 * (a + b))%float.
Definition geo_mean (a b : float) : float := sqrt (a * b)%float.

(** The number [m] of layers over [n] levels: one less than [n] when there
    is a level, and none when there is none (numpy's [a[1:]] and [a[:-1]]
    of an empty array are both empty). *)
Definition layers_of (n m : nat) : Prop :=
  (1 <= n -> n = m + 1) /\ (n = 0 -> m = 0).

(** [lay] has one entry per pair of adjacent entries of [lev], computed
    by [f] from the pair. *)
Definition layer_rule (f : float -> float -> float) (lev lay : arr1) : Prop :=
  layers_of (length lev) (length lay) /\
  forall i a b, lev !! i = Some a -> lev !! S i = Some b ->
    lay !! i = Some (f a b).

(** The same, column by column of a levels by molecules matrix. *)
Definition cell2 (m : arr2) (i k : nat) : option float :=
  row ← m !! i; row !! k.

Definition layer_rule2 (f : float -> float -> float) (lev lay : arr2) : Prop :=
  layers_of (length lev) (length lay) /\
  forall i k a b, cell2 lev i k = Some a -> cell2 lev (S i) k = Some b ->
    cell2 lay i k = Some (f a b).

(** Level and layer entries of rank three or four under one key, related
    by [P]. *)
Definition has3 (k : string) (P : arr3 -> arr3 -> Prop) (st : atmsetup) : Prop :=
  exists lev lay,
    level st !! k = Some (A3 lev) /\ layer st !! k = Some (A3 lay) /\ P lev lay.

Definition has4 (k : string) (P : arr4 -> arr4 -> Prop) (st : atmsetup) : Prop :=
  exists lev lay,
    level st !! k = Some (A4 lev) /\ layer st !! k = Some (A4 lay) /\ P lev lay.

Definition shapes3 (n ng nt : nat) (lev lay : arr3) : Prop :=
  shape3 n ng nt lev /\ shape3 (n - 1) ng nt lay.

Definition shapes4 (n nm ng nt : nat) (lev lay : arr4) : Prop :=
  shape4 n nm ng nt lev /\ shape4 (n - 1) nm ng nt lay.

(** At the facet [(g, t)] the layer column is computed from the level
    column: as the code writes it, and as the specification does. *)
Definition facet_adj3 (f : float -> float -> float) (g t : nat)
    (lev lay : arr3) : Prop :=
  exists c, slice3 lev g t = Ok c /\
            slice3 lay g t = Ok (zip_with f (py_tail c) (py_init c)).

Definition facet_adj4 (g t : nat) (lev lay : arr4) : Prop :=
  exists m, slice4 lev g t = Ok m /\
            slice4 lay g t
            = Ok (zip_with (zip_with mean2) (py_tail m) (py_init m)).

Definition facet_rule3 (f : float -> float -> float) (g t : nat)
    (lev lay : arr3) : Prop :=
  exists c l, slice3 lev g t = Ok c /\ slice3 lay g t = Ok l /\
              layer_rule f c l.

Definition facet_rule4 (f : float -> float -> float) (g t : nat)
    (lev lay : arr4) : Prop :=
  exists m l, slice4 lev g t = Ok m /\ slice4 lay g t = Ok l /\
              layer_rule2 f m l.

(** Every layer array has its level array, and the two are related by
    [R]. *)
Definition paired (R : ndarray -> ndarray -> Prop) (st : atmsetup) : Prop :=
  forall k lay, layer st !! k = Some lay ->
    exists lev, level st !! k = Some lev /\ R lev lay.

(** The layer array has the rank of the level array, the same dimensions
    behind the leading one, and a leading dimension one less; a level
    array without rows has a layer array without rows. *)
Definition one_row_less (lev lay : ndarray) : Prop :=
  match lev, lay with
  | A1 l, A1 y => layers_of (length l) (length y)
  | A2 l, A2 y =>
      layers_of (length l) (length y) /\
      exists m, shape2 (length l) m l /\ shape2 (length y) m y
  | A3 l, A3 y =>
      layers_of (length l) (length y) /\
      exists g t, shape3 (length l) g t l /\ shape3 (length y) g t y
  | A4 l, A4 y =>
      layers_of (length l) (length y) /\
      exists m g t, shape4 (length l) m g t l /\ shape4 (length y) m g t y
  | _, _ => False
  end.

(** The level and layer arrays under key [k] are columns (matrices)
    related by the level to layer rule of [f]. *)
Definition field_rule1 (k : string) (f : float -> float -> float)
    (st : atmsetup) : Prop :=
  exists lev lay,
    level st !! k = Some (A1 lev) /\ layer st !! k = Some (A1 lay) /\
    layer_rule f lev lay.

Definition field_rule2 (k : string) (f : float -> float -> float)
    (st : atmsetup) : Prop :=
  exists lev lay,
    level st !! k = Some (A2 lev) /\ layer st !! k = Some (A2 lay) /\
    layer_rule2 f lev lay.

(** The electron column is optional. *)
Definition electrons_rule1 (st : atmsetup) : Prop :=
  level st !! "electrons" = None \/ field_rule1 "electrons" arith_mean st.

(** What the molecule loops of [get_profile] keep, given what held of the
    instance before the call. *)
Definition inv1d (P0 E0 : Prop) (st : atmsetup) : Prop :=
  (P0 -> paired one_row_less st) /\ (E0 -> electrons_rule1 st).

(** What the loops of [get_profile_3d] keep: the shapes of the arrays and
    the level counts; and what a turn at facet [gt] leaves behind. *)
Definition loader_inv (P0 : Prop) (electron : bool) (n ng nt : nat)
    (lc : locals3d) : Prop :=
  nlevel (lc_self lc) = Some (Z.of_nat n) /\
  nlayer (lc_self lc) = Some (Z.of_nat n - 1)%Z /\
  (P0 -> paired one_row_less (lc_self lc)) /\
  has3 "temperature" (shapes3 n ng nt) (lc_self lc) /\
  has3 "pressure" (shapes3 n ng nt) (lc_self lc) /\
  (electron = true -> has3 "electrons" (shapes3 n ng nt) (lc_self lc)) /\
  (lc_first lc = false ->
     has4 "mixingratios" (shapes4 n (length (lc_iheader lc)) ng nt)
          (lc_self lc)).

Definition facet_done (electron : bool) (gt : nat * nat) (lc : locals3d)
  : Prop :=
  lc_first lc = false /\
  has3 "temperature" (facet_adj3 mean2 gt.1 gt.2) (lc_self lc) /\
  has3 "pressure" (facet_adj3 geomean2 gt.1 gt.2) (lc_self lc) /\
  (electron = true ->
     has3 "electrons" (facet_adj3 mean2 gt.1 gt.2) (lc_self lc)) /\
  has4 "mixingratios" (facet_adj4 gt.1 gt.2) (lc_self lc).

(** The rule table of the continuum selector as the specification lists
    it: a condition on the molecules present and on the electrons, and the
    pair it adds. *)
Definition continuum_table (has : string -> bool) (electrons : bool)
  : list (bool * (string * string)) :=
  [ (has "H2", ("H2", "H2"));
    (has "H2" && has "He", ("H2", "He"));
    (has "H2" && has "N2", ("H2", "N2"));
    (has "H2" && has "H", ("H2", "H"));
    (has "H2" && has "CH4", ("H2", "CH4"));
    (has "H-", ("H-", "bf"));
    (has "H" && electrons, ("H-", "ff"));
    (has "H2" && electrons, ("H2", "H2-")) ].

Definition table_pairs (has : string -> bool) (electrons : bool)
  : list (string * string) :=
  (List.filter fst (continuum_table has electrons)).*2.

(** ["electrons" in self.level.keys()] *)
Definition has_electrons (st : atmsetup) : bool :=
  bool_decide (is_Some (level st !! "electrons")).



(** ** Sample data for the examples *)

(** A state whose level dictionary holds an electron column. *)
Definition with_electrons (st : atmsetup) : atmsetup :=
  set_level "electrons" (A1 [0.001; 0.002]%float) st.

(** Collaborators for the examples: no file on disk, the HDF5 opener
    refusing a missing name, a profile file whose header is given. *)
Definition no_csv (path : string) : result frame :=
  Raise (ExternalError "No such file or directory").

Definition sample_table (x : float) : arr2 :=
  [ [0.001; 1000; 0.001; 0.5];
    [0.01; 1500; 0.002; 0.25];
    [x; 2000; 0.004; 0.125] ]%float.

Definition sample_h5 (header : string) : h5file :=
  mk_h5file header
    [("g0", [("t0", sample_table 0.1); ("t1", sample_table 0.2)])].

Definition sample_h5py_File (header : string) (path : option string)
  : result h5file :=
  match path with
  | Some _ => Ok (sample_h5 header)
  | None => Raise TypeError
  end.

(** One gangle, two tangles, a profile file, no cloud file. *)
Definition cfg_3d : config :=
  mk_config 1 2 "user" (Some "profile.h5") POther None
            VNone VNone VNone VNone None "wave_grid" None None.

(** A profile frame without temperature and pressure, and the four
    parameters of the analytic profile given as numbers. *)
Definition cfg_pt : config :=
  mk_config 1 1 "user" None
            (PFrame [("H2O", [0.5; 0.25]%float); ("CH4", [0.5; 0.75]%float)])
            None
            (VNumber 1000) (VNumber 1) (VNumber (-1.5)) (VNumber 0.5)
            None "wave_grid" None None.

(** A 1-D profile frame with every kind of column. *)
Definition sample_frame : frame :=
  [ ("pressure", [0.001; 0.01; 0.1]%float);
    ("temperature", [1000; 1500; 2000]%float);
    ("e-", [0.001; 0.002; 0.004]%float);
    ("H2O", [0.5; 0.25; 0.125]%float);
    ("H2", [0.5; 0.75; 0.875]%float) ].

Definition cfg_1d (f : frame) : config :=
  mk_config 1 1 "user" None (PFrame f) None
            VNone VNone VNone VNone None "wave_grid" None None.

(** A 1-D profile table with its columns and without rows. *)
Definition empty_frame : frame :=
  [ ("pressure", []); ("temperature", []); ("H2O", []) ].

(** The cloud grid helpers for the examples: a two point input grid, and
    clouds that are already on the output grid. *)
Definition sample_grid (name : string) : arr1 := [1000; 2000]%float.
Definition no_regrid (v : arr2) (input_wno wno : arr1) : arr2 := v.
Definition no_file (path : string) : bool := false.

(** numpy's dot product for the examples: the products summed from the
    left. *)
Definition dot_left (a b : arr1) : float :=
  fold_left (fun acc p => (acc + p.1 * p.2)%float) (zip a b) 0%float.

(** The state a call returns, for the examples. *)
Definition state_of (r : result atmsetup) : atmsetup :=
  match r with
  | Ok st => st
  | Raise _ => init_atmsetup
  end.

Definition sample_state_1d : atmsetup :=
  state_of (get_profile sample_elements no_csv (cfg_1d sample_frame)
                        init_atmsetup).

Definition sample_state_empty : atmsetup :=
  state_of (get_profile sample_elements no_csv (cfg_1d empty_frame)
                        init_atmsetup).

Definition sample_state_3d : atmsetup :=
  state_of (get_profile_3d sample_elements
              (sample_h5py_File "pressure,temperature,e-,H2O") cfg_3d
              init_atmsetup).

(** The 3-D pipeline for the examples: a profile file and a cloud file
    (two layers on a two point grid, per facet), then the derivations in
    their order; gravity as [get_gravity] would leave it. *)
Definition sample_cloud_table (x : float) : arr2 :=
  [ [x; 0.5; 0.9]; [0.2; 0.5; 0.9]; [0.3; 0.25; 0.8]; [0.4; 0.25; 0.8] ]%float.

Definition sample_files (path : option string) : result h5file :=
  match path with
  | Some p =>
      if String.eqb p "profile.h5" then
        Ok (sample_h5 "pressure,temperature,e-,H2O")
      else if String.eqb p "clouds.h5" then
        Ok (mk_h5file "opd,g0,w0"
              [("g0", [("t0", sample_cloud_table 0.1);
                       ("t1", sample_cloud_table 0.15)])])
      else Raise (ExternalError "unable to open file")
  | None => Raise TypeError
  end.

Definition cfg_3d_clouds : config :=
  mk_config 1 2 "user" (Some "profile.h5") POther None
            VNone VNone VNone VNone (Some "clouds.h5") "wave_grid" None None.

Definition sample_k_b : float := 1.380649e-16%float.

Definition sample_pipeline : result atmsetup :=
  st ← get_profile_3d sample_elements sample_files cfg_3d_clouds init_atmsetup;
  st ← get_mmw dot_left cfg_3d_clouds st;
  st ← get_density sample_k_b st;
  st ← get_column_density (set_gravity 2500%float st);
  get_clouds no_csv sample_files no_file sample_grid no_regrid cfg_3d_clouds
             [1000; 2000]%float st.

(** The keys that [disect] projects. *)
Definition disect_level_keys : list string := ["temperature"; "pressure"].
Definition disect_layer_keys : list string :=
  ["temperature"; "pressure"; "mmw"; "colden"; "electrons"].
Definition disect_cloud_keys : list string := ["opd"; "g0"; "w0"].

Definition sample_state_full : atmsetup := state_of sample_pipeline.

Definition sample_state_facet : atmsetup :=
  state_of (disect 0 1 sample_state_full).

(** ** Vocabulary of the further properties *)

(** *** Formulas *)

(** The number of lowercase letters of a formula. *)
Fixpoint count_lower (s : string) : nat :=
  match s with
  | EmptyString => 0
  | String c s' => (if islower c then 1 else 0) + count_lower s'
  end.

(** A formula as it is written: element symbols, each with an optional
    count of one digit. *)
Record token : Type := mk_token {
  tok_sym : string;
  tok_count : option ascii
}.

Definition render_token (tk : token) : string :=
  tok_sym tk +:+
  match tok_count tk with Some d => String d "" | None => "" end.

Fixpoint render (toks : list token) : string :=
  match toks with
  | [] => ""
  | tk :: toks' => render_token tk +:+ render toks'
  end.

Definition two_letters (tk : token) : bool :=
  match tok_sym tk with
  | String _ (String _ "") => true
  | _ => false
  end.

(** A symbol is an uppercase letter, or an uppercase and a lowercase
    letter; a count is a decimal digit. *)
Definition token_ok (tk : token) : bool :=
  match tok_sym tk with
  | String c "" => isupper c
  | String c (String d "") => isupper c && islower d
  | _ => false
  end
  && match tok_count tk with
     | Some d => is_ok (float_of_char d)
     | None => true
     end.

(** Well-formed symbols and counts, and at most one symbol of two
    letters. *)
Definition formula_ok (toks : list token) : bool :=
  forallb token_ok toks && (length (List.filter two_letters toks) <=? 1)%nat.

Definition count_of (tk : token) : float :=
  match tok_count tk with
  | Some d => try_default (float_of_char d) 1%float
  | None => 1%float
  end.

(** The mass of a formula: from 0 and from the left, mass times count. *)
Definition formula_mass (ele : string -> option float) (toks : list token)
  : result float :=
  foldM (fun tot tk =>
           m ← ele_mass ele (tok_sym tk); Ok (tot + m * count_of tk)%float)
        0%float toks.

(** The entries of [molecule_list] that a token gives. *)
Definition entry (tk : token) : list pyval :=
  PStr (tok_sym tk) ::
  match tok_count tk with
  | Some d => [PFloat (try_default (float_of_char d) 1%float)]
  | None => []
  end.

(** *** The 1-D loader *)

(** The DataFrame that [get_profile] reads: the file of the path, or the
    frame given in its place. *)
Definition profile_table (read_csv : string -> result frame) (cfg : config)
  : option frame :=
  match profile_filepath cfg with
  | Some path =>
      match read_csv path with Ok f => Some f | Raise _ => None end
  | None =>
      match profile_profile cfg with PFrame f => Some f | _ => None end
  end.

(** The state [get_profile] returns, from the state [st1] that its
    molecule loop leaves. *)
Definition loaded_1d (read : frame) (w : list (string * float)) (m : arr2)
    (T P : arr1) (st1 : atmsetup) : atmsetup :=
  set_nlevels (Z.of_nat (length m))
    (set_layer "pressure"
       (A1 (layer_geomean ((fun p => (p * pconv)%float) <$> P)))
       (set_layer "temperature" (A1 (layer_mean T))
          (set_level "pressure" (A1 ((fun p => (p * pconv)%float) <$> P))
             (set_level "temperature" (A1 T)
                (set_weights w
                   (set_layer "mixingratios" (A2 (layer_mean2 m))
                      (set_level "mixingratios" (A2 m) st1))))))).

(** A column of the frame that the loop over [read.keys()] looks at, one
    whose name [get_weights] weighs, and one it skips with a warning. *)
Definition scanned (k : string) : bool :=
  negb (py_in k ["pressure"; "temperature"]).

Definition resolves (ele : string -> option float) (k : string) : bool :=
  is_ok (weight_lookup ele k).

Definition ignored_msg (k : string) : string :=
  "Ignoring " +:+ k +:+ " in input file, not recognized molecule".

Definition is_molecule_column (ele : string -> option float) (k : string)
  : bool :=
  scanned k && resolves ele k.

Definition is_ignored_column (ele : string -> option float) (k : string)
  : bool :=
  scanned k && negb (resolves ele k) && negb (String.eqb k "e-").

Definition not_electron (k : string) : bool := negb (String.eqb k "e-").


(** Every column of a DataFrame has the number of rows of the frame. *)
Definition frame_wf (f : frame) : Prop :=
  Forall (fun kc => length kc.2 = frame_nrows f) f.

(** *** Clouds *)

(** [a] is the column [col] reshaped to [n] rows of [m]: row [l] of [a]
    holds the entries [l*m .. l*m + m - 1] of the column. *)
Definition row_major (n m : nat) (col : arr1) (a : arr2) : Prop :=
  shape2 n m a /\
  forall l w, l < n -> w < m -> cell2 a l w = col !! (l * m + w).

(** What the turn at a facet stores in one of the cloud arrays: the
    column of the facet's table, reshaped row by row, regridded, and put
    at [[:, :, g, t]]. *)
Definition cloud_value (regrid : arr2 -> arr1 -> arr1 -> arr2) (data : arr2)
    (k : nat) (nlay : Z) (input_wno wno : arr1) (a : arr4) (g t : nat)
  : Prop :=
  exists col low c,
    table_col data k = Ok col /\
    row_major (Z.to_nat nlay) (length input_wno) col low /\
    broadcast (length a) (regrid low input_wno wno) = Ok c /\
    slice4 a g t = Ok c.

(** What the loops of the 3-D cloud branch keep, and what a turn at facet
    [gt] leaves behind. *)
Definition cloud_inv (nlay : Z) (n_out ng nt : nat) (st0 : atmsetup)
    (acc : arr4 * arr4 * arr4 * atmsetup) : Prop :=
  let '(opd, g0, w0, st) := acc in
  shape4 (Z.to_nat nlay) n_out ng nt opd /\
  shape4 (Z.to_nat nlay) n_out ng nt g0 /\
  shape4 (Z.to_nat nlay) n_out ng nt w0 /\
  gangles st = gangles st0 /\ tangles st = tangles st0.

Definition cloud_done (regrid : arr2 -> arr1 -> arr1 -> arr2)
    (cld_input : h5file) (iopd ig0 iw0 : nat) (nlay : Z)
    (input_wno wno : arr1) (st0 : atmsetup) (gt : nat * nat)
    (acc : arr4 * arr4 * arr4 * atmsetup) : Prop :=
  let '(opd, g0, w0, st) := acc in
  layer_cloud st
  = Some (<["w0" := A4 w0]> (<["g0" := A4 g0]> {["opd" := A4 opd]})) /\
  exists gs ts data,
    gangles st0 = Some gs /\ tangles st0 = Some ts /\
    dataset cld_input gs ts gt.1 gt.2 = Ok data /\
    Z.of_nat (length data) = (nlay * Z.of_nat (length input_wno))%Z /\
    cloud_value regrid data iopd nlay input_wno wno opd gt.1 gt.2 /\
    cloud_value regrid data ig0 nlay input_wno wno g0 gt.1 gt.2 /\
    cloud_value regrid data iw0 nlay input_wno wno w0 gt.1 gt.2.

(** *** The 3-D loader *)

(** The facets in the order of the two loops. *)
Definition facets (ng nt : nat) : list (nat * nat) :=
  g ← seq 0 ng; t ← seq 0 nt; [(g, t)].

(** The keys of [self.level] and [self.layer] that the loader writes. *)
Definition loader_keys : list string :=
  ["temperature"; "pressure"; "electrons"; "mixingratios"].

(** The attributes and entries that the 3-D loader never writes. *)
Definition same_rest (st st' : atmsetup) : Prop :=
  layer_cloud st' = layer_cloud st /\
  layer_scattering st' = layer_scattering st /\
  continuum_molecules st' = continuum_molecules st /\
  gravity st' = gravity st /\ warnings st' = warnings st /\
  forall k, k ∉ loader_keys ->
    level st' !! k = level st !! k /\ layer st' !! k = layer st !! k.

(** The attributes that the facet loops leave as they find them. *)
Definition same_angles (st st' : atmsetup) : Prop :=
  dimension st' = dimension st /\ nlevel st' = nlevel st /\
  nlayer st' = nlayer st /\ gangles st' = gangles st /\
  tangles st' = tangles st.

(** The first pass of the 3-D loader: the three column indices, the
    indices left after the three [pop] calls, and the registry built
    from them. *)
Definition first_pass_facts (ele : string -> option float)
    (header : list string) (ielec : option nat) (iheader : list nat)
    (lc' : locals3d) : Prop :=
  exists ie itemp ipress ih1 ih2 ih w mols,
    ielec = Some ie /\
    index_of "temperature" header = Ok itemp /\
    index_of "pressure" header = Ok ipress /\
    list_pop iheader ie = Ok ih1 /\
    list_pop ih1 itemp = Ok ih2 /\
    list_pop ih2 ipress = Ok ih /\
    foldM (register_step ele header) ([], []) ih = Ok (w, mols) /\
    lc_first lc' = false /\ lc_iheader lc' = ih /\
    lc_itemp lc' = Some itemp /\ lc_ipress lc' = Some ipress /\
    molecules (lc_self lc') = Some mols /\ weights (lc_self lc') = Some w.

(** The level array under [k] holds the column [col] (the matrix [m]) at
    the facet [(g, t)], as numpy's slice assignment stores it. *)
Definition facet_col (k : string) (col : arr1) (g t : nat) (st : atmsetup)
  : Prop :=
  exists lev c,
    level st !! k = Some (A3 lev) /\ broadcast (length lev) col = Ok c /\
    slice3 lev g t = Ok c.

Definition facet_mat (k : string) (m : arr2) (g t : nat) (st : atmsetup)
  : Prop :=
  exists lev c,
    level st !! k = Some (A4 lev) /\ broadcast (length lev) m = Ok c /\
    slice4 lev g t = Ok c.

(** What the turn at facet [gt] stores in the level arrays: the columns
    of the facet's table, the pressure in dyn/cm2. *)
Definition facet_loaded (h5db : h5file) (gs ts : list string)
    (it ip : nat) (electron : bool) (ielec : option nat)
    (gt : nat * nat) (lc : locals3d) : Prop :=
  exists tbl colT colP m,
    dataset h5db gs ts gt.1 gt.2 = Ok tbl /\
    table_col tbl it = Ok colT /\ table_col tbl ip = Ok colP /\
    table_cols tbl (lc_iheader lc) = Ok m /\
    facet_col "temperature" colT gt.1 gt.2 (lc_self lc) /\
    facet_col "pressure" ((fun p => (p * pconv)%float) <$> colP) gt.1 gt.2
              (lc_self lc) /\
    facet_mat "mixingratios" m gt.1 gt.2 (lc_self lc) /\
    (electron = true ->
       exists ie colE, ielec = Some ie /\ table_col tbl ie = Ok colE /\
         facet_col "electrons" colE gt.1 gt.2 (lc_self lc)).

(** What the loops of the 3-D loader keep besides [loader_inv]: the
    labels of the angles, and the two column indices once the first pass
    has run. *)
Definition values_inv (cfg : config) (electron : bool) (nlev : nat)
    (gs ts : list string) (it ip : nat) (P0 : Prop) (lc : locals3d) : Prop :=
  loader_inv P0 electron nlev (num_gangle cfg) (num_tangle cfg) lc /\
  gangles (lc_self lc) = Some gs /\ tangles (lc_self lc) = Some ts /\
  (lc_first lc = false ->
     lc_itemp lc = Some it /\ lc_ipress lc = Some ip).

Definition values_done (h5db : h5file) (electron : bool)
    (ielec : option nat) (gs ts : list string) (it ip : nat)
    (gt : nat * nat) (lc : locals3d) : Prop :=
  lc_first lc = false /\
  facet_loaded h5db gs ts it ip electron ielec gt lc.

(** ** Sample data for the further examples *)

(** TiO2 as symbols and counts. *)
Definition sample_tokens : list token :=
  [mk_token "Ti" None; mk_token "O" (Some "2"%char)].

(** The sample frame given as a dict, and with a choice of molecules. *)
Definition cfg_dict : config :=
  mk_config 1 1 "user" None (PDict sample_frame) None
            VNone VNone VNone VNone None "wave_grid" None None.

Definition cfg_which (l : list string) : config :=
  mk_config 1 1 "user" None (PFrame sample_frame) (Some l)
            VNone VNone VNone VNone None "wave_grid" None None.

(** A planet given by mass and radius, a conversion that knows the
    target units only, and Newton's formula in cgs. *)
Definition sample_planet : planet_input :=
  mk_planet_input None None (Some 1.898e30%float) (Some "g")
                  (Some 7.1492e9%float) (Some "cm").

Definition sample_to_unit (x : float) (unit : option string)
    (target : string) : result float :=
  match unit with
  | Some unit =>
      if String.eqb unit target then Ok x
      else Raise (ExternalError "UnitConversionError")
  | None => Raise TypeError
  end.

Definition sample_newton (m r : float) : float :=
  (6.674e-8 * m / (r * r))%float.

(** A 1-D cloud file: two layers on the two point input grid. *)
Definition sample_cloud_frame : frame :=
  [ ("opd", [0.1; 0.2; 0.3; 0.4]%float);
    ("g0", [0.5; 0.5; 0.25; 0.25]%float);
    ("w0", [0.9; 0.9; 0.8; 0.8]%float) ].

Definition sample_cloud_csv (path : string) : result frame :=
  if String.eqb path "clouds.txt" then Ok sample_cloud_frame
  else Raise (ExternalError "No such file or directory").

Definition sample_exists (path : string) : bool :=
  String.eqb path "clouds.txt".

Definition cfg_1d_clouds : config :=
  mk_config 1 1 "user" None (PFrame sample_frame) None
            VNone VNone VNone VNone (Some "clouds.txt") "wave_grid" None None.

(** Flat scattering values and no cloud file. *)
Definition cfg_1d_flat : config :=
  mk_config 1 1 "user" None (PFrame sample_frame) None
            VNone VNone VNone VNone None "wave_grid"
            (Some 0.5%float) (Some 0.9%float).

(** A profile file whose first table has no rows. *)
Definition sample_h5py_empty (path : option string) : result h5file :=
  Ok (mk_h5file "pressure,temperature,e-,H2O" [("g0", [("t0", [])])]).

(** A regridder for the examples: each row read off at the positions of
    the output grid, 0 past its end. *)
Definition sample_regrid (v : arr2) (input_wno wno : arr1) : arr2 :=
  (fun row : arr1 =>
     (fun i => default 0%float (row !! i)) <$> seq 0 (length wno)) <$> v.

(** The state before the clouds are read, in the 3-D pipeline. *)
Definition sample_state_derived : atmsetup :=
  state_of
    (st ← get_profile_3d sample_elements sample_files cfg_3d_clouds
                         init_atmsetup;
     st ← get_mmw dot_left cfg_3d_clouds st;
     st ← get_density sample_k_b st;
     get_column_density (set_gravity 2500%float st)).

(** * Properties *)

(** ** IEEE addition and multiplication commute *)

Lemma SF64add_comm (x y : spec_float) : SF64add x y = SF64add y x.
Proof.
  unfold SF64add, SFadd.
  destruct x as [sx|sx| |sx mx ex], y as [sy|sy| |sy my ey]; try reflexivity;
    try (destruct sx, sy; reflexivity).
  rewrite (Z.min_comm ey ex), Z.add_comm. reflexivity.
Qed.

Lemma SF64mul_comm (x y : spec_float) : SF64mul x y = SF64mul y x.
Proof.
  unfold SF64mul, SFmul.
  destruct x as [sx|sx| |sx mx ex], y as [sy|sy| |sy my ey]; try reflexivity;
    try (rewrite (xorb_comm sx sy); reflexivity).
  rewrite (xorb_comm sx sy), (Pos.mul_comm mx my), (Z.add_comm ex ey).
  reflexivity.
Qed.

Lemma float_add_comm (x y : float) : (x + y)%float = (y + x)%float.
Proof. apply Prim2SF_inj. rewrite !add_spec. apply SF64add_comm. Qed.

Lemma float_mul_comm (x y : float) : (x * y)%float = (y * x)%float.
Proof. apply Prim2SF_inj. rewrite !mul_spec. apply SF64mul_comm. Qed.

(** ** The error monad and its loops *)

Lemma bind_Ok {A B} (m : result A) (f : A -> result B) (b : B) :
  m ≫= f = Ok b -> exists a, m = Ok a /\ f a = Ok b.
Proof. destruct m as [a|e]; simpl; [eauto | discriminate]. Qed.

Lemma fmap_Ok {A B} (f : A -> B) (m : result A) (b : B) :
  f <$> m = Ok b -> exists a, m = Ok a /\ b = f a.
Proof. destruct m as [a|e]; simpl; [intros [= <-]; eauto | discriminate]. Qed.

(** Splits a hypothesis [x ← m; k = Ok b] into its steps. *)
Tactic Notation "bind_inv" hyp(H) "as" ident(a) ident(Ha) :=
  apply bind_Ok in H; destruct H as (a & Ha & H).
Tactic Notation "bind_inv" hyp(H) :=
  let a := fresh "a" in
  let Ha := fresh "Ha" in
  bind_inv H as a Ha.

Lemma foldM_app {A B} (f : A -> B -> result A) (a : A) (l k : list B) :
  foldM f a (l ++ k) = a' ← foldM f a l; foldM f a' k.
Proof.
  revert a; induction l as [|b l IH]; intros a; simpl; [reflexivity|].
  destruct (f a b) as [a1|e]; simpl; [apply IH | reflexivity].
Qed.

(** A property kept by every turn of a loop holds when the loop ends. *)
Lemma foldM_invariant {A B} (f : A -> B -> result A) (P : A -> Prop)
    (l : list B) :
  (forall a b a', b ∈ l -> P a -> f a b = Ok a' -> P a') ->
  forall a a', P a -> foldM f a l = Ok a' -> P a'.
Proof.
  induction l as [|b l IH]; intros Hstep a a' Ha Hf; simpl in Hf.
  - injection Hf as <-. exact Ha.
  - bind_inv Hf. eapply IH; [| |exact Hf].
    + intros a1 b1 a2 Hin. apply Hstep. by right.
    + eapply Hstep; [by left| exact Ha | exact Ha0].
Qed.

(** Every turn establishes [Q] at its own key and keeps it at the others:
    when the keys are distinct, [Q] holds at all of them in the end. *)
Lemma foldM_establish {A K} (f : A -> K -> result A) (I : A -> Prop)
    (Q : K -> A -> Prop) (l : list K) :
  (forall a k a', k ∈ l -> I a -> f a k = Ok a' ->
     I a' /\ Q k a' /\ forall k', k' <> k -> Q k' a -> Q k' a') ->
  NoDup l ->
  forall a a', I a -> foldM f a l = Ok a' ->
    I a' /\ forall k, k ∈ l -> Q k a'.
Proof.
  induction l as [|k0 l IH]; intros Hstep Hnd a a' Ha Hf; simpl in Hf.
  - injection Hf as <-. split; [exact Ha|]. intros k Hk. inversion Hk.
  - bind_inv Hf. apply NoDup_cons in Hnd as [Hk0 Hnd].
    destruct (Hstep a k0 a0) as (Ha0' & HQ & _); [by left|done|done|].
    assert (Hstep' : forall a k a', k ∈ l -> I a -> f a k = Ok a' ->
              I a' /\ Q k a' /\ forall k', k' <> k -> Q k' a -> Q k' a').
    { intros a1 k a2 Hk. apply Hstep. by right. }
    destruct (IH Hstep' Hnd a0 a' Ha0' Hf) as [HI HQs].
    split; [exact HI|]. intros k Hk. apply elem_of_cons in Hk as [->|Hk].
    + eapply proj2.
      apply (foldM_invariant f (fun a => I a /\ Q k0 a) l) with (a := a0);
        [|done|done].
      intros a1 k a2 Hk [HI1 HQ1] Hfa.
      destruct (Hstep' a1 k a2 Hk HI1 Hfa) as (HI2 & _ & Hp).
      split; [done|]. apply Hp; [|done]. intros ->. contradiction.
    + by apply HQs.
Qed.

(** Nested loops run over the pairs of indices in row-major order. *)
Lemma foldM_nested {A B C} (f : A -> B -> C -> result A) (a : A)
    (l : list B) (k : list C) :
  foldM (fun a b => foldM (fun a c => f a b c) a k) a l
  = foldM (fun a bc => f a bc.1 bc.2) a (b ← l; c ← k; [(b, c)]).
Proof.
  revert a; induction l as [|b l IH]; intros a; [reflexivity|].
  cbn [foldM mbind list_bind]. rewrite foldM_app.
  assert (Hin : forall a, foldM (fun a c => f a b c) a k
            = foldM (fun a bc => f a bc.1 bc.2) a (c ← k; [(b, c)])).
  { clear. induction k as [|c k IHk]; intros a; [reflexivity|].
    simpl. destruct (f a b c); simpl; [apply IHk | reflexivity]. }
  rewrite <- Hin. destruct (foldM _ a k); simpl; [apply IH | reflexivity].
Qed.

Lemma mapR_Ok_length {A B} (f : A -> result B) (l : list A) (k : list B) :
  mapR f l = Ok k -> length k = length l.
Proof.
  revert k; induction l as [|a l IH]; intros k H; simpl in H.
  - by injection H as <-.
  - bind_inv H. bind_inv H. injection H as <-. simpl. f_equal. by apply IH.
Qed.

Lemma mapR_Ok_lookup {A B} (f : A -> result B) (l : list A) (k : list B) :
  mapR f l = Ok k ->
  forall i a, l !! i = Some a -> exists b, k !! i = Some b /\ f a = Ok b.
Proof.
  revert k; induction l as [|a l IH]; intros k H i x Hx; simpl in H.
  - inversion Hx.
  - bind_inv H. bind_inv H. injection H as <-.
    destruct i as [|i]; simpl in *.
    + injection Hx as <-. eauto.
    + by eapply IH.
Qed.

Lemma mapR_ext_in {A B} (f g : A -> result B) (l : list A) :
  (forall a, a ∈ l -> f a = g a) -> mapR f l = mapR g l.
Proof.
  induction l as [|a l IH]; intros H; simpl; [reflexivity|].
  rewrite (H a) by (by left). rewrite IH; [reflexivity|].
  intros b Hb. apply H. by right.
Qed.

Lemma zipR_Ok_length {A B C} (f : A -> B -> result C) l k r :
  zipR f l k = Ok r -> length l = length k /\ length r = length l.
Proof.
  revert k r; induction l as [|a l IH]; intros [|b k] r H; simpl in H;
    try discriminate.
  - by injection H as <-.
  - bind_inv H as c Hc. bind_inv H as cs Hcs. injection H as <-.
    destruct (IH _ _ Hcs) as [Hl Hr]. simpl. by rewrite Hl, Hr, Hl.
Qed.

Lemma zipR_Ok_lookup {A B C} (f : A -> B -> result C) l k r :
  zipR f l k = Ok r ->
  forall i a b, l !! i = Some a -> k !! i = Some b ->
    exists c, r !! i = Some c /\ f a b = Ok c.
Proof.
  revert k r; induction l as [|a l IH]; intros [|b k] r H i x y Hx Hy;
    simpl in H; try discriminate.
  bind_inv H. bind_inv H. injection H as <-.
  destruct i as [|i]; simpl in *.
  - injection Hx as <-. injection Hy as <-. eauto.
  - by eapply IH.
Qed.

Lemma mapR_drop {A B} (f : A -> result B) (n : nat) (l : list A) (k : list B) :
  mapR f l = Ok k -> mapR f (drop n l) = Ok (drop n k).
Proof.
  revert l k; induction n as [|n IH]; intros l k H; [by rewrite !drop_0|].
  destruct l as [|a l]; simpl in H.
  - injection H as <-. reflexivity.
  - bind_inv H as b Hb. bind_inv H as bs Hbs. injection H as <-.
    simpl. by apply IH.
Qed.

Lemma mapR_take {A B} (f : A -> result B) (n : nat) (l : list A) (k : list B) :
  mapR f l = Ok k -> mapR f (take n l) = Ok (take n k).
Proof.
  revert l k; induction n as [|n IH]; intros l k H; [reflexivity|].
  destruct l as [|a l]; simpl in H.
  - injection H as <-. reflexivity.
  - bind_inv H as b Hb. bind_inv H as bs Hbs. injection H as <-.
    simpl. rewrite Hb. simpl. by rewrite (IH _ _ Hbs).
Qed.

Lemma mapR_py_tail {A B} (f : A -> result B) (l : list A) (k : list B) :
  mapR f l = Ok k -> mapR f (py_tail l) = Ok (py_tail k).
Proof. apply mapR_drop. Qed.

Lemma mapR_py_init {A B} (f : A -> result B) (l : list A) (k : list B) :
  mapR f l = Ok k -> mapR f (py_init l) = Ok (py_init k).
Proof.
  intros H. unfold py_init. rewrite (mapR_Ok_length _ _ _ H).
  by apply mapR_take.
Qed.

(** Setting each element and reading it back; reading what a setter
    leaves alone; a property of the elements that the setter keeps. *)
Lemma zipR_set_get {A B} (set : A -> B -> result A) (get : A -> result B)
    (l : list A) (k : list B) (l' : list A) :
  (forall a b a', set a b = Ok a' -> get a' = Ok b) ->
  zipR set l k = Ok l' -> mapR get l' = Ok k.
Proof.
  intros Hsg. revert k l'; induction l as [|a l IH]; intros [|b k] l' H;
    simpl in H; try discriminate.
  - by injection H as <-.
  - bind_inv H as c Hc. bind_inv H as cs Hcs. injection H as <-.
    simpl. rewrite (Hsg _ _ _ Hc). simpl. by rewrite (IH _ _ Hcs).
Qed.

Lemma zipR_set_frame {A B C} (set : A -> B -> result A)
    (get : A -> result C) (l : list A) (k : list B) (l' : list A) :
  (forall a b a', set a b = Ok a' -> get a' = get a) ->
  zipR set l k = Ok l' -> mapR get l' = mapR get l.
Proof.
  intros Hsg. revert k l'; induction l as [|a l IH]; intros [|b k] l' H;
    simpl in H; try discriminate.
  - by injection H as <-.
  - bind_inv H as c Hc. bind_inv H as cs Hcs. injection H as <-.
    simpl. by rewrite (Hsg _ _ _ Hc), (IH _ _ Hcs).
Qed.

Lemma zipR_Forall {A B} (set : A -> B -> result A) (P : A -> Prop)
    (l : list A) (k : list B) (l' : list A) :
  (forall a b a', set a b = Ok a' -> P a -> P a') ->
  zipR set l k = Ok l' -> Forall P l -> Forall P l'.
Proof.
  intros Hp. revert k l'; induction l as [|a l IH]; intros [|b k] l' H HP;
    simpl in H; try discriminate.
  - by injection H as <-.
  - bind_inv H as c Hc. bind_inv H as cs Hcs. injection H as <-.
    apply Forall_cons in HP as [Ha Hl]. constructor; eauto.
Qed.

Lemma broadcast_same {A} (n : nat) (l : list A) :
  length l = n -> broadcast n l = Ok l.
Proof. intros H. unfold broadcast. by rewrite decide_True. Qed.

Lemma broadcast_Ok_length {A} (n : nat) (l l' : list A) :
  broadcast n l = Ok l' -> length l' = n.
Proof.
  unfold broadcast. destruct (decide (length l = n)) as [Hl|Hl].
  - by intros [= <-].
  - destruct l as [|x [|y l]]; try discriminate.
    intros [= <-]. apply length_replicate.
Qed.

(** ** Shapes *)

Lemma Forall_replicate_intro {A} (P : A -> Prop) (n : nat) (x : A) :
  P x -> Forall P (replicate n x).
Proof. intros H. induction n; simpl; constructor; auto. Qed.

Lemma zeros3_shape (n : Z) (g t : nat) (a : arr3) :
  zeros3 n g t = Ok a -> (0 <= n)%Z /\ shape3 (Z.to_nat n) g t a.
Proof.
  unfold zeros3. destruct (n <? 0)%Z eqn:Hn; [discriminate|].
  intros [= <-]. apply Z.ltb_ge in Hn. split; [done|].
  split; [apply length_replicate|]. apply Forall_replicate_intro.
  split; [apply length_replicate|]. apply Forall_replicate_intro.
  apply length_replicate.
Qed.

Lemma zeros4_shape (n : Z) (m g t : nat) (a : arr4) :
  zeros4 n m g t = Ok a -> (0 <= n)%Z /\ shape4 (Z.to_nat n) m g t a.
Proof.
  unfold zeros4. destruct (n <? 0)%Z eqn:Hn; [discriminate|].
  intros [= <-]. apply Z.ltb_ge in Hn. split; [done|].
  split; [apply length_replicate|]. apply Forall_replicate_intro.
  split; [apply length_replicate|]. apply Forall_replicate_intro.
  split; [apply length_replicate|]. apply Forall_replicate_intro.
  apply length_replicate.
Qed.

(** ** Cells, slices and slice assignment *)

Lemma set_cell_get (p : arr2) (g t : nat) (x : float) (p' : arr2) :
  set_cell p g t x = Ok p' -> cell p' g t = Ok x.
Proof.
  unfold set_cell, cell. destruct (p !! g) as [row|] eqn:Hg; [|discriminate].
  destruct (decide (t < length row)) as [Ht|]; [|discriminate].
  intros [= <-]. rewrite list_lookup_insert_eq by (by eapply lookup_lt_Some).
  by rewrite list_lookup_insert_eq.
Qed.

Lemma set_cell_frame (p : arr2) (g t : nat) (x : float) (p' : arr2)
    (g' t' : nat) :
  set_cell p g t x = Ok p' -> (g', t') <> (g, t) ->
  cell p' g' t' = cell p g' t'.
Proof.
  unfold set_cell, cell. destruct (p !! g) as [row|] eqn:Hg; [|discriminate].
  destruct (decide (t < length row)) as [Ht|]; [|discriminate].
  intros [= <-] Hne. destruct (decide (g' = g)) as [->|Hgg].
  - rewrite list_lookup_insert_eq by (by eapply lookup_lt_Some). rewrite Hg.
    rewrite list_lookup_insert_ne; [done|]. intros ->. by apply Hne.
  - by rewrite list_lookup_insert_ne.
Qed.

Lemma set_cell_shape (p : arr2) (g t : nat) (x : float) (p' : arr2)
    (n m : nat) :
  set_cell p g t x = Ok p' -> shape2 n m p -> shape2 n m p'.
Proof.
  unfold set_cell. destruct (p !! g) as [row|] eqn:Hg; [|discriminate].
  destruct (decide (t < length row)) as [Ht|]; [|discriminate].
  intros [= <-] [Hn Hm]. split; [by rewrite length_insert|].
  apply Forall_insert; [done|]. rewrite length_insert.
  by eapply (proj1 (Forall_lookup _ _) Hm).
Qed.

Lemma assign3_slice3 (a : arr3) (g t : nat) (col : arr1) (a' : arr3) :
  assign3 a g t col = Ok a' ->
  exists col', broadcast (length a) col = Ok col' /\ slice3 a' g t = Ok col'.
Proof.
  unfold assign3, slice3. intros H. bind_inv H as col' Hc.
  exists col'. split; [done|].
  eapply zipR_set_get; [|exact H]. intros p x p'. apply set_cell_get.
Qed.

Lemma assign3_frame (a : arr3) (g t : nat) (col : arr1) (a' : arr3)
    (g' t' : nat) :
  assign3 a g t col = Ok a' -> (g', t') <> (g, t) ->
  slice3 a' g' t' = slice3 a g' t'.
Proof.
  unfold assign3, slice3. intros H Hne. bind_inv H as col' Hc.
  eapply zipR_set_frame; [|exact H]. intros p x p' Hp.
  eapply set_cell_frame; [exact Hp | exact Hne].
Qed.

Lemma assign3_shape (a : arr3) (g t : nat) (col : arr1) (a' : arr3)
    (n ng nt : nat) :
  assign3 a g t col = Ok a' -> shape3 n ng nt a -> shape3 n ng nt a'.
Proof.
  unfold assign3. intros H [Hn Hs]. bind_inv H as col' Hc.
  split.
  - destruct (zipR_Ok_length _ _ _ _ H) as [_ ->]. done.
  - eapply zipR_Forall; [|exact H|exact Hs]. intros p x p'.
    apply set_cell_shape.
Qed.

Lemma slice3_py_tail (a : arr3) (g t : nat) (c : arr1) :
  slice3 a g t = Ok c -> slice3 (py_tail a) g t = Ok (py_tail c).
Proof. apply mapR_py_tail. Qed.

Lemma slice3_py_init (a : arr3) (g t : nat) (c : arr1) :
  slice3 a g t = Ok c -> slice3 (py_init a) g t = Ok (py_init c).
Proof. apply mapR_py_init. Qed.

Lemma slice4_py_tail (a : arr4) (g t : nat) (m : arr2) :
  slice4 a g t = Ok m -> slice4 (py_tail a) g t = Ok (py_tail m).
Proof. apply mapR_py_tail. Qed.

Lemma slice4_py_init (a : arr4) (g t : nat) (m : arr2) :
  slice4 a g t = Ok m -> slice4 (py_init a) g t = Ok (py_init m).
Proof. apply mapR_py_init. Qed.

Lemma assign4_slice4 (a : arr4) (g t : nat) (m : arr2) (a' : arr4) (nm : nat) :
  assign4 a g t m = Ok a' ->
  Forall (fun lv => length lv = nm) a ->
  Forall (fun row => length row = nm) m ->
  exists m', broadcast (length a) m = Ok m' /\ slice4 a' g t = Ok m'.
Proof.
  unfold assign4, slice4. intros H Ha Hm. bind_inv H as m' Hc.
  exists m'. split; [done|].
  assert (Hm' : Forall (fun row => length row = nm) m').
  { revert Hc. unfold broadcast. destruct (decide (length m = length a)).
    - by intros [= <-].
    - destruct m as [|x [|y m]]; try discriminate. intros [= <-].
      apply Forall_replicate_intro. by apply Forall_cons in Hm as [? _]. }
  clear Hc Hm. revert m' a' H Hm'.
  induction a as [|lv a IH]; intros [|row m'] a' H Hm'; simpl in H;
    try discriminate.
  - by injection H as <-.
  - bind_inv H as lv' Hlv. bind_inv H as a'' Ha''. injection H as <-.
    apply Forall_cons in Ha as [Hlen Ha]. apply Forall_cons in Hm' as [Hr Hm'].
    simpl. destruct (assign3_slice3 _ _ _ _ _ Hlv) as (row' & Hb & ->).
    rewrite broadcast_same in Hb by congruence. injection Hb as <-.
    simpl. by rewrite (IH Ha _ _ Ha'' Hm').
Qed.

Lemma assign4_frame (a : arr4) (g t : nat) (m : arr2) (a' : arr4)
    (g' t' : nat) :
  assign4 a g t m = Ok a' -> (g', t') <> (g, t) ->
  slice4 a' g' t' = slice4 a g' t'.
Proof.
  unfold assign4, slice4. intros H Hne. bind_inv H as m' Hc.
  eapply zipR_set_frame; [|exact H]. intros lv row lv' Hlv.
  eapply assign3_frame; [exact Hlv | exact Hne].
Qed.

Lemma assign4_shape (a : arr4) (g t : nat) (m : arr2) (a' : arr4)
    (n nm ng nt : nat) :
  assign4 a g t m = Ok a' -> shape4 n nm ng nt a -> shape4 n nm ng nt a'.
Proof.
  unfold assign4. intros H [Hn Hs]. bind_inv H as m' Hc.
  split.
  - destruct (zipR_Ok_length _ _ _ _ H) as [_ ->]. done.
  - eapply zipR_Forall; [|exact H|exact Hs]. intros lv row lv'.
    apply assign3_shape.
Qed.

(** ** Level to layer *)

Lemma length_adjacent {A B} (f : A -> A -> B) (l : list A) :
  length (zip_with f (py_tail l) (py_init l)) = length l - 1.
Proof.
  unfold py_tail, py_init.
  rewrite length_zip_with, length_drop, length_take. lia.
Qed.

Lemma length_adjacent' {A B} (f : A -> A -> B) (l : list A) :
  length (zip_with f (py_init l) (py_tail l)) = length l - 1.
Proof.
  unfold py_tail, py_init.
  rewrite length_zip_with, length_drop, length_take. lia.
Qed.

(** Entry [i] of [f(x[1:], x[:-1])] is [f x[i+1] x[i]]. *)
Lemma lookup_adjacent {A B} (f : A -> A -> B) (l : list A) (i : nat) :
  zip_with f (py_tail l) (py_init l) !! i
  = match l !! i, l !! S i with
    | Some lo, Some hi => Some (f hi lo)
    | _, _ => None
    end.
Proof.
  unfold py_tail, py_init. rewrite lookup_zip_with, lookup_drop. simpl.
  destruct (l !! S i) as [hi|] eqn:Hhi; simpl.
  - apply lookup_lt_Some in Hhi as Hlt.
    rewrite lookup_take_lt by lia.
    destruct (l !! i) eqn:Hlo; [done|].
    apply lookup_ge_None in Hlo. lia.
  - by destruct (l !! i).
Qed.

Lemma lookup_adjacent' {A B} (f : A -> A -> B) (l : list A) (i : nat) :
  zip_with f (py_init l) (py_tail l) !! i
  = match l !! i, l !! S i with
    | Some lo, Some hi => Some (f lo hi)
    | _, _ => None
    end.
Proof.
  unfold py_tail, py_init. rewrite lookup_zip_with, lookup_drop. simpl.
  destruct (l !! S i) as [hi|] eqn:Hhi; simpl.
  - apply lookup_lt_Some in Hhi as Hlt.
    rewrite lookup_take_lt by lia.
    destruct (l !! i) eqn:Hlo; [done|].
    apply lookup_ge_None in Hlo. lia.
  - destruct (take _ _ !! i), (l !! i); done.
Qed.

Lemma mean2_arith (hi lo : float) : mean2 hi lo = arith_mean lo hi.
Proof. unfold mean2, arith_mean. by rewrite float_add_comm. Qed.

Lemma geomean2_geo (hi lo : float) : geomean2 hi lo = geo_mean lo hi.
Proof. unfold geomean2, geo_mean. by rewrite float_mul_comm. Qed.

(** The pairs of adjacent entries of a list are as many as [layers_of]
    says. *)
Lemma layers_of_pred (n m : nat) : m = n - 1 -> layers_of n m.
Proof. intros ->. split; lia. Qed.

Lemma adjacent_rule (f g : float -> float -> float) (lev : arr1) :
  (forall hi lo, f hi lo = g lo hi) ->
  layer_rule g lev (zip_with f (py_tail lev) (py_init lev)).
Proof.
  intros Hfg. split; [apply layers_of_pred, length_adjacent|].
  intros i a b Ha Hb. by rewrite lookup_adjacent, Ha, Hb, Hfg.
Qed.

Lemma layer_mean_rule (lev : arr1) : layer_rule arith_mean lev (layer_mean lev).
Proof. apply adjacent_rule, mean2_arith. Qed.

Lemma layer_geomean_rule (lev : arr1) :
  layer_rule geo_mean lev (layer_geomean lev).
Proof. apply adjacent_rule, geomean2_geo. Qed.

Lemma layer_mean_mmw_rule (lev : arr1) :
  layer_rule arith_mean lev (layer_mean_mmw lev).
Proof.
  split; [apply layers_of_pred, length_adjacent'|].
  intros i a b Ha Hb. unfold layer_mean_mmw.
  by rewrite lookup_adjacent', Ha, Hb.
Qed.

Lemma adjacent_rule2 (lev : arr2) :
  layer_rule2 arith_mean lev
    (zip_with (zip_with mean2) (py_tail lev) (py_init lev)).
Proof.
  split; [apply layers_of_pred, length_adjacent|].
  intros i k a b Ha Hb. unfold cell2 in *. rewrite lookup_adjacent.
  destruct (lev !! i) as [lo|]; [|discriminate].
  destruct (lev !! S i) as [hi|]; [|discriminate]. simpl in *.
  by rewrite lookup_zip_with, Ha, Hb, <- mean2_arith.
Qed.

Lemma layer_mean2_rule (lev : arr2) :
  layer_rule2 arith_mean lev (layer_mean2 lev).
Proof. apply adjacent_rule2. Qed.

(** ** Dictionary entries *)

Lemma item3_Ok (k : string) (d : gmap string ndarray) (a : arr3) :
  item3 k d = Ok a -> d !! k = Some (A3 a).
Proof.
  unfold item3, item. destruct (d !! k) as [[]|]; simpl; congruence.
Qed.

Lemma item4_Ok (k : string) (d : gmap string ndarray) (a : arr4) :
  item4 k d = Ok a -> d !! k = Some (A4 a).
Proof.
  unfold item4, item. destruct (d !! k) as [[]|]; simpl; congruence.
Qed.

Lemma item3_insert (k : string) (d : gmap string ndarray) (a : arr3) :
  item3 k (<[k := A3 a]> d) = Ok a.
Proof. unfold item3, item. by rewrite lookup_insert_eq. Qed.

Lemma item4_insert (k : string) (d : gmap string ndarray) (a : arr4) :
  item4 k (<[k := A4 a]> d) = Ok a.
Proof. unfold item4, item. by rewrite lookup_insert_eq. Qed.

Lemma has3_set_same k (P : arr3 -> arr3 -> Prop) lev lay st :
  P lev lay -> has3 k P (set_layer k (A3 lay) (set_level k (A3 lev) st)).
Proof.
  intros HP. exists lev, lay. simpl. by rewrite !lookup_insert_eq.
Qed.

Lemma has3_set_other k k' (P : arr3 -> arr3 -> Prop) a b st :
  k' <> k -> has3 k' P st ->
  has3 k' P (set_layer k b (set_level k a st)).
Proof.
  intros Hne (lev & lay & Hlev & Hlay & HP). exists lev, lay. simpl.
  by rewrite !lookup_insert_ne.
Qed.

Lemma has4_set_same k (P : arr4 -> arr4 -> Prop) lev lay st :
  P lev lay -> has4 k P (set_layer k (A4 lay) (set_level k (A4 lev) st)).
Proof.
  intros HP. exists lev, lay. simpl. by rewrite !lookup_insert_eq.
Qed.

Lemma has4_set_other k k' (P : arr4 -> arr4 -> Prop) a b st :
  k' <> k -> has4 k' P st ->
  has4 k' P (set_layer k b (set_level k a st)).
Proof.
  intros Hne (lev & lay & Hlev & Hlay & HP). exists lev, lay. simpl.
  by rewrite !lookup_insert_ne.
Qed.

Lemma paired_set (R : ndarray -> ndarray -> Prop) k a b st :
  R a b -> paired R st -> paired R (set_layer k b (set_level k a st)).
Proof.
  intros HR Hp k' lay. simpl. destruct (decide (k = k')) as [->|Hne].
  - rewrite !lookup_insert_eq. intros [= <-]. eauto.
  - rewrite !lookup_insert_ne by done. apply Hp.
Qed.

Lemma paired_insert (R : ndarray -> ndarray -> Prop) k a b
    (lv ly : gmap string ndarray) :
  R a b ->
  (forall k lay, ly !! k = Some lay -> exists lev, lv !! k = Some lev /\ R lev lay) ->
  forall k' lay, <[k := b]> ly !! k' = Some lay ->
    exists lev, <[k := a]> lv !! k' = Some lev /\ R lev lay.
Proof.
  intros HR Hp k' lay. destruct (decide (k = k')) as [->|Hne].
  - rewrite !lookup_insert_eq. intros [= <-]. eauto.
  - rewrite !lookup_insert_ne by done. apply Hp.
Qed.

Lemma shapes3_one_row_less n ng nt lev lay :
  shapes3 n ng nt lev lay -> one_row_less (A3 lev) (A3 lay).
Proof.
  intros [[<- H1] [H2 H3]]. split; [by apply layers_of_pred|].
  exists ng, nt. rewrite H2. by repeat split.
Qed.

Lemma shapes4_one_row_less n nm ng nt lev lay :
  shapes4 n nm ng nt lev lay -> one_row_less (A4 lev) (A4 lay).
Proof.
  intros [[<- H1] [H2 H3]]. split; [by apply layers_of_pred|].
  exists nm, ng, nt. rewrite H2. by repeat split.
Qed.

(** ** One facet of the 3-D loader *)

Lemma fill_facet3_Ok k f g t col st st' n ng nt :
  fill_facet3 k f g t col st = Ok st' ->
  has3 k (shapes3 n ng nt) st ->
  exists lev lay lev' lay',
    level st !! k = Some (A3 lev) /\ layer st !! k = Some (A3 lay) /\
    st' = set_layer k (A3 lay') (set_level k (A3 lev') st) /\
    shapes3 n ng nt lev' lay' /\ facet_adj3 f g t lev' lay' /\
    forall g' t', (g', t') <> (g, t) ->
      facet_adj3 f g' t' lev lay -> facet_adj3 f g' t' lev' lay'.
Proof.
  unfold fill_facet3. intros H (lev & lay & Hlev & Hlay & [Hs1 Hs2]).
  bind_inv H as lev0 Hlev0. apply item3_Ok in Hlev0.
  assert (lev0 = lev) as -> by congruence.
  bind_inv H as lev' Hset. simpl in H.
  bind_inv H as lay0 Hlay0. apply item3_Ok in Hlay0.
  assert (lay0 = lay) as -> by congruence.
  rewrite item3_insert in H. simpl in H.
  bind_inv H as hi Hhi. bind_inv H as lo Hlo. bind_inv H as lay' Hset'.
  injection H as <-.
  destruct (assign3_slice3 _ _ _ _ _ Hset) as (c & Hbc & Hc).
  rewrite (slice3_py_tail _ _ _ _ Hc) in Hhi. injection Hhi as <-.
  rewrite (slice3_py_init _ _ _ _ Hc) in Hlo. injection Hlo as <-.
  destruct (assign3_slice3 _ _ _ _ _ Hset') as (l & Hbl & Hl).
  assert (Hlenc : length c = n).
  { rewrite (broadcast_Ok_length _ _ _ Hbc). apply Hs1. }
  rewrite broadcast_same in Hbl
    by (rewrite length_adjacent, Hlenc; symmetry; apply Hs2).
  injection Hbl as <-.
  exists lev, lay, lev', lay'. split_and!; try done.
  - split; eapply assign3_shape; eauto.
  - by exists c.
  - intros g' t' Hne (c' & Hc' & Hl'). exists c'.
    rewrite (assign3_frame _ _ _ _ _ _ _ Hset Hne).
    by rewrite (assign3_frame _ _ _ _ _ _ _ Hset' Hne).
Qed.

Lemma broadcast_Forall {A} (P : A -> Prop) (n : nat) (l l' : list A) :
  broadcast n l = Ok l' -> Forall P l -> Forall P l'.
Proof.
  unfold broadcast. destruct (decide (length l = n)); [by intros [= <-]|].
  destruct l as [|x [|y l]]; try discriminate. intros [= <-] HP.
  apply Forall_replicate_intro. by apply Forall_cons in HP as [? _].
Qed.

Lemma adjacent_rows_length (nm : nat) (m : arr2) :
  Forall (fun row => length row = nm) m ->
  Forall (fun row => length row = nm)
         (zip_with (zip_with mean2) (py_tail m) (py_init m)).
Proof.
  intros Hm. unfold py_tail, py_init.
  apply Forall_zip_with_fst with (P := fun row : arr1 => length row = nm).
  - by apply Forall_drop.
  - apply Forall_take. eapply Forall_impl; [exact Hm|].
    intros y Hy x Hx. simpl in Hy. rewrite length_zip_with. lia.
Qed.

Lemma fill_facet4_Ok k g t m st st' n nm ng nt :
  fill_facet4 k g t m st = Ok st' ->
  Forall (fun row => length row = nm) m ->
  has4 k (shapes4 n nm ng nt) st ->
  exists lev lay lev' lay',
    level st !! k = Some (A4 lev) /\ layer st !! k = Some (A4 lay) /\
    st' = set_layer k (A4 lay') (set_level k (A4 lev') st) /\
    shapes4 n nm ng nt lev' lay' /\ facet_adj4 g t lev' lay' /\
    forall g' t', (g', t') <> (g, t) ->
      facet_adj4 g' t' lev lay -> facet_adj4 g' t' lev' lay'.
Proof.
  unfold fill_facet4. intros H Hm (lev & lay & Hlev & Hlay & [Hs1 Hs2]).
  bind_inv H as lev0 Hlev0. apply item4_Ok in Hlev0.
  assert (lev0 = lev) as -> by congruence.
  bind_inv H as lev' Hset. simpl in H.
  bind_inv H as lay0 Hlay0. apply item4_Ok in Hlay0.
  assert (lay0 = lay) as -> by congruence.
  rewrite item4_insert in H. simpl in H.
  bind_inv H as hi Hhi. bind_inv H as lo Hlo. bind_inv H as lay' Hset'.
  injection H as <-.
  assert (Hlv : forall n' (a : arr4), shape4 n' nm ng nt a ->
            Forall (fun lv => length lv = nm) a).
  { intros n' a [_ Ha]. eapply Forall_impl; [exact Ha|]. by intros lv [? _]. }
  destruct (assign4_slice4 _ _ _ _ _ nm Hset (Hlv _ _ Hs1) Hm)
    as (c & Hbc & Hc).
  rewrite (slice4_py_tail _ _ _ _ Hc) in Hhi. injection Hhi as <-.
  rewrite (slice4_py_init _ _ _ _ Hc) in Hlo. injection Hlo as <-.
  assert (Hcrows : Forall (fun row => length row = nm) c)
    by (by eapply broadcast_Forall).
  destruct (assign4_slice4 _ _ _ _ _ nm Hset' (Hlv _ _ Hs2)
              (adjacent_rows_length _ _ Hcrows)) as (l & Hbl & Hl).
  assert (Hlenc : length c = n).
  { rewrite (broadcast_Ok_length _ _ _ Hbc). apply Hs1. }
  rewrite broadcast_same in Hbl
    by (rewrite length_adjacent, Hlenc; symmetry; apply Hs2).
  injection Hbl as <-.
  exists lev, lay, lev', lay'. split_and!; try done.
  - split; eapply assign4_shape; eauto.
  - by exists c.
  - intros g' t' Hne (c' & Hc' & Hl'). exists c'.
    rewrite (assign4_frame _ _ _ _ _ _ _ Hset Hne).
    by rewrite (assign4_frame _ _ _ _ _ _ _ Hset' Hne).
Qed.

Lemma fill_facet3_state k f g t col st st' n ng nt :
  fill_facet3 k f g t col st = Ok st' ->
  has3 k (shapes3 n ng nt) st ->
  nlevel st' = nlevel st /\ nlayer st' = nlayer st /\
  has3 k (shapes3 n ng nt) st' /\ has3 k (facet_adj3 f g t) st' /\
  (forall g' t', (g', t') <> (g, t) ->
     has3 k (facet_adj3 f g' t') st -> has3 k (facet_adj3 f g' t') st') /\
  (forall k' P, k' <> k -> has3 k' P st -> has3 k' P st') /\
  (forall k' P, k' <> k -> has4 k' P st -> has4 k' P st') /\
  (paired one_row_less st -> paired one_row_less st').
Proof.
  intros H Hs.
  destruct (fill_facet3_Ok _ _ _ _ _ _ _ _ _ _ H Hs)
    as (lev & lay & lev' & lay' & Hlev & Hlay & -> & Hs' & Hadj & Hfr).
  split_and!; try done.
  - by apply has3_set_same.
  - by apply has3_set_same.
  - intros g' t' Hne (lev0 & lay0 & Hlev0 & Hlay0 & HP).
    apply has3_set_same. apply Hfr; [done|]. congruence.
  - intros k' P Hne. by apply has3_set_other.
  - intros k' P Hne. by apply has4_set_other.
  - intros Hp. apply paired_set; [by eapply shapes3_one_row_less | done].
Qed.

Lemma fill_facet4_state k g t m st st' n nm ng nt :
  fill_facet4 k g t m st = Ok st' ->
  Forall (fun row => length row = nm) m ->
  has4 k (shapes4 n nm ng nt) st ->
  nlevel st' = nlevel st /\ nlayer st' = nlayer st /\
  has4 k (shapes4 n nm ng nt) st' /\ has4 k (facet_adj4 g t) st' /\
  (forall g' t', (g', t') <> (g, t) ->
     has4 k (facet_adj4 g' t') st -> has4 k (facet_adj4 g' t') st') /\
  (forall k' P, k' <> k -> has3 k' P st -> has3 k' P st') /\
  (forall k' P, k' <> k -> has4 k' P st -> has4 k' P st') /\
  (paired one_row_less st -> paired one_row_less st').
Proof.
  intros H Hm Hs.
  destruct (fill_facet4_Ok _ _ _ _ _ _ _ _ _ _ H Hm Hs)
    as (lev & lay & lev' & lay' & Hlev & Hlay & -> & Hs' & Hadj & Hfr).
  split_and!; try done.
  - by apply has4_set_same.
  - by apply has4_set_same.
  - intros g' t' Hne (lev0 & lay0 & Hlev0 & Hlay0 & HP).
    apply has4_set_same. apply Hfr; [done|]. congruence.
  - intros k' P Hne. by apply has3_set_other.
  - intros k' P Hne. by apply has4_set_other.
  - intros Hp. apply paired_set; [by eapply shapes4_one_row_less | done].
Qed.

Lemma table_cols_rows (tbl : arr2) (ks : list nat) (m : arr2) :
  table_cols tbl ks = Ok m -> Forall (fun row => length row = length ks) m.
Proof.
  unfold table_cols. revert m; induction tbl as [|row tbl IH]; intros m H;
    simpl in H.
  - injection H as <-. constructor.
  - bind_inv H as r Hr. bind_inv H as rs Hrs. injection H as <-.
    constructor; [by eapply mapR_Ok_length | by apply IH].
Qed.

(** ** The loops of the 3-D loader *)

Section Loader3d.

Variable ele : string -> option float.
Variable h5py_File : option string -> result h5file.
Variable cfg : config.

Local Abbreviation ng := (num_gangle cfg).
Local Abbreviation nt := (num_tangle cfg).

Lemma first_pass_Ok header ielec nlev lc lc' :
  first_pass ele cfg header ielec nlev lc = Ok lc' ->
  exists ie itemp ipress ih1 ih2 ih lm ym w mols,
    ielec = Some ie /\
    index_of "temperature" header = Ok itemp /\
    index_of "pressure" header = Ok ipress /\
    list_pop (lc_iheader lc) ie = Ok ih1 /\
    list_pop ih1 itemp = Ok ih2 /\
    list_pop ih2 ipress = Ok ih /\
    shapes4 nlev (length ih) ng nt lm ym /\
    (1 <= nlev) /\
    foldM (register_step ele header) ([], []) ih = Ok (w, mols) /\
    lc' = mk_locals3d false (Some itemp) (Some ipress) ih
            (set_molecules mols (set_weights w
               (set_layer "mixingratios" (A4 ym)
                  (set_level "mixingratios" (A4 lm) (lc_self lc))))).
Proof.
  unfold first_pass. intros H.
  bind_inv H as itemp Hitemp. bind_inv H as ipress Hipress.
  bind_inv H as ie Hie. bind_inv H as ih1 Hih1. bind_inv H as ih2 Hih2.
  bind_inv H as ih Hih. bind_inv H as lm Hlm. bind_inv H as ym Hym.
  bind_inv H as wm Hwm. destruct wm as [w mols]. injection H as <-.
  destruct ielec as [ie'|]; [|discriminate]. injection Hie as ->.
  apply zeros4_shape in Hlm as [_ Hlm]. apply zeros4_shape in Hym as [Hn Hym].
  rewrite Nat2Z.id in Hlm.
  replace (Z.to_nat (Z.of_nat nlev - 1)) with (nlev - 1) in Hym by lia.
  exists ie, itemp, ipress, ih1, ih2, ih, lm, ym, w, mols.
  split_and!; try done. lia.
Qed.

Lemma facet_body_step (P0 : Prop) h5db header electron ielec nlev lc g t lc' :
  facet_body ele cfg h5db header electron ielec nlev lc g t = Ok lc' ->
  loader_inv P0 electron nlev ng nt lc ->
  loader_inv P0 electron nlev ng nt lc' /\
  facet_done electron (g, t) lc' /\
  forall gt', gt' <> (g, t) ->
    facet_done electron gt' lc -> facet_done electron gt' lc'.
Proof.
  unfold facet_body. intros H Hinv.
  bind_inv H as lc1 Hlc1.
  assert (H1 : loader_inv P0 electron nlev ng nt lc1 /\ lc_first lc1 = false /\
               forall gt', facet_done electron gt' lc ->
                 facet_done electron gt' lc1).
  { destruct (lc_first lc) eqn:Hfirst.
    - apply first_pass_Ok in Hlc1
        as (ie & itemp & ipress & ih1 & ih2 & ih & lm & ym & w & mols & _ & _
            & _ & _ & _ & _ & Hsh & _ & _ & ->).
      destruct Hinv as (Hn1 & Hn2 & Hpr & HT & HP & HE & _).
      split; [|split; [done|]].
      + split_and!; try done.
        * intros HP0. apply (paired_set one_row_less "mixingratios");
            [by eapply shapes4_one_row_less | by apply Hpr].
        * by apply (has3_set_other "mixingratios" "temperature").
        * by apply (has3_set_other "mixingratios" "pressure").
        * intros He. by apply (has3_set_other "mixingratios" "electrons"), HE.
        * intros _. by apply (has4_set_same "mixingratios").
      + intros gt' [Hf _]. congruence.
    - injection Hlc1 as <-. split; [done|]. split; [done|]. done. }
  clear Hlc1 Hinv. destruct H1 as (Hinv & Hfirst & Hkeep0).
  destruct Hinv as (Hn1 & Hn2 & Hpr & HT & HP & HE & HM).
  specialize (HM Hfirst).
  bind_inv H as gs Hgs. bind_inv H as ts Hts.
  bind_inv H as st1 Hst1.
  assert (H1 : nlevel st1 = nlevel (lc_self lc1) /\
               nlayer st1 = nlayer (lc_self lc1) /\
               (P0 -> paired one_row_less st1) /\
               (electron = true ->
                  has3 "electrons" (shapes3 nlev ng nt) st1 /\
                  has3 "electrons" (facet_adj3 mean2 g t) st1 /\
                  forall g' t', (g', t') <> (g, t) ->
                    has3 "electrons" (facet_adj3 mean2 g' t') (lc_self lc1) ->
                    has3 "electrons" (facet_adj3 mean2 g' t') st1) /\
               (forall k' P, k' <> "electrons" ->
                  has3 k' P (lc_self lc1) -> has3 k' P st1) /\
               (forall k' P, k' <> "electrons" ->
                  has4 k' P (lc_self lc1) -> has4 k' P st1)).
  { destruct electron.
    - bind_inv Hst1 as tbl Htbl. bind_inv Hst1 as ie Hie.
      bind_inv Hst1 as col Hcol.
      destruct (fill_facet3_state _ _ _ _ _ _ _ _ _ _ Hst1 (HE eq_refl))
        as (? & ? & ? & ? & ? & ? & ? & Hp').
      split_and!; try done. intros HP0. by apply Hp', Hpr.
    - injection Hst1 as <-. split_and!; try done. }
  clear Hst1. destruct H1 as (Hn1' & Hn2' & Hpr1 & HE1 & H31 & H41).
  bind_inv H as tbl Htbl. bind_inv H as itemp Hitemp. bind_inv H as col Hcol.
  bind_inv H as st2 Hst2.
  destruct (fill_facet3_state _ _ _ _ _ _ _ _ _ _ Hst2
              (H31 "temperature" _ ltac:(done) HT))
    as (Hn1'' & Hn2'' & HT2 & HTd & HTf & H32 & H42 & Hpr2).
  bind_inv H as tbl2 Htbl2. bind_inv H as ipress Hipress.
  bind_inv H as col2 Hcol2. bind_inv H as st3 Hst3.
  destruct (fill_facet3_state _ _ _ _ _ _ _ _ _ _ Hst3
              (H32 "pressure" _ ltac:(done)
                 (H31 "pressure" _ ltac:(done) HP)))
    as (Hn13 & Hn23 & HP3 & HPd & HPf & H33 & H43 & Hpr3).
  bind_inv H as tbl3 Htbl3. bind_inv H as m Hm. bind_inv H as st4 Hst4.
  injection H as <-.
  destruct (fill_facet4_state _ _ _ _ _ _ _ _ _ _ Hst4
              (table_cols_rows _ _ _ Hm)
              (H43 "mixingratios" _ ltac:(done)
                 (H42 "mixingratios" _ ltac:(done)
                    (H41 "mixingratios" _ ltac:(done) HM))))
    as (Hn14 & Hn24 & HM4 & HMd & HMf & H34 & H44 & Hpr4).
  split; [|split].
  - split_and!; simpl; try congruence.
    + intros HP0. by apply Hpr4, Hpr3, Hpr2, Hpr1.
    + by apply H34, H33.
    + by apply H34.
    + intros He. destruct (HE1 He) as (Hs & _).
      by apply H34, H33, H32.
  - split_and!; simpl; try done.
    + by apply H34, H33.
    + by apply H34.
    + intros He. destruct (HE1 He) as (_ & Hd & _).
      by apply H34, H33, H32.
  - intros [g' t'] Hne Hd. apply Hkeep0 in Hd.
    destruct Hd as (_ & HdT & HdP & HdE & HdM). simpl in *.
    split_and!; simpl; try done.
    + apply H34, H33; try done. apply HTf; [done|]. by apply H31.
    + apply H34; [done|]. apply HPf; [done|]. by apply H32, H31.
    + intros He. destruct (HE1 He) as (_ & _ & Hf).
      apply H34, H33, H32; try done. apply Hf; [done|]. by apply HdE.
    + apply HMf; [done|]. by apply H43, H42, H41.
Qed.

Lemma facets_NoDup (n m : nat) :
  NoDup (g ← seq 0 n; t ← seq 0 m; [(g, t)]).
Proof.
  apply NoDup_bind; [| |apply NoDup_seq].
  - intros g1 g2 [g t] _ _ H1 H2.
    apply list_elem_of_bind in H1 as (t1 & H1 & _).
    apply list_elem_of_bind in H2 as (t2 & H2 & _).
    apply list_elem_of_singleton in H1. apply list_elem_of_singleton in H2.
    congruence.
  - intros g _. apply NoDup_bind; [| |apply NoDup_seq].
    + intros t1 t2 gt _ _ H1 H2.
      apply list_elem_of_singleton in H1. apply list_elem_of_singleton in H2.
      congruence.
    + intros t _. apply NoDup_singleton.
Qed.

Lemma facets_elem (n m g t : nat) :
  g < n -> t < m -> (g, t) ∈ (g ← seq 0 n; t ← seq 0 m; [(g, t)]).
Proof.
  intros Hg Ht. apply list_elem_of_bind. exists g. split.
  - apply list_elem_of_bind. exists t. split; [by apply list_elem_of_singleton|].
    apply elem_of_seq. lia.
  - apply elem_of_seq. lia.
Qed.

(** The loader, when it returns: the table it read, the level count, and
    the facts of [loader_inv] and [facet_done] about the final state. *)
Lemma get_profile_3d_Ok st st' :
  get_profile_3d ele h5py_File cfg st = Ok st' ->
  exists h5db nlev lc,
    h5py_File (profile_filepath cfg) = Ok h5db /\
    1 <= nlev /\
    st' = lc_self lc /\
    loader_inv (paired one_row_less st)
               (py_in "e-" (split_comma (h5_header h5db))) nlev ng nt lc /\
    forall g t, g < ng -> t < nt ->
      facet_done (py_in "e-" (split_comma (h5_header h5db))) (g, t) lc.
Proof.
  unfold get_profile_3d. intros H.
  bind_inv H as h5db Hdb. bind_inv H as g0 Hg0. bind_inv H as grp0 Hgrp0.
  bind_inv H as t0 Ht0. bind_inv H as tbl0 Htbl0.
  bind_inv H as aT HaT. bind_inv H as aP HaP.
  bind_inv H as yT HyT. bind_inv H as yP HyP.
  bind_inv H as els Hels. destruct els as [[electron ielec] st0].
  bind_inv H as lc Hlc. injection H as <-.
  set (nlev := length tbl0) in *.
  apply zeros3_shape in HaT as [_ HaT]. apply zeros3_shape in HaP as [_ HaP].
  apply zeros3_shape in HyT as [Hn HyT]. apply zeros3_shape in HyP as [_ HyP].
  rewrite Nat2Z.id in HaT, HaP.
  replace (Z.to_nat (Z.of_nat nlev - 1)) with (nlev - 1) in HyT, HyP by lia.
  exists h5db, nlev, lc. split; [done|]. split; [lia|]. split; [done|].
  set (hdr := split_comma (h5_header h5db)) in *.
  assert (Hinit : electron = py_in "e-" hdr /\
            loader_inv (paired one_row_less st) electron nlev ng nt
              (mk_locals3d true None None (seq 0 (length hdr)) st0)).
  { destruct (py_in "e-" hdr) eqn:He.
    - bind_inv Hels as aE HaE. bind_inv Hels as yE HyE.
      bind_inv Hels as ie Hie. injection Hels as <- <- <-.
      apply zeros3_shape in HaE as [_ HaE].
      apply zeros3_shape in HyE as [_ HyE]. rewrite Nat2Z.id in HaE.
      replace (Z.to_nat (Z.of_nat nlev - 1)) with (nlev - 1) in HyE by lia.
      split; [done|]. split_and!; simpl; try done.
      + intros Hpr0. unfold paired. simpl.
        apply paired_insert; [by eapply (shapes3_one_row_less nlev)|].
        apply paired_insert; [by eapply (shapes3_one_row_less nlev)|].
        apply paired_insert; [by eapply (shapes3_one_row_less nlev)|].
        exact Hpr0.
      + exists aT, yT. simpl. by simplify_map_eq.
      + exists aP, yP. simpl. by simplify_map_eq.
      + intros _. exists aE, yE. simpl. by simplify_map_eq.
    - injection Hels as <- <- <-.
      split; [done|]. split_and!; simpl; try done.
      + intros Hpr0. unfold paired. simpl.
        apply paired_insert; [by eapply (shapes3_one_row_less nlev)|].
        apply paired_insert; [by eapply (shapes3_one_row_less nlev)|].
        exact Hpr0.
      + exists aT, yT. simpl. by simplify_map_eq.
      + exists aP, yP. simpl. by simplify_map_eq. }
  destruct Hinit as [-> Hinit]. clear Hels.
  rewrite (foldM_nested
             (fun lc g t => facet_body ele cfg h5db hdr (py_in "e-" hdr)
                              ielec nlev lc g t)) in Hlc.
  destruct (foldM_establish
              (fun lc (gt : nat * nat) =>
                 facet_body ele cfg h5db hdr (py_in "e-" hdr) ielec nlev lc
                            gt.1 gt.2)
              (loader_inv (paired one_row_less st) (py_in "e-" hdr) nlev ng nt)
              (facet_done (py_in "e-" hdr))
              (g ← seq 0 ng; t ← seq 0 nt; [(g, t)])) with (3 := Hinit)
              (4 := Hlc) as [HI HQ].
  - intros a [g t] a' _ Ha Hstep. simpl in Hstep.
    destruct (facet_body_step _ _ _ _ _ _ _ _ _ _ Hstep Ha) as (? & ? & ?).
    done.
  - apply facets_NoDup.
  - split; [done|]. intros g t Hg Ht. apply HQ. by apply facets_elem.
Qed.

End Loader3d.

(** ** The continuum selector *)

Lemma filter_excluded (mols : list string) :
  Forall (fun x => x ∉ line_excluded)
         (List.filter (fun x => negb (py_in x line_excluded)) mols).
Proof.
  apply Forall_forall. intros x Hx.
  apply list_elem_of_In, filter_In in Hx as [_ Hx].
  apply negb_true_iff in Hx. intros Hin.
  assert (py_in x line_excluded = true); [|congruence].
  unfold py_in. apply existsb_exists. exists x.
  split; [by apply list_elem_of_In | apply String.eqb_refl].
Qed.

Lemma get_needed_continuum_run (st : atmsetup) (mols : list string) :
  get_needed_continuum (set_molecules mols st)
  = Ok (set_molecules
          (List.filter (fun x => negb (py_in x line_excluded)) mols)
          (set_continuum
             (table_pairs (fun k => py_in k mols) (has_electrons st))
             (set_molecules mols st))).
Proof.
  unfold get_needed_continuum, table_pairs, continuum_table, has_electrons.
  cbn [attr molecules set_molecules mbind result_bind level].
  replace (py_in "H+" ["H"; "H2-"; "H2"; "H-"; "He"; "N2"]) with false
    by reflexivity.
  generalize (List.filter (fun x => negb (py_in x line_excluded)) mols).
  generalize (bool_decide (is_Some (level st !! "electrons"))).
  generalize (py_in "H2" mols), (py_in "He" mols), (py_in "N2" mols),
    (py_in "H" mols), (py_in "CH4" mols), (py_in "H-" mols).
  generalize (set_molecules mols st).
  intros st0 [] [] [] [] [] [] [] rest; reflexivity.
Qed.

(** C5: the continuum selector adds exactly the pairs whose condition in
    the rule table holds, in the order of the table, and leaves in the line
    opacity registry the molecules that are none of H, H2-, H2, H-, He, N2,
    H+; molecules H2, He, H with electrons give the five pairs (H2,H2),
    (H2,He), (H2,H), (H-,ff), (H2,H2-), and H2O alone gives none. *)
Theorem continuum_pairs_follow_rule_table :
  (forall (st : atmsetup) (mols : list string),
     exists st',
       get_needed_continuum (set_molecules mols st) = Ok st' /\
       continuum_molecules st'
       = Some (table_pairs (fun k => py_in k mols) (has_electrons st)) /\
       (forall p, p ∈ table_pairs (fun k => py_in k mols) (has_electrons st)
          <-> (true, p) ∈ continuum_table (fun k => py_in k mols)
                                          (has_electrons st)) /\
       exists rest,
         molecules st' = Some rest /\
         rest = List.filter (fun x => negb (py_in x line_excluded)) mols /\
         Forall (fun x => x ∉ line_excluded) rest) /\
  (exists st',
     get_needed_continuum
       (set_molecules ["H2"; "He"; "H"] (with_electrons init_atmsetup))
     = Ok st' /\
     continuum_molecules st'
     = Some [("H2", "H2"); ("H2", "He"); ("H2", "H"); ("H-", "ff");
             ("H2", "H2-")] /\
     molecules st' = Some []) /\
  (exists st',
     get_needed_continuum (set_molecules ["H2O"] init_atmsetup) = Ok st' /\
     continuum_molecules st' = Some [] /\
     molecules st' = Some ["H2O"]).
Proof.
  split; [|split].
  - intros st mols. eexists. split; [apply get_needed_continuum_run|].
    split; [reflexivity|]. split.
    + intros p. unfold table_pairs. rewrite list_elem_of_fmap. split.
      * intros ([c q] & -> & Hin).
        apply list_elem_of_In, filter_In in Hin as [Hin Hc].
        simpl in Hc. subst c. by apply list_elem_of_In.
      * intros Hin. exists (true, p). split; [done|].
        apply list_elem_of_In, filter_In. split; [by apply list_elem_of_In|done].
    + eexists. split; [reflexivity|]. split; [reflexivity|].
      apply filter_excluded.
  - eexists. split; [apply get_needed_continuum_run|].
    split; vm_compute; reflexivity.
  - eexists. split; [apply get_needed_continuum_run|].
    split; vm_compute; reflexivity.
Qed.

(** C6: the selector never adds a warning, whatever the molecules are;
    with H+ among them the list of warnings is left as it was. *)
Theorem continuum_never_warns_on_H_plus :
  (forall (st : atmsetup) (mols : list string),
     exists st',
       get_needed_continuum (set_molecules mols st) = Ok st' /\
       warnings st' = warnings st) /\
  (exists st',
     get_needed_continuum (set_molecules ["H2"; "H+"] init_atmsetup) = Ok st' /\
     warnings st' = [] /\ molecules st' = Some []).
Proof.
  split.
  - intros st mols. eexists. split; [apply get_needed_continuum_run|].
    reflexivity.
  - eexists. split; [apply get_needed_continuum_run|].
    split; vm_compute; reflexivity.
Qed.

(** ** The weight resolver on strings without letters *)





Lemma weight_lookup_of ele (s : string) :
  weight_lookup ele s = weight_of ele s.
Proof.
  unfold weight_lookup, get_weights. simpl.
  destruct (weight_of ele s) as [m|e]; simpl; [|reflexivity].
  by rewrite lookup_insert_eq.
Qed.




(** ** The weight resolver on formulas *)

Lemma weight_H2O ele (mH mO : float) :
  ele "H" = Some mH -> ele "O" = Some mO ->
  weight_of ele "H2O" = Ok (0 + mH * 2 + mO * 1)%float.
Proof.
  intros HH HO. unfold weight_of.
  replace (molecule_list_of "H2O") with (Ok [PStr "H"; PFloat 2; PStr "O"])
    by (vm_compute; reflexivity).
  unfold totmass_of, weigh_at, ele_mass. simpl. rewrite HH. simpl.
  by rewrite HO.
Qed.

Lemma weight_CH4 ele (mC mH : float) :
  ele "C" = Some mC -> ele "H" = Some mH ->
  weight_of ele "CH4" = Ok (0 + mC * 1 + mH * 4)%float.
Proof.
  intros HC HH. unfold weight_of.
  replace (molecule_list_of "CH4") with (Ok [PStr "C"; PStr "H"; PFloat 4])
    by (vm_compute; reflexivity).
  unfold totmass_of, weigh_at, ele_mass. simpl. rewrite HC. simpl.
  by rewrite HH.
Qed.

(** Of a run of digits only the first reaches the element before it. *)
Lemma weight_H12 ele (mH : float) :
  ele "H" = Some mH -> weight_of ele "H12" = Ok (0 + mH * 1)%float.
Proof.
  intros HH. unfold weight_of.
  replace (molecule_list_of "H12") with (Ok [PStr "H"; PFloat 1; PFloat 2])
    by (vm_compute; reflexivity).
  unfold totmass_of, weigh_at, ele_mass. simpl. by rewrite HH.
Qed.

(** C1, at a formula with a two digit count: [get_weights] weighs C6H12O6
    as six C, one H and six O, which is less than the six C, twelve H and
    six O the formula stands for. *)
Theorem get_weights_reads_one_digit :
  weight_lookup sample_elements "C6H12O6"
  = Ok (0 + 12.0107 * 6 + 1.00794 * 1 + 15.9994 * 6)%float /\
  ((0 + 12.0107 * 6 + 1.00794 * 1 + 15.9994 * 6)
   <? (0 + 12.0107 * 6 + 1.00794 * 12 + 15.9994 * 6))%float = true /\
  weight_lookup sample_elements "H2O"
  = Ok (0 + 1.00794 * 2 + 15.9994 * 1)%float /\
  weight_lookup sample_elements "CH4"
  = Ok (0 + 12.0107 * 1 + 1.00794 * 4)%float.
Proof. repeat split; vm_compute; reflexivity. Qed.

(** ** The analytic profile path *)

Lemma load_pt_analytic (cfg : config) (read : frame) (st : atmsetup) :
  py_in "temperature" (frame_keys read) && py_in "pressure" (frame_keys read)
  = false ->
  is_number (PT_T cfg) && is_number (PT_logg1 cfg)
  && is_number (PT_logKir cfg) && is_number (PT_logPc cfg) = true ->
  load_pt cfg read st = Raise (NameError "calc_TP").
Proof. intros Hcols Hnum. unfold load_pt. by rewrite Hcols, Hnum. Qed.

(** C4, at a frame without temperature and pressure and with numeric
    T, logg1, logKir, logPc: the loader looks up a function [calc_TP] that
    does not exist and fails with a NameError, not with the "not included
    yet" exception that the method [calc_PT] raises. *)
Theorem get_profile_analytic_path_name_error :
  get_profile sample_elements no_csv cfg_pt init_atmsetup
  = Raise (NameError "calc_TP") /\
  calc_PT (PT_T cfg_pt) (PT_logKir cfg_pt) (PT_logg1 cfg_pt) (PT_logPc cfg_pt)
  = Raise (Exception
      "TODO: Temperature parameterization option not included yet") /\
  (forall (cfg : config) (read : frame) (st : atmsetup),
     py_in "temperature" (frame_keys read)
     && py_in "pressure" (frame_keys read) = false ->
     is_number (PT_T cfg) && is_number (PT_logg1 cfg)
     && is_number (PT_logKir cfg) && is_number (PT_logPc cfg) = true ->
     load_pt cfg read st = Raise (NameError "calc_TP")).
Proof.
  split; [vm_compute; reflexivity|]. split; [reflexivity|].
  apply load_pt_analytic.
Qed.

(** ** The header of the 3-D profile *)

Lemma no_electron_column_fails ele h5py_File cfg st st' h5db :
  h5py_File (profile_filepath cfg) = Ok h5db ->
  py_in "e-" (split_comma (h5_header h5db)) = false ->
  0 < num_gangle cfg -> 0 < num_tangle cfg ->
  get_profile_3d ele h5py_File cfg st <> Ok st'.
Proof.
  intros Hdb He Hg Ht H. unfold get_profile_3d in H. rewrite Hdb in H.
  simpl in H. rewrite He in H.
  bind_inv H as g0 Hg0. bind_inv H as grp0 Hgrp0.
  bind_inv H as t0 Ht0. bind_inv H as tbl0 Htbl0.
  bind_inv H as aT HaT. bind_inv H as aP HaP.
  bind_inv H as yT HyT. bind_inv H as yP HyP.
  simpl in H. bind_inv H as lc Hlc.
  destruct (num_gangle cfg) as [|ng]; [lia|].
  destruct (num_tangle cfg) as [|nt] eqn:Hnt; [lia|].
  simpl in Hlc. bind_inv Hlc as lc1 Hlc1. bind_inv Hlc1 as lc2 Hlc2.
  unfold facet_body in Hlc2. simpl in Hlc2. bind_inv Hlc2 as lc3 Hlc3.
  apply first_pass_Ok in Hlc3 as (ie & ? & ? & ? & ? & ? & ? & ? & ? & ?
                                  & Hie & _).
  discriminate.
Qed.

(** C3, at two headers: with temperature before pressure the three
    [pop] calls leave the pressure column among the molecules and the
    loader fails; without an e- column the index [ielec] is unbound and
    the loader fails; a header in the order pressure, temperature, e-
    loads and registers the one molecule. *)
Theorem get_profile_3d_header_order :
  get_profile_3d sample_elements
    (sample_h5py_File "temperature,pressure,e-,H2O") cfg_3d init_atmsetup
  = Raise IndexError /\
  get_profile_3d sample_elements
    (sample_h5py_File "pressure,temperature,H2O") cfg_3d init_atmsetup
  = Raise (UnboundLocalError "ielec") /\
  exists st',
    get_profile_3d sample_elements
      (sample_h5py_File "pressure,temperature,e-,H2O") cfg_3d init_atmsetup
    = Ok st' /\
    molecules st' = Some ["H2O"] /\
    weights st' = Some [("H2O", (0 + 1.00794 * 2 + 15.9994 * 1)%float)].
Proof.
  split; [vm_compute; reflexivity|]. split; [vm_compute; reflexivity|].
  eexists. split; [vm_compute; reflexivity|]. split; reflexivity.
Qed.

(** ** The cloud loader, 3-D without a file *)

Section Clouds.

Variable read_csv : string -> result frame.
Variable h5py_File : option string -> result h5file.
Variable path_exists : string -> bool.
Variable get_cld_input_grid : string -> arr1.
Variable regrid : arr2 -> arr1 -> arr1 -> arr2.
Variable cfg : config.

Lemma cloud_case_3d_no_file (st : atmsetup) :
  dimension st = Some "3d" -> clouds_filepath cfg = None ->
  cloud_case_of cfg st = Ok Cloud3d.
Proof.
  intros Hdim Hpath. unfold cloud_case_of. rewrite Hpath, Hdim. simpl.
  by destruct (scattering_g0 cfg).
Qed.

(** The last branch is taken only when the dimension is set to something
    that is neither 1d nor 3d, which neither loader does. *)
Lemma cloud_case_other (st : atmsetup) :
  cloud_case_of cfg st = Ok CloudOther ->
  exists d, dimension st = Some d /\ d <> "1d" /\ d <> "3d".
Proof.
  unfold cloud_case_of. destruct (dimension st) as [d|] eqn:Hd; simpl.
  - intros H. exists d. split; [done|].
    destruct (String.eqb_spec d "1d") as [H1|H1];
      destruct (String.eqb_spec d "3d") as [H3|H3];
      destruct (clouds_filepath cfg), (scattering_g0 cfg); simpl in H;
      try discriminate; done.
  - destruct (clouds_filepath cfg), (scattering_g0 cfg); simpl; discriminate.
Qed.

Lemma get_clouds_3d_no_file (wno : arr1) (st : atmsetup) (e : pyerr) :
  dimension st = Some "3d" -> clouds_filepath cfg = None ->
  h5py_File None = Raise e ->
  get_clouds read_csv h5py_File path_exists get_cld_input_grid regrid cfg
             wno st
  = Raise e.
Proof.
  intros Hdim Hpath Hopen. unfold get_clouds.
  rewrite cloud_case_3d_no_file by done. simpl. by rewrite Hpath, Hopen.
Qed.

End Clouds.

(** C8, in 3-D mode with no cloud file: [get_clouds] takes the 3-D branch
    and hands the missing name to the HDF5 opener, so the call fails with
    the opener's error and not with "CLD input not recognized". *)
Theorem get_clouds_3d_without_file_opens_none :
  (forall read_csv h5py_File path_exists get_cld_input_grid regrid cfg
          (wno : arr1) (st : atmsetup) (e : pyerr),
     dimension st = Some "3d" -> clouds_filepath cfg = None ->
     h5py_File None = Raise e ->
     get_clouds read_csv h5py_File path_exists get_cld_input_grid regrid cfg
                wno st
     = Raise e) /\
  (forall cfg (st : atmsetup),
     cloud_case_of cfg st = Ok CloudOther ->
     exists d, dimension st = Some d /\ d <> "1d" /\ d <> "3d") /\
  get_clouds no_csv (sample_h5py_File "opd,g0,w0") no_file sample_grid
             no_regrid cfg_3d [1000; 2000]%float
             (set_dimension "3d" init_atmsetup)
  = Raise TypeError.
Proof.
  split; [apply get_clouds_3d_no_file|]. split; [apply cloud_case_other|].
  vm_compute. reflexivity.
Qed.

(** ** The 1-D loader *)

Lemma as_matrix_shape (n : nat) (cols : list arr1) :
  shape2 n (length cols) (as_matrix n cols).
Proof.
  unfold as_matrix. split; [by rewrite length_fmap, length_seq|].
  apply Forall_fmap, Forall_forall. intros r _. simpl. by rewrite length_fmap.
Qed.

Lemma layer_mean2_shape (n m : nat) (lev : arr2) :
  shape2 n m lev -> shape2 (n - 1) m (layer_mean2 lev).
Proof.
  intros [Hn Hm]. split.
  - unfold layer_mean2. by rewrite length_adjacent, Hn.
  - by apply adjacent_rows_length.
Qed.

Section Loader1d.

Variable ele : string -> option float.
Variable read_csv : string -> result frame.
Variable cfg : config.

Lemma load_electrons_inv (P0 E0 : Prop) read st st' :
  load_electrons read st = Ok st' -> inv1d P0 E0 st -> inv1d P0 E0 st'.
Proof.
  unfold load_electrons. intros H [Hp _]. bind_inv H as e He.
  injection H as <-. split.
  - intros H0. apply paired_set; [|by apply Hp]. simpl.
    apply layers_of_pred, length_adjacent.
  - intros _. right. exists e, (layer_mean e). simpl. rewrite !lookup_insert_eq.
    split; [done|]. split; [done|]. apply layer_mean_rule.
Qed.

Lemma whichones_step_inv (P0 E0 : Prop) read acc i acc' :
  whichones_step ele read acc i = Ok acc' ->
  inv1d P0 E0 acc.2 -> inv1d P0 E0 acc'.2.
Proof.
  destruct acc as [w st]. unfold whichones_step. cbn [snd].
  destruct (weight_lookup ele i) as [m|e].
  - by intros [= <-].
  - destruct (String.eqb i "e-"); [|discriminate].
    intros H. bind_inv H as st1 Hst1. injection H as <-. simpl.
    by eapply load_electrons_inv.
Qed.

Lemma column_step_inv (P0 E0 : Prop) read acc i acc' :
  column_step ele read acc i = Ok acc' ->
  inv1d P0 E0 acc.2 -> inv1d P0 E0 acc'.2.
Proof.
  destruct acc as [w st]. unfold column_step. cbn [snd].
  destruct (py_in i ["pressure"; "temperature"]); [by intros [= <-]|].
  destruct (weight_lookup ele i ≫= _) as [[m mols]|e].
  - by intros [= <-].
  - destruct (String.eqb i "e-").
    + intros H. bind_inv H as st1 Hst1. injection H as <-. simpl.
      by eapply load_electrons_inv.
    + by intros [= <-].
Qed.

Lemma load_pt_Ok read st st' :
  load_pt cfg read st = Ok st' ->
  exists temp pres,
    st' = set_layer "pressure" (A1 (layer_geomean pres))
            (set_layer "temperature" (A1 (layer_mean temp))
               (set_level "pressure" (A1 pres)
                  (set_level "temperature" (A1 temp) st))).
Proof.
  unfold load_pt. destruct (_ && _).
  - intros H. bind_inv H as temp Ht. bind_inv H as pres Hp.
    injection H as <-. eauto.
  - destruct (_ && _); discriminate.
Qed.

(** The loader, when it returns: the level counts, the shapes, and the
    level to layer rule field by field. *)
Lemma get_profile_Ok st st' :
  get_profile ele read_csv cfg st = Ok st' ->
  exists n : nat,
    nlevel st' = Some (Z.of_nat n) /\
    nlayer st' = Some (Z.of_nat n - 1)%Z /\
    (paired one_row_less st -> paired one_row_less st') /\
    field_rule1 "temperature" arith_mean st' /\
    field_rule1 "pressure" geo_mean st' /\
    field_rule2 "mixingratios" arith_mean st' /\
    (electrons_rule1 st -> electrons_rule1 st').
Proof.
  unfold get_profile. intros H.
  assert (Hinv : inv1d (paired one_row_less st) (electrons_rule1 st) st)
    by (by split).
  bind_inv H as rd Hrd. destruct rd as [is_frame read].
  bind_inv H as ws Hws. destruct ws as [w st1].
  bind_inv H as m Hm. bind_inv H as st2 Hst2. injection H as <-.
  assert (Hinv1 : inv1d (paired one_row_less st) (electrons_rule1 st) st1).
  { destruct (whichones cfg) as [l|].
    - destruct (decide (1 <= length l)).
      + apply (foldM_invariant _ (fun acc => inv1d _ _ acc.2) _
                 (fun a b a' _ Ha Hf => whichones_step_inv _ _ _ _ _ _ Hf Ha)
                 ([], set_molecules l (set_dimension "1d" st)) (w, st1)
                 Hinv Hws).
      + by injection Hws as <- <-.
    - apply (foldM_invariant _ (fun acc => inv1d _ _ acc.2) _
               (fun a b a' _ Ha Hf => column_step_inv _ _ _ _ _ _ Hf Ha)
               ([], set_molecules [] (set_dimension "1d" st)) (w, st1)
               Hinv Hws). }
  destruct Hinv1 as [Hp1 He1].
  apply load_pt_Ok in Hst2 as (temp & pres & ->).
  assert (Hshape : exists k, shape2 (length m) k m).
  { destruct is_frame; [|discriminate]. unfold frame_matrix in Hm.
    bind_inv Hm as cols Hcols. injection Hm as <-.
    exists (length cols).
    replace (length (as_matrix _ cols)) with (frame_nrows read)
      by (unfold as_matrix; by rewrite length_fmap, length_seq).
    apply as_matrix_shape. }
  destruct Hshape as [k Hshape].
  exists (length m). split; [done|]. split; [done|]. split; [|split_and!].
  - intros H0. unfold paired. simpl.
    apply paired_insert; [simpl; apply layers_of_pred, length_adjacent|].
    apply paired_insert; [simpl; apply layers_of_pred, length_adjacent|].
    apply paired_insert.
    { split; [apply layers_of_pred, length_adjacent|].
      exists k. split; [done|]. split; [done|].
      apply (proj2 (layer_mean2_shape _ _ _ Hshape)). }
    by apply Hp1.
  - exists temp, (layer_mean temp). simpl. simplify_map_eq.
    split; [done|]. split; [done|]. apply layer_mean_rule.
  - eexists _, _. simpl. simplify_map_eq.
    split; [done|]. split; [done|]. apply layer_geomean_rule.
  - exists m, (layer_mean2 m). simpl. simplify_map_eq.
    split; [done|]. split; [done|]. apply layer_mean2_rule.
  - intros H0. destruct (He1 H0) as [He2|(lev & lay & Hlev & Hlay & Hr)].
    + left. simpl. by simplify_map_eq.
    + right. exists lev, lay. simpl. by simplify_map_eq.
Qed.

End Loader1d.

(** ** The mean molecular weight *)

Lemma cell_zip_with (f : float -> float -> float) (p q : arr2) (g t : nat)
    (x y : float) :
  cell p g t = Ok x -> cell q g t = Ok y ->
  cell (zip_with (zip_with f) p q) g t = Ok (f x y).
Proof.
  unfold cell. rewrite lookup_zip_with.
  destruct (p !! g) as [rp|]; [|discriminate].
  destruct (q !! g) as [rq|]; [|discriminate]. simpl.
  rewrite lookup_zip_with.
  destruct (rp !! t) as [x'|]; [|discriminate].
  destruct (rq !! t) as [y'|]; [|discriminate].
  by intros [= ->] [= ->].
Qed.

Lemma slice3_zip_with (f : float -> float -> float) (a b : arr3)
    (g t : nat) (ca cb : arr1) :
  slice3 a g t = Ok ca -> slice3 b g t = Ok cb ->
  slice3 (zip_with (zip_with (zip_with f)) a b) g t = Ok (zip_with f ca cb).
Proof.
  unfold slice3. revert b ca cb; induction a as [|p a IH];
    intros b ca cb Ha Hb; simpl in Ha.
  - by injection Ha as <-.
  - bind_inv Ha as x Hx. bind_inv Ha as xs Hxs. injection Ha as <-.
    destruct b as [|q b]; simpl in Hb.
    + by injection Hb as <-.
    + bind_inv Hb as y Hy. bind_inv Hb as ys Hys. injection Hb as <-.
      simpl. rewrite (cell_zip_with _ _ _ _ _ _ _ Hx Hy). simpl.
      by rewrite (IH _ _ _ Hxs Hys).
Qed.

Lemma slice3_layer_mean_mmw3 (w : arr3) (g t : nat) (c : arr1) :
  slice3 w g t = Ok c ->
  slice3 (layer_mean_mmw3 w) g t = Ok (layer_mean_mmw c).
Proof.
  intros Hc. unfold layer_mean_mmw3, layer_mean_mmw.
  apply slice3_zip_with; [by apply slice3_py_init | by apply slice3_py_tail].
Qed.

Lemma shape2_cell (ng nt : nat) (p : arr2) (g t : nat) :
  shape2 ng nt p -> g < ng -> t < nt -> exists x, cell p g t = Ok x.
Proof.
  intros [Hn Hm] Hg Ht. unfold cell.
  destruct (lookup_lt_is_Some_2 p g) as [row Hrow]; [lia|]. rewrite Hrow.
  pose proof (proj1 (Forall_lookup _ _) Hm _ _ Hrow) as Hlen. simpl in Hlen.
  destruct (lookup_lt_is_Some_2 row t) as [x Hx]; [lia|]. rewrite Hx. eauto.
Qed.

Lemma shape3_slice3 (n ng nt : nat) (a : arr3) (g t : nat) :
  shape3 n ng nt a -> g < ng -> t < nt -> exists c, slice3 a g t = Ok c.
Proof.
  intros [_ Ha] Hg Ht. unfold slice3. clear n.
  induction Ha as [|p a Hp Ha IH]; simpl; [eauto|].
  destruct (shape2_cell _ _ _ _ _ Hp Hg Ht) as [x ->].
  destruct IH as [c ->]. simpl. eauto.
Qed.

Lemma get_mmw_Ok np_dot cfg st st' :
  get_mmw np_dot cfg st = Ok st' ->
  field_rule1 "mmw" arith_mean st' \/
  has3 "mmw"
       (fun lev lay =>
          forall g t, g < num_gangle cfg -> t < num_tangle cfg ->
            facet_rule3 arith_mean g t lev lay) st'.
Proof.
  unfold get_mmw. intros H. bind_inv H as dim Hdim.
  bind_inv H as wm Hwm. bind_inv H as lay Hlay. injection H as <-.
  destruct (String.eqb dim "1d").
  - left. bind_inv Hwm as m Hm. bind_inv Hwm as w Hw.
    apply fmap_Ok in Hwm as (v & Hv & ->). simpl in Hlay.
    injection Hlay as <-. exists v, (layer_mean_mmw v). simpl.
    rewrite !lookup_insert_eq. split; [done|]. split; [done|].
    apply layer_mean_mmw_rule.
  - destruct (String.eqb dim "3d"); [|discriminate]. right.
    bind_inv Hwm as n Hn. bind_inv Hwm as z Hz.
    apply fmap_Ok in Hwm as (v & Hv & ->). simpl in Hlay.
    injection Hlay as <-. exists v, (layer_mean_mmw3 v). simpl.
    rewrite !lookup_insert_eq. split; [done|]. split; [done|].
    apply zeros3_shape in Hz as [_ Hz].
    assert (Hshape : shape3 (Z.to_nat n) (num_gangle cfg) (num_tangle cfg) v).
    { revert Hv. apply foldM_invariant; [|exact Hz].
      intros a g a' _ Ha. apply foldM_invariant; [|exact Ha].
      intros b t b' _ Hb Hstep. bind_inv Hstep as m4 Hm4.
      bind_inv Hstep as sl Hsl. bind_inv Hstep as w Hw.
      bind_inv Hstep as mv Hmv. by eapply assign3_shape. }
    intros g t Hg Ht.
    destruct (shape3_slice3 _ _ _ _ _ _ Hshape Hg Ht) as [c Hc].
    exists c, (layer_mean_mmw c). split; [done|].
    split; [by apply slice3_layer_mean_mmw3 | apply layer_mean_mmw_rule].
Qed.

(** ** The level to layer rule in both loaders *)

Lemma has3_impl k (P Q : arr3 -> arr3 -> Prop) st :
  (forall lev lay, P lev lay -> Q lev lay) -> has3 k P st -> has3 k Q st.
Proof. intros HPQ (lev & lay & ? & ? & ?). exists lev, lay. eauto. Qed.

Lemma has4_impl k (P Q : arr4 -> arr4 -> Prop) st :
  (forall lev lay, P lev lay -> Q lev lay) -> has4 k P st -> has4 k Q st.
Proof. intros HPQ (lev & lay & ? & ? & ?). exists lev, lay. eauto. Qed.

Lemma facet_adj3_rule (f h : float -> float -> float) g t lev lay :
  (forall hi lo, f hi lo = h lo hi) ->
  facet_adj3 f g t lev lay -> facet_rule3 h g t lev lay.
Proof.
  intros Hfh (c & Hc & Hl). exists c, (zip_with f (py_tail c) (py_init c)).
  split; [done|]. split; [done|]. by apply adjacent_rule.
Qed.

Lemma facet_adj4_rule g t lev lay :
  facet_adj4 g t lev lay -> facet_rule4 arith_mean g t lev lay.
Proof.
  intros (m & Hm & Hl). eexists m, _. split; [done|]. split; [done|].
  apply adjacent_rule2.
Qed.

Lemma paired_init (R : ndarray -> ndarray -> Prop) : paired R init_atmsetup.
Proof. intros k lay H. simpl in H. by rewrite lookup_empty in H. Qed.

Lemma electrons_rule1_init : electrons_rule1 init_atmsetup.
Proof. left. simpl. apply lookup_empty. Qed.

Lemma get_profile_3d_facets ele h5py_File cfg st st' g t :
  get_profile_3d ele h5py_File cfg st = Ok st' ->
  g < num_gangle cfg -> t < num_tangle cfg ->
  has3 "temperature" (facet_rule3 arith_mean g t) st' /\
  has3 "pressure" (facet_rule3 geo_mean g t) st' /\
  has3 "electrons" (facet_rule3 arith_mean g t) st' /\
  has4 "mixingratios" (facet_rule4 arith_mean g t) st'.
Proof.
  intros H Hg Ht.
  destruct (get_profile_3d_Ok _ _ _ _ _ H)
    as (h5db & nlev & lc & Hdb & Hn & -> & _ & Hdone).
  destruct (py_in "e-" (split_comma (h5_header h5db))) eqn:He.
  - destruct (Hdone g t Hg Ht) as (_ & HT & HP & HE & HM). simpl in *.
    split_and!.
    + eapply has3_impl; [|exact HT]. intros ??.
      apply facet_adj3_rule, mean2_arith.
    + eapply has3_impl; [|exact HP]. intros ??.
      apply facet_adj3_rule, geomean2_geo.
    + eapply has3_impl; [|exact (HE eq_refl)]. intros ??.
      apply facet_adj3_rule, mean2_arith.
    + eapply has4_impl; [|exact HM]. intros ??. apply facet_adj4_rule.
  - exfalso.
    eapply (no_electron_column_fails ele h5py_File cfg st); eauto; lia.
Qed.

(** C2, as amended: every layer array is derived from its level array by
    the rule of its field.  The derived array has one entry per pair of
    adjacent levels: its length is n-1 for a level array of length n >= 1,
    and 0 for an empty level array.  Entry i is
    0.5*(level[i] + level[i+1]) for temperature, mixing ratios, electrons
    and mean molecular weight, and sqrt(level[i]*level[i+1]) for pressure.
    This is what [get_profile] stores, what [get_profile_3d] stores in
    every facet (g, t), and what [get_mmw] stores in both dimensions. *)
Theorem layers_from_adjacent_levels :
  (forall lev : arr1,
     layer_rule arith_mean lev (layer_mean lev) /\
     layer_rule geo_mean lev (layer_geomean lev)) /\
  (forall ele read_csv cfg st st',
     get_profile ele read_csv cfg st = Ok st' ->
     field_rule1 "temperature" arith_mean st' /\
     field_rule1 "pressure" geo_mean st' /\
     field_rule2 "mixingratios" arith_mean st' /\
     (electrons_rule1 st -> electrons_rule1 st')) /\
  (forall ele h5py_File cfg st st' g t,
     get_profile_3d ele h5py_File cfg st = Ok st' ->
     g < num_gangle cfg -> t < num_tangle cfg ->
     has3 "temperature" (facet_rule3 arith_mean g t) st' /\
     has3 "pressure" (facet_rule3 geo_mean g t) st' /\
     has3 "electrons" (facet_rule3 arith_mean g t) st' /\
     has4 "mixingratios" (facet_rule4 arith_mean g t) st') /\
  (forall np_dot cfg st st',
     get_mmw np_dot cfg st = Ok st' ->
     field_rule1 "mmw" arith_mean st' \/
     has3 "mmw"
          (fun lev lay =>
             forall g t, g < num_gangle cfg -> t < num_tangle cfg ->
               facet_rule3 arith_mean g t lev lay) st').
Proof.
  split_and!.
  - intros lev. split; [apply layer_mean_rule | apply layer_geomean_rule].
  - intros ele read_csv cfg st st' H.
    destruct (get_profile_Ok _ _ _ _ _ H) as (n & _ & _ & _ & ? & ? & ? & ?).
    done.
  - apply get_profile_3d_facets.
  - apply get_mmw_Ok.
Qed.

Lemma layers_from_adjacent_levels_witness :
  (field_rule1 "temperature" arith_mean sample_state_1d /\
   field_rule1 "pressure" geo_mean sample_state_1d /\
   field_rule2 "mixingratios" arith_mean sample_state_1d /\
   (electrons_rule1 init_atmsetup -> electrons_rule1 sample_state_1d)) /\
  (has3 "temperature" (facet_rule3 arith_mean 0 1) sample_state_3d /\
   has3 "pressure" (facet_rule3 geo_mean 0 1) sample_state_3d /\
   has3 "electrons" (facet_rule3 arith_mean 0 1) sample_state_3d /\
   has4 "mixingratios" (facet_rule4 arith_mean 0 1) sample_state_3d).
Proof.
  destruct layers_from_adjacent_levels as (_ & H1 & H3 & _). split.
  - apply (H1 sample_elements no_csv (cfg_1d sample_frame) init_atmsetup).
    vm_compute. reflexivity.
  - apply (H3 sample_elements (sample_h5py_File "pressure,temperature,e-,H2O")
              cfg_3d init_atmsetup sample_state_3d 0 1).
    + vm_compute. reflexivity.
    + simpl. lia.
    + simpl. lia.
Defined.

(** C2 as stated, with length n-1 for every n, fails on a table without
    rows: [get_profile] returns on it, and the level and the layer
    temperature are both empty, so the layer array does not have the
    length 0 - 1 of the claim. *)
Lemma empty_table_layer_is_empty :
  get_profile sample_elements no_csv (cfg_1d empty_frame) init_atmsetup
  = Ok sample_state_empty /\
  level sample_state_empty !! "temperature" = Some (A1 []) /\
  layer sample_state_empty !! "temperature" = Some (A1 []) /\
  ~ (forall ele read_csv cfg st st' lev lay,
       get_profile ele read_csv cfg st = Ok st' ->
       level st' !! "temperature" = Some (A1 lev) ->
       layer st' !! "temperature" = Some (A1 lay) ->
       (Z.of_nat (length lay) = Z.of_nat (length lev) - 1)%Z).
Proof.
  assert (Hrun : get_profile sample_elements no_csv (cfg_1d empty_frame)
                   init_atmsetup = Ok sample_state_empty)
    by (vm_compute; reflexivity).
  assert (Hlev : level sample_state_empty !! "temperature" = Some (A1 []))
    by (vm_compute; reflexivity).
  assert (Hlay : layer sample_state_empty !! "temperature" = Some (A1 []))
    by (vm_compute; reflexivity).
  split_and!; try done.
  intros Hall. specialize (Hall _ _ _ _ _ _ _ Hrun Hlev Hlay).
  simpl in Hall. lia.
Qed.

(** ** The level counts and the shapes *)

(** C9, as amended: when a loader returns, nlevel = nlayer + 1, and every
    layer array has the rank of its level array and the same dimensions
    behind the leading one, in the 1-D and in the 3-D path, given that
    this held of the instance before the call (as it does of a fresh
    one).  The leading dimension of the layer array is exactly one less
    than that of the level array when the level array has a row, and 0
    when it has none.  The 3-D loader returns with nlevel >= 1 only, and
    its temperature and pressure arrays have nlevel and nlayer rows; the
    1-D loader returns with any nlevel >= 0. *)
Theorem nlevel_is_nlayer_plus_one :
  (forall ele read_csv cfg st st',
     get_profile ele read_csv cfg st = Ok st' ->
     exists nl ny : Z,
       nlevel st' = Some nl /\ nlayer st' = Some ny /\ nl = (ny + 1)%Z /\
       (0 <= nl)%Z /\
       (paired one_row_less st -> paired one_row_less st')) /\
  (forall ele h5py_File cfg st st',
     get_profile_3d ele h5py_File cfg st = Ok st' ->
     exists nl ny : Z,
       nlevel st' = Some nl /\ nlayer st' = Some ny /\ nl = (ny + 1)%Z /\
       (1 <= nl)%Z /\
       has3 "temperature"
            (fun lev lay =>
               Z.of_nat (length lev) = nl /\ Z.of_nat (length lay) = ny) st' /\
       has3 "pressure"
            (fun lev lay =>
               Z.of_nat (length lev) = nl /\ Z.of_nat (length lay) = ny) st' /\
       (paired one_row_less st -> paired one_row_less st')) /\
  paired one_row_less init_atmsetup.
Proof.
  split_and!.
  - intros ele read_csv cfg st st' H.
    destruct (get_profile_Ok _ _ _ _ _ H) as (n & Hn1 & Hn2 & Hp & _).
    exists (Z.of_nat n), (Z.of_nat n - 1)%Z. split_and!; try done; lia.
  - intros ele h5py_File cfg st st' H.
    destruct (get_profile_3d_Ok _ _ _ _ _ H)
      as (h5db & nlev & lc & Hdb & Hn & -> & (Hn1 & Hn2 & Hp & HT & HP & _)
          & _).
    exists (Z.of_nat nlev), (Z.of_nat nlev - 1)%Z.
    split_and!; try done; try lia.
    + eapply has3_impl; [|exact HT].
      intros lev lay [[Hl _] [Hy _]]. rewrite Hl, Hy. lia.
    + eapply has3_impl; [|exact HP].
      intros lev lay [[Hl _] [Hy _]]. rewrite Hl, Hy. lia.
  - apply paired_init.
Qed.

Lemma nlevel_is_nlayer_plus_one_witness :
  (exists nl ny : Z,
     nlevel sample_state_1d = Some nl /\ nlayer sample_state_1d = Some ny /\
     nl = (ny + 1)%Z /\ (0 <= nl)%Z /\
     (paired one_row_less init_atmsetup -> paired one_row_less sample_state_1d))
  /\
  (exists nl ny : Z,
     nlevel sample_state_3d = Some nl /\ nlayer sample_state_3d = Some ny /\
     nl = (ny + 1)%Z /\ (1 <= nl)%Z /\
     has3 "temperature"
          (fun lev lay =>
             Z.of_nat (length lev) = nl /\ Z.of_nat (length lay) = ny)
          sample_state_3d /\
     has3 "pressure"
          (fun lev lay =>
             Z.of_nat (length lev) = nl /\ Z.of_nat (length lay) = ny)
          sample_state_3d /\
     (paired one_row_less init_atmsetup -> paired one_row_less sample_state_3d)).
Proof.
  destruct nlevel_is_nlayer_plus_one as (H1 & H3 & _). split.
  - apply (H1 sample_elements no_csv (cfg_1d sample_frame) init_atmsetup).
    vm_compute. reflexivity.
  - apply (H3 sample_elements (sample_h5py_File "pressure,temperature,e-,H2O")
              cfg_3d init_atmsetup).
    vm_compute. reflexivity.
Defined.

(** C9 as stated, with a leading dimension exactly one less for every
    layer array, fails on a table without rows: [get_profile] returns on
    it with nlevel = 0 and nlayer = -1, and the level and the layer
    mixing ratios both have no row, so the leading dimension of the layer
    array is that of the level array and not one less. *)
Lemma empty_table_keeps_leading_dimension :
  get_profile sample_elements no_csv (cfg_1d empty_frame) init_atmsetup
  = Ok sample_state_empty /\
  nlevel sample_state_empty = Some 0%Z /\
  nlayer sample_state_empty = Some (-1)%Z /\
  level sample_state_empty !! "mixingratios" = Some (A2 []) /\
  layer sample_state_empty !! "mixingratios" = Some (A2 []) /\
  ~ (forall ele read_csv cfg st st' lev lay,
       get_profile ele read_csv cfg st = Ok st' ->
       level st' !! "mixingratios" = Some (A2 lev) ->
       layer st' !! "mixingratios" = Some (A2 lay) ->
       (Z.of_nat (length lay) = Z.of_nat (length lev) - 1)%Z).
Proof.
  assert (Hrun : get_profile sample_elements no_csv (cfg_1d empty_frame)
                   init_atmsetup = Ok sample_state_empty)
    by (vm_compute; reflexivity).
  assert (Hlev : level sample_state_empty !! "mixingratios" = Some (A2 []))
    by (vm_compute; reflexivity).
  assert (Hlay : layer sample_state_empty !! "mixingratios" = Some (A2 []))
    by (vm_compute; reflexivity).
  split_and!; try done; try (vm_compute; reflexivity).
  intros Hall. specialize (Hall _ _ _ _ _ _ _ Hrun Hlev Hlay).
  simpl in Hall. lia.
Qed.

(** ** The column disaggregator *)

Lemma py_get_nat {A} (l : list A) (i : nat) : py_get l (Z.of_nat i) = nth_r l i.
Proof.
  unfold py_get, py_index, nth_r.
  destruct (decide (i < length l)) as [Hlt|Hge].
  - replace (0 <=? Z.of_nat i)%Z with true by (symmetry; apply Z.leb_le; lia).
    replace (Z.of_nat i <? Z.of_nat (length l))%Z with true
      by (symmetry; apply Z.ltb_lt; lia).
    simpl. by rewrite Nat2Z.id.
  - replace (Z.of_nat i <? Z.of_nat (length l))%Z with false
      by (symmetry; apply Z.ltb_ge; lia).
    replace (Z.of_nat i <? 0)%Z with false by (symmetry; apply Z.ltb_ge; lia).
    rewrite !andb_false_r. simpl.
    by rewrite (lookup_ge_None_2 l i) by lia.
Qed.

Lemma cell_z_nat (p : arr2) (g t : nat) :
  cell_z p (Z.of_nat g) (Z.of_nat t) = cell p g t.
Proof.
  unfold cell_z, cell. rewrite py_get_nat. unfold nth_r.
  destruct (p !! g) as [row|]; simpl; [|done]. by rewrite py_get_nat.
Qed.

Lemma nd_slice_A3 (a : arr3) (g t : nat) :
  nd_slice (A3 a) (Z.of_nat g) (Z.of_nat t) = A1 <$> slice3 a g t.
Proof.
  unfold nd_slice, slice3. f_equal. apply mapR_ext_in. intros p _.
  apply cell_z_nat.
Qed.

(** Entry [i] of the slice [a[:, g, t]] is the cell [a[i][g][t]]. *)
Lemma slice3_cells (a : arr3) (g t : nat) (c : arr1) :
  slice3 a g t = Ok c ->
  length c = length a /\
  forall i p, a !! i = Some p ->
    exists row x, p !! g = Some row /\ row !! t = Some x /\ c !! i = Some x.
Proof.
  intros H. split; [by eapply mapR_Ok_length|].
  intros i p Hp. destruct (mapR_Ok_lookup _ _ _ H i p Hp) as (x & Hx & Hcell).
  unfold cell in Hcell. destruct (p !! g) as [row|]; [|discriminate].
  destruct (row !! t) as [y|] eqn:Hy; [|discriminate].
  injection Hcell as ->. eauto.
Qed.

Lemma nd_slice_ndim (a a' : ndarray) (g t : Z) :
  nd_slice a g t = Ok a' -> ndim a' + 2 = ndim a.
Proof.
  destruct a; simpl; try discriminate; intros H;
    apply fmap_Ok in H as (? & _ & ->); reflexivity.
Qed.

Lemma nd_slice2_ndim (a a' : ndarray) (g t : Z) :
  nd_slice2 a g t = Ok a' -> ndim a' + 2 = ndim a.
Proof.
  destruct a; simpl; try discriminate; intros H;
    apply fmap_Ok in H as (? & _ & ->); reflexivity.
Qed.

Lemma disect_level_Ok k g t st st' :
  disect_level k g t st = Ok st' ->
  exists a a', level st !! k = Some a /\ nd_slice a g t = Ok a' /\
               st' = set_level k a' st.
Proof.
  unfold disect_level, item. intros H. bind_inv H as a Ha.
  bind_inv H as a' Ha'. injection H as <-.
  destruct (level st !! k) as [a0|]; [|discriminate]. injection Ha as ->.
  eauto.
Qed.

Lemma disect_layer_Ok k g t st st' :
  disect_layer k g t st = Ok st' ->
  exists a a', layer st !! k = Some a /\ nd_slice a g t = Ok a' /\
               st' = set_layer k a' st.
Proof.
  unfold disect_layer, item. intros H. bind_inv H as a Ha.
  bind_inv H as a' Ha'. injection H as <-.
  destruct (layer st !! k) as [a0|]; [|discriminate]. injection Ha as ->.
  eauto.
Qed.

Lemma disect_cloud_Ok k g t st st' :
  disect_cloud k g t st = Ok st' ->
  exists d a a', layer_cloud st = Some d /\ d !! k = Some a /\
                 nd_slice2 a g t = Ok a' /\
                 st' = set_cloud (<[k := a']> d) st.
Proof.
  unfold disect_cloud, item. intros H. bind_inv H as d Hd.
  bind_inv H as a Ha. bind_inv H as a' Ha'. injection H as <-.
  destruct (layer_cloud st) as [d0|]; [|discriminate]. injection Hd as ->.
  destruct (d !! k) as [a0|] eqn:Hk; [|discriminate]. injection Ha as ->.
  by exists d, a, a'.
Qed.

(** What [disect] does, field by field: the two level arrays, the six
    layer arrays and the three cloud arrays it names are replaced by their
    slices at [(g, t)]; every other entry is left as it was. *)
Lemma disect_Ok (g t : Z) (st st' : atmsetup) :
  disect g t st = Ok st' ->
  (forall k, k ∈ disect_level_keys ->
     exists a a', level st !! k = Some a /\ nd_slice a g t = Ok a' /\
                  level st' !! k = Some a') /\
  (forall k, k ∈ disect_layer_keys ->
     exists a a', layer st !! k = Some a /\ nd_slice a g t = Ok a' /\
                  layer st' !! k = Some a') /\
  (exists a a', layer st !! "mixingratios" = Some a /\
                nd_slice2 a g t = Ok a' /\
                layer st' !! "mixingratios" = Some a') /\
  (exists d d', layer_cloud st = Some d /\ layer_cloud st' = Some d' /\
     forall k, k ∈ disect_cloud_keys ->
       exists a a', d !! k = Some a /\ nd_slice2 a g t = Ok a' /\
                    d' !! k = Some a') /\
  (forall k, k ∉ disect_level_keys -> level st' !! k = level st !! k) /\
  (forall k, k ∉ "mixingratios" :: disect_layer_keys ->
     layer st' !! k = layer st !! k).
Proof.
  unfold disect. intros H.
  bind_inv H as s1 H1. apply disect_level_Ok in H1 as (a1 & b1 & L1 & S1 & ->).
  bind_inv H as s2 H2. apply disect_level_Ok in H2 as (a2 & b2 & L2 & S2 & ->).
  bind_inv H as s3 H3. apply disect_layer_Ok in H3 as (a3 & b3 & L3 & S3 & ->).
  bind_inv H as s4 H4. apply disect_layer_Ok in H4 as (a4 & b4 & L4 & S4 & ->).
  bind_inv H as s5 H5. apply disect_layer_Ok in H5 as (a5 & b5 & L5 & S5 & ->).
  bind_inv H as a6 L6. bind_inv H as b6 S6.
  bind_inv H as s7 H7. apply disect_layer_Ok in H7 as (a7 & b7 & L7 & S7 & ->).
  bind_inv H as s8 H8. apply disect_layer_Ok in H8 as (a8 & b8 & L8 & S8 & ->).
  bind_inv H as s9 H9.
  apply disect_cloud_Ok in H9 as (d9 & a9 & b9 & D9 & L9 & S9 & ->).
  bind_inv H as s10 H10.
  apply disect_cloud_Ok in H10 as (d10 & a10 & b10 & D10 & L10 & S10 & ->).
  apply disect_cloud_Ok in H as (d11 & a11 & b11 & D11 & L11 & S11 & ->).
  unfold item in L6. simpl in *.
  destruct (_ !! "mixingratios") as [a6'|] eqn:L6'; [|discriminate].
  injection L6 as ->. injection D10 as <-. injection D11 as <-.
  simplify_map_eq.
  split_and!.
  - intros k Hk. unfold disect_level_keys in Hk.
    repeat (apply elem_of_cons in Hk as [->|Hk]); [| |by inversion Hk];
      eexists _, _; simplify_map_eq; eauto.
  - intros k Hk. unfold disect_layer_keys in Hk.
    repeat (apply elem_of_cons in Hk as [->|Hk]); [| | | | |by inversion Hk];
      eexists _, _; simplify_map_eq; eauto.
  - eexists _, _. simplify_map_eq. eauto.
  - eexists _, _. split; [done|]. split; [done|].
    intros k Hk. unfold disect_cloud_keys in Hk.
    repeat (apply elem_of_cons in Hk as [->|Hk]); [| | |by inversion Hk];
      eexists _, _; simplify_map_eq; eauto.
  - intros k Hk. unfold disect_level_keys in Hk.
    apply not_elem_of_cons in Hk as [? Hk].
    apply not_elem_of_cons in Hk as [? _]. by simplify_map_eq.
  - intros k Hk. unfold disect_layer_keys in Hk.
    repeat (apply not_elem_of_cons in Hk as [? Hk]). by simplify_map_eq.
Qed.

(** C7, as amended: [disect] replaces by their slices at (g, t) the level
    temperature and pressure, the layer temperature, pressure, mmw, mixing
    ratios, column density and electrons, and the cloud opd, g0 and w0,
    each losing its two angular dimensions; it leaves every other entry as
    it was; and for a valid (g, t) the new level temperature is the 3-D
    level temperature sliced at [:, g, t], cell by cell. *)
Theorem disect_projects_named_fields (g t : nat) (st st' : atmsetup) :
  disect (Z.of_nat g) (Z.of_nat t) st = Ok st' ->
  (forall k, k ∈ disect_level_keys ->
     exists a a', level st !! k = Some a /\
                  nd_slice a (Z.of_nat g) (Z.of_nat t) = Ok a' /\
                  level st' !! k = Some a' /\ ndim a' + 2 = ndim a) /\
  (forall k, k ∈ disect_layer_keys ->
     exists a a', layer st !! k = Some a /\
                  nd_slice a (Z.of_nat g) (Z.of_nat t) = Ok a' /\
                  layer st' !! k = Some a' /\ ndim a' + 2 = ndim a) /\
  (exists a a', layer st !! "mixingratios" = Some a /\
                nd_slice2 a (Z.of_nat g) (Z.of_nat t) = Ok a' /\
                layer st' !! "mixingratios" = Some a' /\
                ndim a' + 2 = ndim a) /\
  (exists d d', layer_cloud st = Some d /\ layer_cloud st' = Some d' /\
     forall k, k ∈ disect_cloud_keys ->
       exists a a', d !! k = Some a /\
                    nd_slice2 a (Z.of_nat g) (Z.of_nat t) = Ok a' /\
                    d' !! k = Some a' /\ ndim a' + 2 = ndim a) /\
  (forall k, k ∉ disect_level_keys -> level st' !! k = level st !! k) /\
  (forall k, k ∉ "mixingratios" :: disect_layer_keys ->
     layer st' !! k = layer st !! k) /\
  (forall T : arr3, level st !! "temperature" = Some (A3 T) ->
     exists c : arr1,
       level st' !! "temperature" = Some (A1 c) /\
       slice3 T g t = Ok c /\ length c = length T /\
       forall i p, T !! i = Some p ->
         exists row x, p !! g = Some row /\ row !! t = Some x /\
                       c !! i = Some x).
Proof.
  intros H.
  destruct (disect_Ok _ _ _ _ H) as (Hlev & Hlay & Hmix & Hcld & Hl & Hy).
  split_and!; try done.
  - intros k Hk. destruct (Hlev k Hk) as (a & a' & ? & Hs & ?).
    exists a, a'. split_and!; try done. by eapply nd_slice_ndim.
  - intros k Hk. destruct (Hlay k Hk) as (a & a' & ? & Hs & ?).
    exists a, a'. split_and!; try done. by eapply nd_slice_ndim.
  - destruct Hmix as (a & a' & ? & Hs & ?).
    exists a, a'. split_and!; try done. by eapply nd_slice2_ndim.
  - destruct Hcld as (d & d' & ? & ? & Hk). exists d, d'.
    split; [done|]. split; [done|]. intros k Hin.
    destruct (Hk k Hin) as (a & a' & ? & Hs & ?).
    exists a, a'. split_and!; try done. by eapply nd_slice2_ndim.
  - intros T HT.
    destruct (Hlev "temperature") as (a & a' & Ha & Hs & Ha');
      [by left|].
    rewrite HT in Ha. injection Ha as <-. rewrite nd_slice_A3 in Hs.
    apply fmap_Ok in Hs as (c & Hc & ->). exists c.
    split; [done|]. split; [done|]. by apply slice3_cells.
Qed.

Lemma disect_projects_named_fields_witness :
  exists c : arr1,
    level sample_state_facet !! "temperature" = Some (A1 c) /\
    c = [1000; 1500; 2000]%float /\
    slice3 [ [[1000; 1000]]; [[1500; 1500]]; [[2000; 2000]] ]%float 0 1 = Ok c.
Proof.
  destruct (disect_projects_named_fields 0 1 sample_state_full
              sample_state_facet) as (_ & _ & _ & _ & _ & _ & HT).
  - vm_compute. reflexivity.
  - destruct (HT [ [[1000; 1000]]; [[1500; 1500]]; [[2000; 2000]] ]%float)
      as (c & Hc & Hs & _).
    + vm_compute. reflexivity.
    + exists c. split; [exact Hc|]. split; [|exact Hs].
      vm_compute in Hs. by injection Hs as <-.
Defined.

(** C7 as stated fails on the state the 3-D pipeline leaves: after
    [disect] the level mixing ratios still have four dimensions and the
    level mmw, density and electrons three, so not every array has lost
    its angular dimensions. *)
Lemma disect_leaves_level_fields_3d :
  sample_pipeline = Ok sample_state_full /\
  disect 0 1 sample_state_full = Ok sample_state_facet /\
  ndim <$> level sample_state_facet !! "mixingratios" = Some 4 /\
  ndim <$> level sample_state_facet !! "mmw" = Some 3 /\
  ndim <$> level sample_state_facet !! "den" = Some 3 /\
  ndim <$> level sample_state_facet !! "electrons" = Some 3 /\
  ~ (forall k a, level sample_state_facet !! k = Some a -> ndim a <= 2).
Proof.
  assert (Hmix : ndim <$> level sample_state_facet !! "mixingratios" = Some 4)
    by (vm_compute; reflexivity).
  split_and!; try (vm_compute; reflexivity).
  intros Hall.
  destruct (level sample_state_facet !! "mixingratios") as [a|] eqn:Ha;
    [|discriminate].
  specialize (Hall _ _ Ha). injection Hmix as Hmix. lia.
Qed.

(** * Further properties *)

(** ** The weight resolver on lowercase letters *)

(** A letter is not a digit. *)
Lemma lower_not_digit (c : ascii) :
  islower c = true -> float_of_char c = Raise ValueError /\ isupper c = false.
Proof.
  destruct c as [[] [] [] [] [] [] [] []]; intros H; try discriminate H;
    split; reflexivity.
Qed.

Lemma upper_not_digit (c : ascii) :
  isupper c = true -> float_of_char c = Raise ValueError /\ islower c = false.
Proof.
  destruct c as [[] [] [] [] [] [] [] []]; intros H; try discriminate H;
    split; reflexivity.
Qed.

(** A lowercase letter at index 0 finds the list empty. *)
Lemma scan_lower_first (c : ascii) (s : string) :
  islower c = true -> molecule_list_of (String c s) = Raise IndexError.
Proof.
  intros Hc. destruct (lower_not_digit c Hc) as [Hd Hu].
  unfold molecule_list_of. simpl. unfold scan_char. by rewrite Hd, Hu, Hc.
Qed.

(** X1: a name that starts with a lowercase letter is never weighed.
    Whatever the element table holds, [get_weights] raises IndexError on
    it, given alone or at the head of a list, and so does the lookup of
    the loaders: the first loop writes the letter to
    [molecule_list[j-1]] while the list is still empty.  The names e-,
    temperature and pressure are of this kind. *)
Theorem get_weights_lowercase_first
    (ele : string -> option float) (c : ascii) (s : string) (l : list string) :
  islower c = true ->
  get_weights ele (MStr (String c s)) = Raise IndexError /\
  get_weights ele (MList (String c s :: l)) = Raise IndexError /\
  weight_lookup ele (String c s) = Raise IndexError.
Proof.
  intros Hc. pose proof (scan_lower_first c s Hc) as H.
  unfold weight_lookup, get_weights, weight_of. cbn [foldM]. rewrite H.
  done.
Qed.

Lemma get_weights_lowercase_first_witness :
  islower "e" = true /\
  get_weights sample_elements (MStr "e-") = Raise IndexError /\
  get_weights sample_elements (MList ["e-"; "H2O"]) = Raise IndexError /\
  weight_lookup sample_elements "e-" = Raise IndexError.
Proof.
  split; [reflexivity|].
  apply (get_weights_lowercase_first sample_elements "e" "-" ["H2O"]).
  reflexivity.
Defined.

(** Every step of the scan adds at most one entry. *)
Lemma scan_char_length (ml ml' : list pyval) (j : nat) (c : ascii) :
  scan_char ml j c = Ok ml' ->
  length ml' <= S (length ml) /\
  (islower c = true -> length ml' = length ml).
Proof.
  unfold scan_char. destruct (float_of_char c) as [x|e] eqn:Hd.
  - intros [= <-]. rewrite length_app. simpl. split; [lia|].
    intros Hc. destruct (lower_not_digit c Hc) as [Hd' _]. congruence.
  - destruct (isupper c) eqn:Hu.
    + intros [= <-]. rewrite length_app. simpl. split; [lia|].
      intros Hc. destruct (lower_not_digit c Hc) as [_ Hu']. congruence.
    + destruct (islower c).
      * intros H. bind_inv H as k Hk.
        destruct (ml !! k) as [[x|s]|]; try discriminate.
        injection H as <-. rewrite length_insert. split; [lia|done].
      * intros [= <-]. split; [lia|done].
Qed.

(** The first loop raises IndexError or TypeError only. *)
Lemma scan_char_error (ml : list pyval) (j : nat) (c : ascii) (e : pyerr) :
  scan_char ml j c = Raise e -> e = IndexError \/ e = TypeError.
Proof.
  unfold scan_char. destruct (float_of_char c); [discriminate|].
  destruct (isupper c); [discriminate|]. destruct (islower c); [|discriminate].
  unfold py_index.
  destruct (_ && _); simpl.
  - destruct (ml !! _) as [[x|s]|]; intros [= <-]; auto.
  - destruct (_ && _); simpl.
    + destruct (ml !! _) as [[x|s]|]; intros [= <-]; auto.
    + intros [= <-]; auto.
Qed.

(** Once the list is shorter than the position, a lowercase letter finds
    no entry to extend. *)
Lemma scan_from_behind (s : string) (j : nat) (ml : list pyval) :
  length ml < j -> 1 <= count_lower s ->
  scan_from s j ml = Raise IndexError.
Proof.
  revert j ml; induction s as [|c s IH]; intros j ml Hlen Hs; simpl in *;
    [lia|].
  destruct (scan_char ml j c) as [ml'|e] eqn:Hc; simpl.
  - destruct (scan_char_length _ _ _ _ Hc) as [Hle Hlow].
    destruct (islower c) eqn:Hl.
    + exfalso. unfold scan_char in Hc.
      destruct (lower_not_digit c Hl) as [Hd Hu]. rewrite Hd, Hu, Hl in Hc.
      unfold py_index in Hc.
      replace (Z.of_nat j - 1 <? Z.of_nat (length ml))%Z with false in Hc
        by (symmetry; apply Z.ltb_ge; lia).
      replace (Z.of_nat j - 1 <? 0)%Z with false in Hc
        by (symmetry; apply Z.ltb_ge; lia).
      rewrite !andb_false_r in Hc. discriminate.
    + apply IH; lia.
  - unfold scan_char in Hc.
    destruct (float_of_char c); [discriminate|].
    destruct (isupper c); [discriminate|].
    destruct (islower c); [|discriminate].
    unfold py_index in Hc.
    replace (Z.of_nat j - 1 <? Z.of_nat (length ml))%Z with false in Hc
      by (symmetry; apply Z.ltb_ge; lia).
    replace (Z.of_nat j - 1 <? 0)%Z with false in Hc
      by (symmetry; apply Z.ltb_ge; lia).
    rewrite !andb_false_r in Hc. simpl in Hc. congruence.
Qed.

(** Two lowercase letters ahead, and no more entries than the position. *)
Lemma scan_from_two_lower (s : string) (j : nat) (ml : list pyval) :
  length ml <= j -> 2 <= count_lower s ->
  exists e, scan_from s j ml = Raise e /\ (e = IndexError \/ e = TypeError).
Proof.
  revert j ml; induction s as [|c s IH]; intros j ml Hlen Hs; simpl in *;
    [lia|].
  destruct (scan_char ml j c) as [ml'|e] eqn:Hc; simpl.
  - destruct (scan_char_length _ _ _ _ Hc) as [Hle Hlow].
    destruct (islower c) eqn:Hl.
    + exists IndexError. split; [|by left].
      apply scan_from_behind; [rewrite Hlow by done; lia | lia].
    + apply IH; lia.
  - exists e. split; [done|]. by eapply scan_char_error.
Qed.

(** X2: a formula with two or more lowercase letters is never weighed:
    [get_weights] raises IndexError or TypeError on it, whatever the
    element table holds.  A lowercase letter adds no entry to
    [molecule_list], so at the second one the index [j-1] is past its
    end, when the first one has not failed already.  NaCl and MgSiO3 are
    of this kind. *)
Theorem get_weights_two_lowercase
    (ele : string -> option float) (s : string) :
  2 <= count_lower s ->
  exists e, (e = IndexError \/ e = TypeError) /\
    get_weights ele (MStr s) = Raise e /\
    get_weights ele (MList [s]) = Raise e /\
    weight_lookup ele s = Raise e.
Proof.
  intros Hs.
  destruct (scan_from_two_lower s 0 [] (Nat.le_0_l _) Hs) as (e & He & Hk).
  exists e. split; [done|].
  unfold weight_lookup, get_weights, weight_of, molecule_list_of.
  cbn [foldM]. rewrite He. done.
Qed.

Lemma get_weights_two_lowercase_witness :
  2 <= count_lower "NaCl" /\
  exists e, (e = IndexError \/ e = TypeError) /\
    get_weights sample_elements (MStr "NaCl") = Raise e /\
    get_weights sample_elements (MList ["NaCl"]) = Raise e /\
    weight_lookup sample_elements "NaCl" = Raise e.
Proof.
  split; [simpl; lia|].
  apply (get_weights_two_lowercase sample_elements "NaCl"). simpl. lia.
Defined.

(** ** The weight resolver on formulas of symbols and counts *)

Lemma scan_from_app (s1 s2 : string) (j : nat) (ml : list pyval) :
  scan_from (s1 +:+ s2) j ml
  = ml' ← scan_from s1 j ml; scan_from s2 (j + String.length s1) ml'.
Proof.
  revert j ml; induction s1 as [|c s1 IH]; intros j ml; simpl.
  - by rewrite Nat.add_0_r.
  - destruct (scan_char ml j c) as [ml'|e]; simpl; [|done].
    rewrite IH. by rewrite Nat.add_succ_r.
Qed.

Lemma scan_upper (ml : list pyval) (j : nat) (c : ascii) :
  isupper c = true -> scan_char ml j c = Ok (ml ++ [PStr (String c "")]).
Proof.
  intros Hc. destruct (upper_not_digit c Hc) as [Hd _].
  unfold scan_char. by rewrite Hd, Hc.
Qed.

Lemma scan_digit (ml : list pyval) (j : nat) (d : ascii) :
  is_ok (float_of_char d) = true ->
  scan_char ml j d = Ok (ml ++ [PFloat (try_default (float_of_char d) 1%float)]).
Proof.
  unfold scan_char. by destruct (float_of_char d).
Qed.

Lemma scan_lower_after (ml : list pyval) (c d : ascii) :
  islower d = true ->
  scan_char (ml ++ [PStr (String c "")]) (S (length ml)) d
  = Ok (ml ++ [PStr (String c (String d ""))]).
Proof.
  intros Hd. destruct (lower_not_digit d Hd) as [Hf Hu].
  unfold scan_char. rewrite Hf, Hu, Hd. unfold py_index.
  rewrite length_app. simpl.
  replace (Z.of_nat (S (length ml)) - 1)%Z with (Z.of_nat (length ml)) by lia.
  replace (0 <=? Z.of_nat (length ml))%Z with true
    by (symmetry; apply Z.leb_le; lia).
  replace (Z.of_nat (length ml) <? Z.of_nat (length ml + 1))%Z with true
    by (symmetry; apply Z.ltb_lt; lia).
  simpl. rewrite Nat2Z.id.
  rewrite lookup_app_r by lia. rewrite Nat.sub_diag. simpl.
  rewrite insert_app_r_alt by lia. rewrite Nat.sub_diag. done.
Qed.

(** The scan of one token adds its entries. *)
Lemma scan_token (tk : token) (j : nat) (ml : list pyval) :
  token_ok tk = true ->
  two_letters tk = false \/ length ml = j ->
  scan_from (render_token tk) j ml = Ok (ml ++ entry tk).
Proof.
  destruct tk as [sym cnt]. unfold token_ok, two_letters, render_token, entry.
  simpl. intros Hok Hj. apply andb_true_iff in Hok as [Hsym Hcnt].
  destruct sym as [|c [|d [|? ?]]]; try discriminate.
  - simpl. rewrite scan_upper by done. simpl.
    destruct cnt as [dg|]; simpl; [|done].
    rewrite scan_digit by done. simpl. by rewrite <- app_assoc.
  - destruct Hj as [|<-]; [discriminate|].
    apply andb_true_iff in Hsym as [Hc Hd]. simpl.
    rewrite scan_upper by done. simpl.
    rewrite scan_lower_after by done. simpl.
    destruct cnt as [dg|]; simpl; [|done].
    rewrite scan_digit by done. simpl. by rewrite <- app_assoc.
Qed.

Lemma entry_length (tk : token) :
  token_ok tk = true -> two_letters tk = false ->
  length (entry tk) = String.length (render_token tk).
Proof.
  destruct tk as [sym cnt]. unfold token_ok, two_letters, render_token, entry.
  simpl. intros Hok H2. apply andb_true_iff in Hok as [Hsym _].
  destruct sym as [|c [|d [|? ?]]]; try discriminate.
  by destruct cnt.
Qed.

(** The scan of a well-formed formula gives the entries of its tokens. *)
Lemma scan_render (toks : list token) (j : nat) (ml : list pyval) :
  forallb token_ok toks = true ->
  length (List.filter two_letters toks) = 0 \/
  (length (List.filter two_letters toks) <= 1 /\ length ml = j) ->
  scan_from (render toks) j ml = Ok (ml ++ flat_map entry toks).
Proof.
  revert j ml; induction toks as [|tk toks IH]; intros j ml Hok Hj; simpl.
  - by rewrite app_nil_r.
  - simpl in Hok. apply andb_true_iff in Hok as [Htk Hok].
    simpl in Hj. rewrite scan_from_app.
    destruct (two_letters tk) eqn:H2; simpl in Hj.
    + destruct Hj as [|[Hle Hlen]]; [lia|].
      rewrite scan_token by auto. simpl.
      rewrite IH; [by rewrite <- app_assoc | done | left; lia].
    + rewrite scan_token by auto. simpl.
      rewrite IH; [by rewrite <- app_assoc | done |].
      destruct Hj as [|[Hle Hlen]]; [by left|]. right. split; [done|].
      rewrite length_app, entry_length by done. lia.
Qed.

(** [float] fails on an element symbol. *)
Lemma symbol_not_float (tk : token) :
  token_ok tk = true -> float_of_symbol (tok_sym tk) = Raise ValueError.
Proof.
  destruct tk as [sym cnt]. unfold token_ok. simpl. intros Hok.
  apply andb_true_iff in Hok as [Hsym _].
  destruct sym as [|c [|d [|? ?]]]; try discriminate; unfold float_of_symbol;
    simpl.
  - by destruct (Ascii.eqb c "I"), (Ascii.eqb c "N").
  - by destruct (Ascii.eqb c "I"), (Ascii.eqb c "N"),
      (Ascii.eqb d "n"), (Ascii.eqb d "a").
Qed.

(** The second loop over the entries of the tokens. *)
Lemma weigh_entries ele (toks : list token) (pre : list pyval) (acc : float) :
  forallb token_ok toks = true ->
  foldM (weigh_at ele (pre ++ flat_map entry toks)) acc
        (seq (length pre) (length (flat_map entry toks)))
  = foldM (fun tot tk =>
             m ← ele_mass ele (tok_sym tk); Ok (tot + m * count_of tk)%float)
          acc toks.
Proof.
  revert pre acc; induction toks as [|tk toks IH]; intros pre acc Hok;
    [reflexivity|].
  simpl in Hok. apply andb_true_iff in Hok as [Htk Hok].
  cbn [flat_map]. unfold entry at 1 3. rewrite <- app_comm_cons.
  rewrite length_cons. cbn [seq foldM].
  assert (Hnum : try_default
            (v ← py_get (pre ++ PStr (tok_sym tk) ::
                           match tok_count tk with
                           | Some d => [PFloat (try_default (float_of_char d) 1%float)]
                           | None => []
                           end ++ flat_map entry toks)
                         (Z.of_nat (length pre) + 1); py_float v) 1%float
          = count_of tk).
  { replace (Z.of_nat (length pre) + 1)%Z with (Z.of_nat (S (length pre)))
      by lia.
    rewrite py_get_nat. unfold nth_r.
    rewrite lookup_app_r by lia.
    replace (S (length pre) - length pre) with 1 by lia. simpl.
    unfold count_of. destruct (tok_count tk) as [d|]; simpl; [done|].
    destruct toks as [|tk2 toks]; simpl; [done|].
    simpl in Hok. apply andb_true_iff in Hok as [Htk2 _].
    by rewrite symbol_not_float. }
  set (L := pre ++ _) in *.
  assert (H0 : weigh_at ele L acc (length pre)
               = m ← ele_mass ele (tok_sym tk);
                 Ok (acc + m * count_of tk)%float).
  { unfold weigh_at. rewrite Hnum. subst L.
    rewrite lookup_app_r by lia. rewrite Nat.sub_diag. done. }
  rewrite H0. clear H0 Hnum.
  destruct (ele_mass ele (tok_sym tk)) as [m|e]; simpl; [|done].
  subst L. destruct (tok_count tk) as [d|] eqn:Hd.
  - cbn [app length seq foldM].
    set (L := pre ++ _) in *.
    assert (H1 : weigh_at ele L (acc + m * count_of tk)%float (S (length pre))
                 = Ok (acc + m * count_of tk)%float).
    { unfold weigh_at. subst L. rewrite lookup_app_r by lia.
      replace (S (length pre) - length pre) with 1 by lia. done. }
    rewrite H1. simpl. subst L.
    specialize (IH (pre ++ [PStr (tok_sym tk);
                            PFloat (try_default (float_of_char d) 1%float)])
                   (acc + m * count_of tk)%float Hok).
    rewrite <- app_assoc in IH. simpl in IH.
    rewrite length_app in IH. simpl in IH.
    replace (length pre + 2) with (S (S (length pre))) in IH by lia.
    exact IH.
  - cbn [app].
    specialize (IH (pre ++ [PStr (tok_sym tk)])
                   (acc + m * count_of tk)%float Hok).
    rewrite <- app_assoc in IH. simpl in IH.
    rewrite length_app in IH. simpl in IH.
    replace (length pre + 1) with (S (length pre)) in IH by lia.
    exact IH.
Qed.

(** X3: on a formula written as element symbols of one or two letters,
    each with at most one digit as its count, and with at most one symbol
    of two letters, the weight is the sum, from 0 and from the left, of
    mass times count, the count being 1 where no digit is written; the
    lookup fails where that sum fails, with the KeyError of the first
    symbol that the element table lacks. *)
Theorem get_weights_sums_tokens
    (ele : string -> option float) (toks : list token) :
  formula_ok toks = true ->
  weight_lookup ele (render toks) = formula_mass ele toks.
Proof.
  intros Hok. apply andb_true_iff in Hok as [Hall Hone].
  apply Nat.leb_le in Hone.
  rewrite weight_lookup_of. unfold weight_of, molecule_list_of.
  rewrite scan_render; [|done|right; split; [done|reflexivity]].
  simpl. unfold totmass_of.
  apply (weigh_entries ele toks [] 0%float Hall).
Qed.

Lemma get_weights_sums_tokens_witness :
  render sample_tokens = "TiO2" /\
  weight_lookup sample_elements "TiO2"
  = formula_mass sample_elements sample_tokens /\
  formula_mass sample_elements sample_tokens
  = Ok (0 + 47.867 * 1 + 15.9994 * 2)%float.
Proof.
  split; [reflexivity|]. split; [|vm_compute; reflexivity].
  apply (get_weights_sums_tokens sample_elements sample_tokens).
  reflexivity.
Defined.

(** ** The weight resolver on a list *)

Lemma get_weights_fold_Ok ele (l : list string) (w0 w : gmap string float) :
  foldM (fun weights i => m ← weight_of ele i; Ok (<[i := m]> weights)) w0 l
  = Ok w ->
  forall s,
    (s ∈ l -> exists m, w !! s = Some m /\ weight_of ele s = Ok m) /\
    (s ∉ l -> w !! s = w0 !! s).
Proof.
  revert w0; induction l as [|i l IH]; intros w0 H s; simpl in H.
  - injection H as <-. split; [by intros ?%elem_of_nil|done].
  - bind_inv H as w1 Hw1. bind_inv Hw1 as m Hm. injection Hw1 as <-.
    destruct (IH _ H s) as [Hin Hout]. split.
    + intros Hs. destruct (decide (s ∈ l)) as [Hl|Hl]; [by apply Hin|].
      apply elem_of_cons in Hs as [->|Hs]; [|done].
      exists m. split; [|done]. rewrite Hout by done. by rewrite lookup_insert_eq.
    + intros Hs. apply not_elem_of_cons in Hs as [Hne Hs].
      rewrite Hout by done. by rewrite lookup_insert_ne.
Qed.

Lemma get_weights_fold_Raise ele (l : list string) (w0 : gmap string float)
    (e : pyerr) :
  foldM (fun weights i => m ← weight_of ele i; Ok (<[i := m]> weights)) w0 l
  = Raise e ->
  exists pre s post,
    l = pre ++ s :: post /\
    Forall (fun x => is_ok (weight_of ele x) = true) pre /\
    weight_of ele s = Raise e.
Proof.
  revert w0; induction l as [|i l IH]; intros w0 H; simpl in H; [discriminate|].
  destruct (weight_of ele i) as [m|e'] eqn:Hi; simpl in H.
  - destruct (IH _ H) as (pre & s & post & -> & Hpre & Hs).
    exists (i :: pre), s, post. split; [done|]. split; [|done].
    constructor; [by rewrite Hi | done].
  - injection H as <-. exists [], i, l. split; [done|]. split; [constructor|done].
Qed.

(** X4: [get_weights] weighs each string of a list by itself.  When it
    returns, the keys of the dictionary are the strings of the list, each
    with the weight that the lookup of this string alone gives; when it
    raises, the error is that of the first string of the list that cannot
    be weighed alone; and a str is treated as the list of this one
    string. *)
Theorem get_weights_per_string (ele : string -> option float)
    (l : list string) :
  (forall w, get_weights ele (MList l) = Ok w ->
     forall s,
       (s ∈ l -> exists m, w !! s = Some m /\ weight_lookup ele s = Ok m) /\
       (s ∉ l -> w !! s = None)) /\
  (forall e, get_weights ele (MList l) = Raise e ->
     exists pre s post,
       l = pre ++ s :: post /\
       Forall (fun x => is_ok (weight_lookup ele x) = true) pre /\
       weight_lookup ele s = Raise e) /\
  (forall s, get_weights ele (MStr s) = get_weights ele (MList [s])).
Proof.
  split_and!.
  - intros w H s. destruct (get_weights_fold_Ok ele l ∅ w H s) as [Hin Hout].
    split.
    + intros Hs. destruct (Hin Hs) as (m & ? & ?). exists m.
      by rewrite weight_lookup_of.
    + intros Hs. by rewrite Hout.
  - intros e H.
    destruct (get_weights_fold_Raise ele l ∅ e H)
      as (pre & s & post & -> & Hpre & Hs).
    exists pre, s, post. split; [done|]. split.
    + eapply Forall_impl; [exact Hpre|]. intros x Hx.
      by rewrite weight_lookup_of.
    + by rewrite weight_lookup_of.
  - reflexivity.
Qed.

(** ** The continuum selector called again *)

Lemma py_in_elem_of (k : string) (l : list string) :
  py_in k l = true <-> k ∈ l.
Proof.
  unfold py_in. rewrite existsb_exists. split.
  - intros (x & Hx & Hk). apply String.eqb_eq in Hk as ->.
    by apply list_elem_of_In.
  - intros Hk. exists k. split; [by apply list_elem_of_In|apply String.eqb_refl].
Qed.

Lemma py_in_false (k : string) (l : list string) :
  py_in k l = false <-> k ∉ l.
Proof.
  rewrite <- py_in_elem_of. by destruct (py_in k l).
Qed.

Lemma set_molecules_same (st : atmsetup) (mols : list string) :
  molecules st = Some mols -> set_molecules mols st = st.
Proof. destruct st. simpl. by intros ->. Qed.

Lemma filter_all {A} (f : A -> bool) (l : list A) :
  Forall (fun x => f x = true) l -> List.filter f l = l.
Proof.
  induction 1 as [|x l Hx _ IH]; simpl; [done|]. by rewrite Hx, IH.
Qed.

(** What [get_needed_continuum] leaves holds none of the three ions. *)
Lemma rest_has_none (mols : list string) (k : string) :
  k ∈ line_excluded ->
  py_in k (List.filter (fun x => negb (py_in x line_excluded)) mols) = false.
Proof.
  intros Hk. apply py_in_false. intros Hin.
  pose proof (filter_excluded mols) as Hf.
  rewrite Forall_forall in Hf. by apply (Hf k).
Qed.

(** X5: [get_needed_continuum] is not idempotent.  The first call
    takes H, H2-, H2, H-, He, N2 and H+ out of [self.molecules], so a
    second call on the state it returns finds none of the names its rules
    ask for: it returns as well, but leaves an empty list of continuum
    pairs (the pairs of the first call are lost), with the molecules, the
    level and layer dictionaries and the warnings as the first call left
    them. *)
Theorem get_needed_continuum_twice (st st1 : atmsetup) :
  get_needed_continuum st = Ok st1 ->
  exists st2,
    get_needed_continuum st1 = Ok st2 /\
    continuum_molecules st2 = Some [] /\
    molecules st2 = molecules st1 /\
    level st2 = level st1 /\ layer st2 = layer st1 /\
    warnings st2 = warnings st1.
Proof.
  intros H.
  assert (Hm : exists mols, molecules st = Some mols).
  { unfold get_needed_continuum in H. destruct (molecules st); [eauto|].
    discriminate. }
  destruct Hm as [mols Hm].
  rewrite <- (set_molecules_same st mols Hm) in H.
  rewrite get_needed_continuum_run in H.
  pose proof (rest_has_none mols) as Hnone.
  pose proof (filter_excluded mols) as Hf.
  remember (List.filter (fun x => negb (py_in x line_excluded)) mols) as rest
    eqn:Hrest.
  clear Hrest. injection H as <-.
  rewrite get_needed_continuum_run. eexists. split; [reflexivity|].
  split_and!; try reflexivity.
  - cbn [continuum_molecules set_molecules set_continuum].
    unfold table_pairs, continuum_table.
    rewrite !(Hnone "H2"), !(Hnone "H-"), !(Hnone "H")
      by (unfold line_excluded; repeat (apply elem_of_cons; (by left) || right)).
    simpl. reflexivity.
  - cbn [molecules set_molecules]. f_equal. apply filter_all.
    eapply Forall_impl; [exact Hf|]. intros x Hx. cbv beta.
    apply negb_true_iff. by apply py_in_false.
Qed.

Lemma get_needed_continuum_twice_witness :
  exists st1 st2,
    get_needed_continuum sample_state_1d = Ok st1 /\
    continuum_molecules st1 = Some [("H2", "H2"); ("H2", "H2-")] /\
    get_needed_continuum st1 = Ok st2 /\
    continuum_molecules st2 = Some [].
Proof.
  set (st1 := state_of (get_needed_continuum sample_state_1d)).
  assert (Hrun : get_needed_continuum sample_state_1d = Ok st1)
    by (vm_compute; reflexivity).
  destruct (get_needed_continuum_twice sample_state_1d st1 Hrun)
    as (st2 & Hrun2 & Hc & _).
  exists st1, st2. split; [exact Hrun|].
  split; [vm_compute; reflexivity|]. split; [exact Hrun2 | exact Hc].
Defined.

(** ** The column disaggregator on arrays without angles *)

(** [a[:, g, t]] on an array of one dimension. *)
Lemma disect_low_rank (g t : Z) (st : atmsetup) (a : ndarray) :
  level st !! "temperature" = Some a -> ndim a <= 2 ->
  disect g t st = Raise IndexError.
Proof.
  intros Ha Hn. unfold disect, disect_level, item. rewrite Ha. simpl.
  destruct a; simpl in Hn; try lia; reflexivity.
Qed.

(** X6: [disect] can run once only: on the state it returns, every
    further call, at any facet, raises IndexError, the level temperature
    being of one dimension by then. *)
Theorem disect_only_once (g t g' t' : Z) (st st' : atmsetup) :
  disect g t st = Ok st' -> disect g' t' st' = Raise IndexError.
Proof.
  intros H. destruct (disect_Ok g t st st' H) as (Hlev & _).
  destruct (Hlev "temperature") as (a & a' & _ & Hs & Ha');
    [by left|].
  apply (disect_low_rank g' t' st' a' Ha').
  apply nd_slice_ndim in Hs. destruct a; simpl in Hs; lia.
Qed.

Lemma disect_only_once_witness :
  disect 0 1 sample_state_full = Ok sample_state_facet /\
  disect 0 0 sample_state_facet = Raise IndexError.
Proof.
  assert (H : disect 0 1 sample_state_full = Ok sample_state_facet)
    by (vm_compute; reflexivity).
  split; [exact H|].
  exact (disect_only_once 0 1 0 0 sample_state_full sample_state_facet H).
Defined.

(** X7: [disect] refuses a 1-D atmosphere: on the state [get_profile]
    returns it raises IndexError at every facet. *)
Theorem disect_refuses_1d ele read_csv cfg (g t : Z) (st st' : atmsetup) :
  get_profile ele read_csv cfg st = Ok st' ->
  disect g t st' = Raise IndexError.
Proof.
  intros H.
  destruct (get_profile_Ok _ _ _ _ _ H)
    as (n & _ & _ & _ & (lev & lay & Hlev & _) & _).
  apply (disect_low_rank g t st' (A1 lev) Hlev). simpl. lia.
Qed.

Lemma disect_refuses_1d_witness :
  disect 0 0 sample_state_1d = Raise IndexError.
Proof.
  apply (disect_refuses_1d sample_elements no_csv (cfg_1d sample_frame) 0 0
           init_atmsetup sample_state_1d).
  vm_compute. reflexivity.
Defined.

(** ** The run of the 1-D loader *)

Section Run1d.
Variable ele : string -> option float.
Variable read_csv : string -> result frame.
Variable cfg : config.

(** The run of [get_profile] when it returns: the table, the molecule
    loop, the matrix of the mixing ratios, the two columns. *)
Lemma get_profile_run (st st' : atmsetup) :
  get_profile ele read_csv cfg st = Ok st' ->
  exists read w st1 m T P,
    profile_type cfg = "user" /\
    profile_table read_csv cfg = Some read /\
    match whichones cfg with
    | Some l =>
        if decide (1 <= length l)
        then foldM (whichones_step ele read)
                   ([], set_molecules l (set_dimension "1d" st)) l
        else Ok ([], set_molecules l (set_dimension "1d" st))
    | None =>
        foldM (column_step ele read)
              ([], set_molecules [] (set_dimension "1d" st)) (frame_keys read)
    end = Ok (w, st1) /\
    frame_matrix read (frame_keys w) = Ok m /\
    frame_col read "temperature" = Ok T /\
    frame_col read "pressure" = Ok P /\
    st' = loaded_1d read w m T P st1.
Proof.
  unfold get_profile. intros H.
  bind_inv H as rd Hrd. destruct rd as [is_frame read].
  bind_inv H as ws Hws. destruct ws as [w st1].
  bind_inv H as m Hm. bind_inv H as st2 Hst2. injection H as <-.
  unfold load_pt in Hst2.
  destruct (py_in "temperature" (frame_keys read)
            && py_in "pressure" (frame_keys read));
    [|destruct (_ && _); discriminate].
  bind_inv Hst2 as T HT. bind_inv Hst2 as P HP. injection Hst2 as <-.
  destruct is_frame; [|discriminate].
  exists read, w, st1, m, T, P.
  destruct (String.eqb_spec (profile_type cfg) "user") as [Hu|]; [|discriminate].
  unfold profile_table.
  destruct (profile_filepath cfg) as [path|].
  - bind_inv Hrd as f Hf. injection Hrd as <-. rewrite Hf.
    split_and!; done.
  - destruct (profile_profile cfg) as [f|f|]; try discriminate.
    injection Hrd as <-. split_and!; done.
Qed.

End Run1d.

(** X8: a profile given as a dict never loads.  Without a file path and
    with a dict under [profile], [get_profile] passes the type test, but
    it does not return: the mixing ratios are read with a list as the key
    of the dict. *)
Theorem get_profile_refuses_dict ele read_csv cfg (d : frame)
    (st st' : atmsetup) :
  profile_filepath cfg = None -> profile_profile cfg = PDict d ->
  get_profile ele read_csv cfg st <> Ok st'.
Proof.
  intros Hp Hd H.
  destruct (get_profile_run _ _ _ _ _ H) as (read & ? & ? & ? & ? & ? & _ & Ht & _).
  unfold profile_table in Ht. rewrite Hp, Hd in Ht. discriminate.
Qed.

Lemma get_profile_refuses_dict_witness :
  profile_filepath cfg_dict = None /\
  profile_profile cfg_dict = PDict sample_frame /\
  get_profile sample_elements no_csv cfg_dict init_atmsetup
  <> Ok sample_state_1d.
Proof.
  split; [reflexivity|]. split; [reflexivity|].
  apply (get_profile_refuses_dict sample_elements no_csv cfg_dict sample_frame);
    reflexivity.
Defined.

(** ** The molecule loops of the 1-D loader *)

Lemma assoc_set_keys {V} (k : string) (v : V) (l : list (string * V)) :
  frame_keys (assoc_set k v l)
  = if py_in k (frame_keys l) then frame_keys l else frame_keys l ++ [k].
Proof.
  unfold frame_keys, py_in. induction l as [|[k' v'] l IH]; [done|].
  cbn [assoc_set fmap list_fmap fst existsb].
  destruct (String.eqb_spec k k') as [->|Hne]; cbn [fmap list_fmap fst orb];
    [done|].
  rewrite IH. by destruct (existsb _ _).
Qed.

Lemma assoc_set_Forall {V} (P : string * V -> Prop) (k : string) (v : V)
    (l : list (string * V)) :
  P (k, v) -> Forall P l -> Forall P (assoc_set k v l).
Proof.
  intros Hk. induction 1 as [|[k' v'] l Hx Hl IH]; simpl.
  - by constructor.
  - destruct (String.eqb k k'); constructor; done.
Qed.

Section Scan.
Variable ele : string -> option float.
Variable read : frame.

(** One turn of the loop over [read.keys()]. *)
Lemma column_step_run (w : list (string * float)) (st : atmsetup)
    (mols : list string) (i : string) (w' : list (string * float))
    (st' : atmsetup) :
  molecules st = Some mols ->
  column_step ele read (w, st) i = Ok (w', st') ->
  molecules st' = Some (mols ++ (if is_molecule_column ele i then [i] else [])) /\
  warnings st' = warnings st ++
                 (if is_ignored_column ele i then [ignored_msg i] else []) /\
  (if is_molecule_column ele i
   then exists m, weight_lookup ele i = Ok m /\ w' = assoc_set i m w
   else w' = w) /\
  dimension st' = dimension st /\ gravity st' = gravity st.
Proof.
  intros Hm. unfold column_step, is_molecule_column, is_ignored_column,
    scanned, resolves.
  destruct (py_in i ["pressure"; "temperature"]); simpl.
  { intros [= <- <-]. rewrite !app_nil_r. done. }
  rewrite Hm. destruct (weight_lookup ele i) as [m|e]; simpl.
  - intros [= <- <-]. simpl. rewrite app_nil_r. split_and!; eauto.
  - destruct (String.eqb i "e-"); simpl.
    + intros H. bind_inv H as st1 Hst1. injection H as <- <-.
      unfold load_electrons in Hst1. bind_inv Hst1 as e0 He0.
      injection Hst1 as <-. simpl. rewrite !app_nil_r. done.
    + intros [= <- <-]. simpl. rewrite app_nil_r. done.
Qed.

(** The loop over [read.keys()]. *)
Lemma column_loop_run (keys : list string) (w : list (string * float))
    (st : atmsetup) (mols : list string) (w' : list (string * float))
    (st' : atmsetup) :
  molecules st = Some mols ->
  Forall (fun km => weight_lookup ele km.1 = Ok km.2) w ->
  foldM (column_step ele read) (w, st) keys = Ok (w', st') ->
  molecules st' = Some (mols ++ List.filter (is_molecule_column ele) keys) /\
  warnings st' = warnings st ++
                 (ignored_msg <$> List.filter (is_ignored_column ele) keys) /\
  Forall (fun km => weight_lookup ele km.1 = Ok km.2) w' /\
  (forall k, k ∈ frame_keys w' <->
     k ∈ frame_keys w \/ k ∈ List.filter (is_molecule_column ele) keys) /\
  (NoDup (frame_keys w ++ keys) ->
     frame_keys w' = frame_keys w ++ List.filter (is_molecule_column ele) keys) /\
  dimension st' = dimension st /\ gravity st' = gravity st.
Proof.
  revert w st mols; induction keys as [|i keys IH]; intros w st mols Hm Hw H.
  - simpl in H. injection H as <- <-. simpl. rewrite !app_nil_r.
    split_and!; try done. intros k. split; [by left|].
    intros [?|Hk]; [done|]. by apply elem_of_nil in Hk.
  - simpl in H. bind_inv H as acc Hacc. destruct acc as [w1 st1].
    destruct (column_step_run _ _ _ _ _ _ Hm Hacc)
      as (Hm1 & Hwarn1 & Hw1 & Hd1 & Hg1).
    assert (Hw1' : Forall (fun km => weight_lookup ele km.1 = Ok km.2) w1).
    { destruct (is_molecule_column ele i).
      - destruct Hw1 as (m & Hmi & ->). by apply assoc_set_Forall.
      - by subst w1. }
    destruct (IH _ _ _ Hm1 Hw1' H) as (Hm2 & Hwarn2 & Hw2 & Hk2 & Hnd2 & Hd2 & Hg2).
    simpl. split_and!.
    + rewrite Hm2. f_equal. rewrite <- app_assoc. f_equal.
      by destruct (is_molecule_column ele i).
    + rewrite Hwarn2, Hwarn1, <- app_assoc. f_equal.
      by destruct (is_ignored_column ele i).
    + done.
    + intros k. rewrite Hk2. destruct (is_molecule_column ele i).
      * destruct Hw1 as (m & Hmi & ->). rewrite assoc_set_keys.
        rewrite elem_of_cons.
        destruct (py_in i (frame_keys w)) eqn:Hin.
        -- apply py_in_elem_of in Hin. split; [tauto|].
           intros [?|[->|?]]; tauto.
        -- rewrite elem_of_app, list_elem_of_singleton. tauto.
      * subst w1. done.
    + intros Hnd. rewrite Hnd2.
      * destruct (is_molecule_column ele i).
        -- destruct Hw1 as (m & Hmi & ->). rewrite assoc_set_keys.
           replace (py_in i (frame_keys w)) with false.
           ++ by rewrite <- app_assoc.
           ++ symmetry. apply py_in_false. intros Hin.
              apply NoDup_app in Hnd as (_ & Hdis & _).
              apply (Hdis i Hin). by left.
        -- by subst w1.
      * destruct (is_molecule_column ele i).
        -- destruct Hw1 as (m & Hmi & ->). rewrite assoc_set_keys.
           destruct (py_in i (frame_keys w)) eqn:Hin.
           ++ apply py_in_elem_of in Hin.
              apply NoDup_app in Hnd as (_ & Hdis & _).
              exfalso. apply (Hdis i Hin). by left.
           ++ rewrite <- app_assoc. exact Hnd.
        -- subst w1. apply NoDup_app in Hnd as (Hn1 & Hdis & Hn2).
           apply NoDup_app. split; [done|]. split.
           ++ intros x Hx Hk. apply (Hdis x Hx). by right.
           ++ by apply NoDup_cons in Hn2 as [_ ?].
    + congruence.
    + congruence.
Qed.

End Scan.

(** The name e- is not weighed. *)
Lemma electron_name_fails ele : weight_lookup ele "e-" = Raise IndexError.
Proof.
  rewrite weight_lookup_of. unfold weight_of.
  by rewrite (scan_lower_first "e"%char "-").
Qed.

Lemma loaded_1d_level (k : string) read w m T P st1 :
  k <> "mixingratios" -> k <> "temperature" -> k <> "pressure" ->
  level (loaded_1d read w m T P st1) !! k = level st1 !! k.
Proof.
  intros. unfold loaded_1d. simpl. by rewrite !lookup_insert_ne by done.
Qed.

Lemma loaded_1d_layer (k : string) read w m T P st1 :
  k <> "mixingratios" -> k <> "temperature" -> k <> "pressure" ->
  layer (loaded_1d read w m T P st1) !! k = layer st1 !! k.
Proof.
  intros. unfold loaded_1d. simpl. by rewrite !lookup_insert_ne by done.
Qed.

Section Which.
Variable ele : string -> option float.
Variable read : frame.

(** One turn of the loop over [whichones]. *)
Lemma whichones_step_run (w : list (string * float)) (st : atmsetup)
    (i : string) (w' : list (string * float)) (st' : atmsetup) :
  whichones_step ele read (w, st) i = Ok (w', st') ->
  molecules st' = molecules st /\ warnings st' = warnings st /\
  dimension st' = dimension st /\ gravity st' = gravity st /\
  (if not_electron i
   then (exists m, weight_lookup ele i = Ok m /\ w' = assoc_set i m w) /\
        st' = st
   else w' = w /\
        exists e, frame_col read "e-" = Ok e /\
          st' = set_layer "electrons" (A1 (layer_mean e))
                  (set_level "electrons" (A1 e) st)).
Proof.
  unfold whichones_step, not_electron.
  destruct (weight_lookup ele i) as [m|e] eqn:Hi.
  - intros [= <- <-]. split_and!; try done.
    destruct (String.eqb_spec i "e-") as [->|]; simpl.
    + rewrite electron_name_fails in Hi. discriminate.
    + eauto.
  - destruct (String.eqb i "e-"); simpl; [|discriminate].
    intros H. bind_inv H as st1 Hst1. injection H as <- <-.
    unfold load_electrons in Hst1. bind_inv Hst1 as e0 He0.
    injection Hst1 as <-. split_and!; try done. eauto.
Qed.

(** The loop over [whichones]. *)
Lemma whichones_loop_run (l : list string) (w : list (string * float))
    (st : atmsetup) (w' : list (string * float)) (st' : atmsetup) :
  Forall (fun km => weight_lookup ele km.1 = Ok km.2) w ->
  foldM (whichones_step ele read) (w, st) l = Ok (w', st') ->
  molecules st' = molecules st /\ warnings st' = warnings st /\
  dimension st' = dimension st /\ gravity st' = gravity st /\
  Forall (fun km => weight_lookup ele km.1 = Ok km.2) w' /\
  (forall k, k ∈ l -> k <> "e-" -> resolves ele k = true) /\
  (forall k, k ∈ frame_keys w' <->
     k ∈ frame_keys w \/ (k ∈ l /\ k <> "e-")) /\
  (NoDup (frame_keys w ++ l) ->
     frame_keys w' = frame_keys w ++ List.filter not_electron l) /\
  ("e-" ∈ l ->
     exists e, frame_col read "e-" = Ok e /\
       level st' !! "electrons" = Some (A1 e) /\
       layer st' !! "electrons" = Some (A1 (layer_mean e))) /\
  ("e-" ∉ l -> level st' = level st /\ layer st' = layer st) /\
  (forall k, k <> "electrons" ->
     level st' !! k = level st !! k /\ layer st' !! k = layer st !! k).
Proof.
  revert w st; induction l as [|i l IH]; intros w st Hw H.
  - simpl in H. injection H as <- <-. simpl. rewrite app_nil_r.
    split_and!; try done.
    + by intros k ?%elem_of_nil.
    + intros k. split; [by left|]. intros [?|[Hk _]]; [done|].
      by apply elem_of_nil in Hk.
    + by intros ?%elem_of_nil.
  - simpl in H. bind_inv H as acc Hacc. destruct acc as [w1 st1].
    destruct (whichones_step_run _ _ _ _ _ Hacc)
      as (Hm1 & Hwarn1 & Hd1 & Hg1 & Hstep).
    assert (Hw1 : Forall (fun km => weight_lookup ele km.1 = Ok km.2) w1).
    { destruct (not_electron i).
      - destruct Hstep as [(m & Hmi & ->) _]. by apply assoc_set_Forall.
      - by destruct Hstep as [-> _]. }
    destruct (IH _ _ Hw1 H)
      as (Hm2 & Hwarn2 & Hd2 & Hg2 & Hw2 & Hres2 & Hk2 & Hnd2 & He2 & Hne2
          & Hfr2).
    assert (Hi : not_electron i = true <-> i <> "e-").
    { unfold not_electron. destruct (String.eqb_spec i "e-"); simpl;
        split; congruence. }
    split_and!; try congruence.
    + intros k Hk Hne. apply elem_of_cons in Hk as [->|Hk]; [|by apply Hres2].
      apply Hi in Hne. rewrite Hne in Hstep.
      destruct Hstep as [(m & Hmi & _) _]. unfold resolves. by rewrite Hmi.
    + intros k. rewrite Hk2, elem_of_cons.
      destruct (not_electron i) eqn:Hnot.
      * destruct Hstep as [(m & Hmi & ->) _]. rewrite assoc_set_keys.
        assert (Hie : i <> "e-") by (by apply Hi).
        destruct (py_in i (frame_keys w)) eqn:Hin.
        -- apply py_in_elem_of in Hin. split; [tauto|].
           intros [?|[[->|?] ?]]; tauto.
        -- rewrite elem_of_app, list_elem_of_singleton. split.
           ++ intros [[?| ->]|[? ?]]; tauto.
           ++ intros [?|[[->|?] ?]]; tauto.
      * destruct Hstep as [-> _].
        assert (i = "e-") as ->.
        { destruct (decide (i = "e-")) as [|Hie]; [done|].
          apply Hi in Hie. discriminate. }
        split; [tauto|]. intros [?|[[->|?] ?]]; tauto.
    + intros Hnd. simpl. destruct (not_electron i) eqn:Hnot.
      * destruct Hstep as [(m & Hmi & ->) _].
        assert (Hin : py_in i (frame_keys w) = false).
        { apply py_in_false. intros Hin.
          apply NoDup_app in Hnd as (_ & Hdis & _).
          apply (Hdis i Hin). by left. }
        rewrite Hnd2; rewrite assoc_set_keys, Hin, <- app_assoc; done.
      * destruct Hstep as [-> _]. apply Hnd2.
        apply NoDup_app in Hnd as (Hn1 & Hdis & Hn2).
        apply NoDup_app. split; [done|]. split.
        -- intros x Hx Hk. apply (Hdis x Hx). by right.
        -- by apply NoDup_cons in Hn2 as [_ ?].
    + intros Hin. destruct (decide ("e-" ∈ l)) as [Hl|Hl]; [by apply He2|].
      apply elem_of_cons in Hin as [<-|?]; [|done].
      replace (not_electron "e-") with false in Hstep by reflexivity.
      destruct Hstep as [_ (e & He & ->)]. exists e. split; [done|].
      destruct (Hne2 Hl) as [-> ->]. simpl.
      by rewrite !lookup_insert_eq.
    + intros Hin. apply not_elem_of_cons in Hin as [Hne Hin].
      destruct (Hne2 Hin) as [-> ->].
      assert (Hnot : not_electron i = true) by (apply Hi; congruence).
      rewrite Hnot in Hstep. by destruct Hstep as [_ ->].
    + intros k Hk. destruct (Hfr2 k Hk) as [-> ->].
      destruct (not_electron i).
      * by destruct Hstep as [_ ->].
      * destruct Hstep as [_ (e & _ & ->)]. simpl.
        by rewrite !lookup_insert_ne by done.
Qed.

End Which.



(** X10: with a list [whichones], [get_profile] takes the molecules from
    the list, not from the table.  When it returns, [self.molecules] is
    the list as given (with e- if it is there), no warning is added,
    every name of the list but e- is one that [get_weights] weighs, and
    the keys of the weights table are the names of the list but e- (in
    the order of the list when no name is repeated).  The electron
    arrays are the e- column and its layer means when e- is in the list,
    and are left as they were when it is not, even if the table has the
    column. *)
Theorem get_profile_whichones ele read_csv cfg (st st' : atmsetup)
    (read : frame) (l : list string) :
  whichones cfg = Some l ->
  profile_table read_csv cfg = Some read ->
  get_profile ele read_csv cfg st = Ok st' ->
  molecules st' = Some l /\
  warnings st' = warnings st /\
  (forall k, k ∈ l -> k <> "e-" -> resolves ele k = true) /\
  (exists w,
     weights st' = Some w /\
     Forall (fun km => weight_lookup ele km.1 = Ok km.2) w /\
     (forall k, k ∈ frame_keys w <-> k ∈ l /\ k <> "e-") /\
     (NoDup l -> frame_keys w = List.filter not_electron l)) /\
  ("e-" ∈ l ->
     exists e, frame_col read "e-" = Ok e /\
       level st' !! "electrons" = Some (A1 e) /\
       layer st' !! "electrons" = Some (A1 (layer_mean e))) /\
  ("e-" ∉ l ->
     level st' !! "electrons" = level st !! "electrons" /\
     layer st' !! "electrons" = layer st !! "electrons").
Proof.
  intros Hwhich Hread H.
  destruct (get_profile_run _ _ _ _ _ H)
    as (read' & w & st1 & m & T & P & _ & Hread' & Hloop & _ & _ & _ & ->).
  rewrite Hread in Hread'. injection Hread' as <-.
  rewrite Hwhich in Hloop.
  assert (Hrun : foldM (whichones_step ele read)
                   ([], set_molecules l (set_dimension "1d" st)) l
                 = Ok (w, st1)).
  { destruct (decide (1 <= length l)) as [|Hl]; [done|].
    destruct l; [done|]. simpl in Hl. lia. }
  destruct (whichones_loop_run ele read l [] _ w st1 (List.Forall_nil _) Hrun)
    as (Hm & Hwarn & _ & _ & Hw & Hres & Hk & Hnd & He & Hne & _).
  split_and!; try done.
  - exists w. split_and!; try done.
    intros k. rewrite Hk. split; [|by right].
    intros [Hk0|?]; [|done]. by apply elem_of_nil in Hk0.
  - intros Hin. destruct (He Hin) as (e & Hcol & Hlev & Hlay).
    exists e. split; [done|].
    by rewrite loaded_1d_level, loaded_1d_layer.
  - intros Hin. destruct (Hne Hin) as [Hlev Hlay].
    rewrite loaded_1d_level, loaded_1d_layer by done.
    by rewrite Hlev, Hlay.
Qed.

Lemma get_profile_whichones_witness :
  exists st',
    get_profile sample_elements no_csv (cfg_which ["H2O"; "e-"]) init_atmsetup
    = Ok st' /\
    molecules st' = Some ["H2O"; "e-"] /\
    exists w, weights st' = Some w /\ frame_keys w = ["H2O"].
Proof.
  set (st' := state_of (get_profile sample_elements no_csv
                          (cfg_which ["H2O"; "e-"]) init_atmsetup)).
  assert (Hrun : get_profile sample_elements no_csv (cfg_which ["H2O"; "e-"])
                   init_atmsetup = Ok st') by (vm_compute; reflexivity).
  destruct (get_profile_whichones sample_elements no_csv
              (cfg_which ["H2O"; "e-"]) init_atmsetup st' sample_frame
              ["H2O"; "e-"] eq_refl eq_refl Hrun)
    as (Hm & _ & _ & (w & Hw & _ & _ & Hk) & _).
  exists st'. split; [exact Hrun|]. split; [exact Hm|].
  exists w. split; [exact Hw|]. apply Hk.
  repeat constructor; rewrite ?elem_of_cons, elem_of_nil;
    intros H; repeat destruct H as [H|H]; try discriminate H; exact H.
Defined.

(** ** The arrays of the 1-D loader *)

Lemma assoc_get_elem {V} (k : string) (l : list (string * V)) (v : V) :
  assoc_get k l = Some v -> (k, v) ∈ l.
Proof.
  induction l as [|[k' v'] l IH]; simpl; [done|].
  destruct (String.eqb_spec k k') as [->|].
  - intros [= ->]. by left.
  - intros H. right. by apply IH.
Qed.

Lemma frame_col_wf (read : frame) (k : string) (c : arr1) :
  frame_wf read -> frame_col read k = Ok c -> length c = frame_nrows read.
Proof.
  unfold frame_wf, frame_col. intros Hwf H.
  destruct (assoc_get k read) as [c'|] eqn:Hk; [|discriminate].
  injection H as ->. apply assoc_get_elem in Hk.
  rewrite Forall_forall in Hwf. apply (Hwf _ Hk).
Qed.


Lemma zipR_pure {A B C} (f : A -> B -> C) (a : list A) (b : list B) :
  length a = length b ->
  zipR (fun x y => Ok (f x y)) a b = Ok (zip_with f a b).
Proof.
  revert b; induction a as [|x a IH]; intros [|y b] Hlen; simpl in *;
    try done.
  rewrite IH by lia. done.
Qed.


Section After1d.
Variable ele : string -> option float.
Variable read_csv : string -> result frame.
Variable cfg : config.

Lemma get_profile_dimension (st st' : atmsetup) :
  get_profile ele read_csv cfg st = Ok st' ->
  dimension st' = Some "1d" /\ gravity st' = gravity st.
Proof.
  intros H.
  destruct (get_profile_run _ _ _ _ _ H)
    as (read & w & st1 & m & T & P & _ & _ & Hloop & _ & _ & _ & ->).
  unfold loaded_1d. simpl.
  destruct (whichones cfg) as [l|].
  - destruct (decide (1 <= length l)).
    + destruct (whichones_loop_run ele read l [] _ w st1
                  (List.Forall_nil _) Hloop)
        as (_ & _ & Hd & Hg & _).
      by rewrite Hd, Hg.
    + by injection Hloop as _ <-.
  - destruct (column_loop_run ele read (frame_keys read) []
                (set_molecules [] (set_dimension "1d" st)) [] w st1
                eq_refl (List.Forall_nil _) Hloop)
      as (_ & _ & _ & _ & _ & Hd & Hg).
    by rewrite Hd, Hg.
Qed.

(** The level entries of the state [get_profile] returns. *)
Lemma get_profile_stored (st st' : atmsetup) (read : frame) :
  profile_table read_csv cfg = Some read ->
  get_profile ele read_csv cfg st = Ok st' ->
  exists w cols T P,
    weights st' = Some w /\
    mapR (frame_col read) (frame_keys w) = Ok cols /\
    frame_col read "temperature" = Ok T /\
    frame_col read "pressure" = Ok P /\
    level st' !! "mixingratios"
    = Some (A2 (as_matrix (frame_nrows read) cols)) /\
    level st' !! "temperature" = Some (A1 T) /\
    level st' !! "pressure" = Some (A1 ((fun p => (p * pconv)%float) <$> P)) /\
    nlevel st' = Some (Z.of_nat (frame_nrows read)).
Proof.
  intros Hread H.
  destruct (get_profile_run _ _ _ _ _ H)
    as (read' & w & st1 & m & T & P & _ & Hread' & _ & Hm & HT & HP & ->).
  rewrite Hread in Hread'. injection Hread' as <-.
  unfold frame_matrix in Hm. bind_inv Hm as cols Hcols. injection Hm as <-.
  exists w, cols, T, P. unfold loaded_1d. simpl.
  split_and!; try done; try (by simplify_map_eq).
  do 2 f_equal. unfold as_matrix. by rewrite length_fmap, length_seq.
Qed.

End After1d.





(** ** The errors of a choice of molecules *)





(** ** Density, gravity and column density after the 1-D loader *)

(** X14: [get_density] after [get_profile], on a table whose columns
    have the length of the table.  It returns; the level density has one
    entry per row of the table, entry [i] being the pressure in dyn/cm2
    over [k_b] times the temperature; the layer dictionary and the other
    level entries stay as they were. *)
Theorem get_density_after_profile ele read_csv cfg (k_b : float)
    (st st' : atmsetup) (read : frame) :
  profile_table read_csv cfg = Some read ->
  frame_wf read ->
  get_profile ele read_csv cfg st = Ok st' ->
  exists T P den st'',
    frame_col read "temperature" = Ok T /\
    frame_col read "pressure" = Ok P /\
    get_density k_b st' = Ok st'' /\
    level st'' !! "den" = Some (A1 den) /\
    length den = frame_nrows read /\
    (forall i p t, P !! i = Some p -> T !! i = Some t ->
       den !! i = Some ((p * pconv) / (k_b * t))%float) /\
    layer st'' = layer st' /\
    forall k, k <> "den" -> level st'' !! k = level st' !! k.
Proof.
  intros Hread Hwf H.
  destruct (get_profile_stored _ _ _ _ _ _ Hread H)
    as (w & cols & T & P & Hw & Hcols & HT & HP & Hm & HlT & HlP & Hn).
  pose proof (frame_col_wf _ _ _ Hwf HT) as HTn.
  pose proof (frame_col_wf _ _ _ Hwf HP) as HPn.
  exists T, P.
  unfold get_density, item. rewrite HlP, HlT. simpl.
  rewrite zipR_pure by (rewrite length_fmap; congruence). simpl.
  exists (zip_with (fun p t => (p / (k_b * t))%float)
            ((fun p => (p * pconv)%float) <$> P) T).
  eexists. split; [done|]. split; [done|]. split; [reflexivity|].
  split_and!; try done.
  - simpl. apply lookup_insert_eq.
  - rewrite length_zip_with, length_fmap. lia.
  - intros i p t Hp Ht. rewrite lookup_zip_with, list_lookup_fmap, Hp.
    simpl. by rewrite Ht.
  - intros k Hk. simpl. by rewrite lookup_insert_ne.
Qed.

Lemma get_density_after_profile_witness :
  frame_wf sample_frame /\
  exists den st'',
    get_density sample_k_b sample_state_1d = Ok st'' /\
    level st'' !! "den" = Some (A1 den) /\
    length den = 3.
Proof.
  assert (Hwf : frame_wf sample_frame) by (repeat constructor).
  split; [exact Hwf|].
  destruct (get_density_after_profile sample_elements no_csv
              (cfg_1d sample_frame) sample_k_b init_atmsetup sample_state_1d
              sample_frame)
    as (T & P & den & st'' & _ & _ & Hrun & Hden & Hlen & _).
  - reflexivity.
  - exact Hwf.
  - vm_compute. reflexivity.
  - exists den, st''. split; [exact Hrun|]. split; [exact Hden | exact Hlen].
Defined.

Section GravityProps.
Variable to_unit : float -> option string -> string -> result float.
Variable newton : float -> float -> float.

(** [get_gravity] when it returns. *)
Lemma get_gravity_Ok (planet : planet_input) (st st' : atmsetup) :
  get_gravity to_unit newton planet st = Ok st' ->
  exists g,
    st' = set_gravity g st /\
    match planet_gravity planet with
    | Some x => to_unit x (planet_gravity_unit planet) "cm/(s**2)" = Ok g
    | None =>
        exists m r m' r',
          planet_mass planet = Some m /\ planet_radius planet = Some r /\
          to_unit m (planet_mass_unit planet) "g" = Ok m' /\
          to_unit r (planet_radius_unit planet) "cm" = Ok r' /\
          g = newton m' r'
    end.
Proof.
  unfold get_gravity. intros H. bind_inv H as g Hg. injection H as <-.
  exists g. split; [done|].
  destruct (planet_gravity planet) as [x|]; [done|].
  destruct (planet_mass planet) as [m|]; [|discriminate].
  destruct (planet_radius planet) as [r|]; [|discriminate].
  bind_inv Hg as m' Hm'. bind_inv Hg as r' Hr'. injection Hg as <-.
  by exists m, r, m', r'.
Qed.

End GravityProps.

(** X15: [get_column_density] needs [get_gravity] first.  After
    [get_profile] on an instance without gravity it raises
    AttributeError; after [get_profile] and [get_gravity] it returns,
    the layer column density has one entry per pair of adjacent entries
    of the pressure column (one entry less than the column when the
    table has rows, none when it has none), entry [i] being the
    difference of the pressures [i+1] and [i] in dyn/cm2 over the
    gravity, and the level dictionary and the other layer entries stay
    as they were. *)
Theorem get_column_density_after_gravity ele read_csv cfg to_unit newton
    (planet : planet_input) (st st1 : atmsetup) (read : frame) :
  profile_table read_csv cfg = Some read ->
  get_profile ele read_csv cfg st = Ok st1 ->
  (gravity st = None ->
   get_column_density st1 = Raise (AttributeError "gravity")) /\
  (forall st2, get_gravity to_unit newton planet st1 = Ok st2 ->
     exists g P c st3,
       gravity st2 = Some g /\
       frame_col read "pressure" = Ok P /\
       get_column_density st2 = Ok st3 /\
       layer st3 !! "colden" = Some (A1 c) /\
       layers_of (length P) (length c) /\
       (forall i lo hi, P !! i = Some lo -> P !! S i = Some hi ->
          c !! i = Some ((hi * pconv - lo * pconv) / g)%float) /\
       level st3 = level st2 /\
       forall k, k <> "colden" -> layer st3 !! k = layer st2 !! k).
Proof.
  intros Hread H.
  destruct (get_profile_dimension _ _ _ _ _ H) as [_ Hgr].
  destruct (get_profile_stored _ _ _ _ _ _ Hread H)
    as (w & cols & T & P & Hw & Hcols & HT & HP & Hm & HlT & HlP & Hn).
  split.
  - intros Hg. unfold get_column_density, item. rewrite HlP. simpl.
    by rewrite Hgr, Hg.
  - intros st2 H2. destruct (get_gravity_Ok _ _ _ _ _ H2) as (g & -> & _).
    exists g, P. unfold get_column_density, item. simpl. rewrite HlP. simpl.
    exists (layer_colden g ((fun p => (p * pconv)%float) <$> P)).
    eexists. split; [done|]. split; [done|]. split; [reflexivity|].
    split_and!; try done.
    + simpl. apply lookup_insert_eq.
    + apply layers_of_pred. unfold layer_colden.
      by rewrite length_adjacent, length_fmap.
    + intros i lo hi Hlo Hhi. unfold layer_colden.
      rewrite lookup_adjacent, !list_lookup_fmap, Hlo, Hhi. done.
    + intros k Hk. simpl. by rewrite lookup_insert_ne.
Qed.

Lemma get_column_density_after_gravity_witness :
  get_column_density sample_state_1d = Raise (AttributeError "gravity") /\
  exists st2 st3 c,
    get_gravity sample_to_unit sample_newton sample_planet sample_state_1d
    = Ok st2 /\
    get_column_density st2 = Ok st3 /\
    layer st3 !! "colden" = Some (A1 c) /\
    3 = length c + 1.
Proof.
  destruct (get_column_density_after_gravity sample_elements no_csv
              (cfg_1d sample_frame) sample_to_unit sample_newton sample_planet
              init_atmsetup sample_state_1d sample_frame) as [H1 H2].
  - reflexivity.
  - vm_compute. reflexivity.
  - split; [apply H1; reflexivity|].
    set (st2 := state_of (get_gravity sample_to_unit sample_newton
                            sample_planet sample_state_1d)).
    destruct (H2 st2) as (g & P & c & st3 & _ & HP & Hrun & Hc & Hlen & _).
    + vm_compute. reflexivity.
    + exists st2, st3, c. split; [vm_compute; reflexivity|].
      split; [exact Hrun|]. split; [exact Hc|].
      vm_compute in HP. injection HP as <-.
      apply (proj1 Hlen). simpl. lia.
Defined.

(** ** The cloud loader after the 1-D loader *)

(** [np.reshape] fills row by row. *)
Lemma chunks_row_major (n m : nat) (l : arr1) :
  length l = n * m -> row_major n m l (chunks n m l).
Proof.
  revert l; induction n as [|n IH]; intros l Hlen; simpl.
  - split; [by split|]. intros ? ? ?. lia.
  - destruct (IH (drop m l)) as [[Hn Hrows] Hcell].
    { rewrite length_drop. lia. }
    split; [split|].
    + simpl. by rewrite Hn.
    + constructor; [|done]. rewrite length_take. lia.
    + intros i w Hi Hw. destruct i as [|i]; unfold cell2; simpl.
      * by rewrite lookup_take_lt.
      * specialize (Hcell i w ltac:(lia) Hw). unfold cell2 in Hcell.
        rewrite Hcell, lookup_drop. f_equal. lia.
Qed.

Lemma reshape2_row_major (n : Z) (m : nat) (l : arr1) (a : arr2) :
  reshape2 n m l = Ok a ->
  (0 <= n)%Z /\ length l = Z.to_nat n * m /\ row_major (Z.to_nat n) m l a.
Proof.
  unfold reshape2. destruct (n <? 0)%Z eqn:Hn; [discriminate|].
  apply Z.ltb_ge in Hn.
  destruct (decide _) as [Hlen|]; [|discriminate]. intros [= <-].
  split; [done|]. split; [done|]. by apply chunks_row_major.
Qed.

Section CloudProps.
Variable read_csv : string -> result frame.
Variable h5py_File : option string -> result h5file.
Variable path_exists : string -> bool.
Variable get_cld_input_grid : string -> arr1.
Variable regrid : arr2 -> arr1 -> arr1 -> arr2.
Variable cfg : config.

Local Abbreviation clouds :=
  (get_clouds read_csv h5py_File path_exists get_cld_input_grid regrid cfg).
Local Abbreviation input_wno := (get_cld_input_grid (clouds_wavenumber cfg)).

Lemma cloud_case_1d (st : atmsetup) :
  dimension st = Some "1d" ->
  cloud_case_of cfg st
  = Ok (match clouds_filepath cfg, scattering_g0 cfg with
        | Some _, _ => CloudFile1d
        | None, None => CloudFree1d
        | None, Some _ => CloudFlat1d
        end).
Proof.
  intros Hd. unfold cloud_case_of. rewrite Hd. simpl.
  destruct (clouds_filepath cfg) as [p|]; simpl; [done|].
  by destruct (scattering_g0 cfg).
Qed.

Lemma cloud_column_Ok (cld : frame) (k : string) (nlay : Z) (wno : arr1)
    (a : arr2) :
  cloud_column regrid cld k nlay input_wno wno = Ok a ->
  exists col low,
    frame_col cld k = Ok col /\
    row_major (Z.to_nat nlay) (length input_wno) col low /\
    a = regrid low input_wno wno.
Proof.
  unfold cloud_column. intros H. bind_inv H as col Hcol.
  bind_inv H as low Hlow. injection H as <-.
  apply reshape2_row_major in Hlow as (_ & _ & Hrm). by exists col, low.
Qed.

(** The 1-D branch with a file. *)
Lemma get_clouds_file_rows (wno : arr1) (st st' : atmsetup) (path : string) :
  dimension st = Some "1d" -> clouds_filepath cfg = Some path ->
  clouds wno st = Ok st' ->
  exists cld nlay d,
    path_exists path = true /\ read_csv path = Ok cld /\
    nlayer st = Some nlay /\
    Z.of_nat (frame_nrows cld) = (nlay * Z.of_nat (length input_wno))%Z /\
    layer_cloud st' = Some d /\
    forall k, k ∈ disect_cloud_keys ->
      exists col low,
        frame_col cld k = Ok col /\
        row_major (Z.to_nat nlay) (length input_wno) col low /\
        d !! k = Some (A2 (regrid low input_wno wno)).
Proof.
  intros Hd Hp H. unfold get_clouds in H.
  rewrite cloud_case_1d in H by done. rewrite Hp in H. simpl in H.
  destruct (path_exists path); [|discriminate].
  bind_inv H as cld Hcld. bind_inv H as nlay Hnlay.
  bind_inv H as u1 Hu1. bind_inv H as u2 Hu2. bind_inv H as u3 Hu3.
  bind_inv H as u4 Hu4.
  bind_inv H as opd Hopd. bind_inv H as g0 Hg0. bind_inv H as w0 Hw0.
  injection H as <-.
  exists cld, nlay. eexists. split; [done|]. split; [done|].
  split. { simpl in Hnlay. by destruct (nlayer st) as [?|]; inversion Hnlay. }
  split.
  { unfold py_assert in Hu1.
    destruct (Z.eqb_spec (Z.of_nat (frame_nrows cld))
                (nlay * Z.of_nat (length input_wno))); [done|discriminate]. }
  split; [reflexivity|].
  intros k Hk. unfold disect_cloud_keys in Hk.
  apply elem_of_cons in Hk as [->|Hk];
    [|apply elem_of_cons in Hk as [->|Hk];
      [|apply list_elem_of_singleton in Hk as ->]].
  - destruct (cloud_column_Ok _ _ _ _ _ Hopd) as (col & low & ? & ? & ->).
    exists col, low. split_and!; try done; by simplify_map_eq.
  - destruct (cloud_column_Ok _ _ _ _ _ Hg0) as (col & low & ? & ? & ->).
    exists col, low. split_and!; try done; by simplify_map_eq.
  - destruct (cloud_column_Ok _ _ _ _ _ Hw0) as (col & low & ? & ? & ->).
    exists col, low. split_and!; try done; by simplify_map_eq.
Qed.

End CloudProps.

(** X16: the 1-D cloud file is read layer by layer.  When [get_clouds]
    returns on a 1-D atmosphere with a cloud file, the file exists, it
    has [nlayer] times the number of points of the input grid rows, and
    each of opd, g0 and w0 is the regridded matrix whose row [l] holds
    the rows [l*n .. l*n + n - 1] of the column of the file, [n] being
    the number of points of the input grid. *)
Theorem get_clouds_file_row_order read_csv h5py_File path_exists
    get_cld_input_grid regrid cfg (wno : arr1) (st st' : atmsetup)
    (path : string) :
  dimension st = Some "1d" -> clouds_filepath cfg = Some path ->
  get_clouds read_csv h5py_File path_exists get_cld_input_grid regrid cfg
             wno st = Ok st' ->
  exists cld nlay d,
    path_exists path = true /\ read_csv path = Ok cld /\
    nlayer st = Some nlay /\
    Z.of_nat (frame_nrows cld)
    = (nlay * Z.of_nat (length (get_cld_input_grid (clouds_wavenumber cfg))))%Z /\
    layer_cloud st' = Some d /\
    forall k, k ∈ disect_cloud_keys ->
      exists col low,
        frame_col cld k = Ok col /\
        row_major (Z.to_nat nlay)
                  (length (get_cld_input_grid (clouds_wavenumber cfg)))
                  col low /\
        d !! k = Some (A2 (regrid low
                             (get_cld_input_grid (clouds_wavenumber cfg)) wno)).
Proof. apply get_clouds_file_rows. Qed.

Lemma get_clouds_file_row_order_witness :
  exists cld d low,
    sample_cloud_csv "clouds.txt" = Ok cld /\
    layer_cloud
      (state_of (get_clouds sample_cloud_csv sample_files sample_exists
                            sample_grid no_regrid cfg_1d_clouds
                            [1000; 2000]%float sample_state_1d))
    = Some d /\
    row_major 2 2 [0.1; 0.2; 0.3; 0.4]%float low /\
    d !! "opd" = Some (A2 low).
Proof.
  destruct (get_clouds_file_row_order sample_cloud_csv sample_files
              sample_exists sample_grid no_regrid cfg_1d_clouds
              [1000; 2000]%float sample_state_1d
              (state_of (get_clouds sample_cloud_csv sample_files sample_exists
                                    sample_grid no_regrid cfg_1d_clouds
                                    [1000; 2000]%float sample_state_1d))
              "clouds.txt")
    as (cld & nlay & d & _ & Hcld & Hnlay & _ & Hd & Hk).
  - vm_compute. reflexivity.
  - reflexivity.
  - vm_compute. reflexivity.
  - destruct (Hk "opd") as (col & low & Hcol & Hrm & Hopd).
    + apply elem_of_cons. left. reflexivity.
    + exists cld, d, low. split; [exact Hcld|]. split; [exact Hd|].
      vm_compute in Hcld. injection Hcld as <-.
      vm_compute in Hnlay. injection Hnlay as <-.
      vm_compute in Hcol. injection Hcol as <-.
      split; [exact Hrm | exact Hopd].
Defined.

(** X17: [get_clouds] after [get_profile], without a cloud file.  A
    table without rows makes it raise ValueError (the number of layers is
    -1).  Otherwise, without [g0] under scattering the three cloud arrays
    are zeros of [nlayer] rows and one column per output wavenumber, and
    the scattering dictionary is not touched, whatever [w0] is; with
    [g0] and [w0] the cloud arrays are zeros as well, and the scattering
    arrays are the constants [0 + g0] and [0 + w0]; with [g0] and
    without [w0] it raises TypeError. *)
Theorem get_clouds_without_file ele read_csv cfg h5py_File path_exists
    get_cld_input_grid regrid cfg' (wno : arr1) (st st1 : atmsetup)
    (read : frame) :
  profile_table read_csv cfg = Some read ->
  get_profile ele read_csv cfg st = Ok st1 ->
  clouds_filepath cfg' = None ->
  let clouds :=
    get_clouds read_csv h5py_File path_exists get_cld_input_grid regrid cfg'
               wno st1 in
  let zeros := replicate (frame_nrows read - 1) (replicate (length wno) 0%float) in
  let flat x :=
    replicate (frame_nrows read - 1) (replicate (length wno) (0 + x)%float) in
  (frame_nrows read = 0 -> clouds = Raise ValueError) /\
  (1 <= frame_nrows read ->
   match scattering_g0 cfg', scattering_w0 cfg' with
   | None, _ =>
       exists st2 d, clouds = Ok st2 /\ layer_cloud st2 = Some d /\
         (forall k, k ∈ disect_cloud_keys -> d !! k = Some (A2 zeros)) /\
         layer_scattering st2 = layer_scattering st1
   | Some g, Some w =>
       exists st2 d s, clouds = Ok st2 /\ layer_cloud st2 = Some d /\
         (forall k, k ∈ disect_cloud_keys -> d !! k = Some (A2 zeros)) /\
         layer_scattering st2 = Some s /\
         s !! "g0" = Some (A2 (flat g)) /\ s !! "w0" = Some (A2 (flat w))
   | Some g, None => clouds = Raise TypeError
   end).
Proof.
  intros Hread H Hp clouds zeros flat.
  destruct (get_profile_dimension _ _ _ _ _ H) as [Hd _].
  destruct (get_profile_stored _ _ _ _ _ _ Hread H)
    as (w & cols & T & P & _ & _ & _ & _ & _ & _ & _ & Hn).
  assert (Hny : nlayer st1 = Some (Z.of_nat (frame_nrows read) - 1)%Z).
  { destruct (get_profile_Ok _ _ _ _ _ H) as (n & Hn1 & Hn2 & _).
    rewrite Hn in Hn1. injection Hn1 as Hn1. apply Nat2Z.inj in Hn1.
    by rewrite Hn1. }
  assert (Hkeys : forall (d : gmap string ndarray) a,
            d !! "opd" = Some a -> d !! "g0" = Some a -> d !! "w0" = Some a ->
            forall k, k ∈ disect_cloud_keys -> d !! k = Some a).
  { intros d a H1 H2 H3 k Hk. unfold disect_cloud_keys in Hk.
    apply elem_of_cons in Hk as [->|Hk]; [done|].
    apply elem_of_cons in Hk as [->|Hk]; [done|].
    by apply list_elem_of_singleton in Hk as ->. }
  subst clouds. unfold get_clouds.
  rewrite cloud_case_1d by done. rewrite Hp.
  cbn [nlayer set_npts]. rewrite Hny.
  split.
  - intros H0. rewrite H0.
    destruct (scattering_g0 cfg'); reflexivity.
  - intros H1.
    assert (Hz : zeros2 (Z.of_nat (frame_nrows read) - 1) (length wno)
                 = Ok zeros).
    { unfold zeros2, zeros.
      replace (Z.of_nat (frame_nrows read) - 1 <? 0)%Z with false
        by (symmetry; apply Z.ltb_ge; lia).
      by replace (Z.to_nat (Z.of_nat (frame_nrows read) - 1))
        with (frame_nrows read - 1) by lia. }
    destruct (scattering_g0 cfg') as [g|].
    + cbn [attr mbind result_bind]. rewrite Hz.
      destruct (scattering_w0 cfg') as [w0|]; cbn [mbind result_bind]; [|done].
      eexists _, _, _. split; [reflexivity|]. split; [reflexivity|].
      split; [apply Hkeys; by simplify_map_eq|].
      split; [reflexivity|].
      unfold flat, zeros. rewrite !fmap_replicate. by simplify_map_eq.
    + cbn [attr mbind result_bind]. rewrite Hz. cbn [mbind result_bind].
      eexists _, _. split; [reflexivity|]. split; [reflexivity|].
      split; [apply Hkeys; by simplify_map_eq|]. done.
Qed.

Lemma get_clouds_without_file_witness :
  exists st2 s,
    get_clouds no_csv sample_files no_file sample_grid no_regrid cfg_1d_flat
               [1000; 2000]%float sample_state_1d = Ok st2 /\
    layer_scattering st2 = Some s /\
    s !! "g0" = Some (A2 (replicate 2 (replicate 2 (0 + 0.5)%float))) /\
    s !! "w0" = Some (A2 (replicate 2 (replicate 2 (0 + 0.9)%float))).
Proof.
  destruct (get_clouds_without_file sample_elements no_csv
              (cfg_1d sample_frame) sample_files no_file sample_grid no_regrid
              cfg_1d_flat [1000; 2000]%float init_atmsetup sample_state_1d
              sample_frame) as [_ H].
  - reflexivity.
  - vm_compute. reflexivity.
  - reflexivity.
  - destruct H as (st2 & d & s & Hrun & _ & _ & Hs & Hg & Hw).
    + vm_compute. lia.
    + exists st2, s. split; [exact Hrun|]. split; [exact Hs|].
      split; [exact Hg | exact Hw].
Defined.

(** ** The run of the 3-D loader *)

(** [same_rest] is a preorder that the writes of the loader respect. *)
Lemma same_rest_refl (st : atmsetup) : same_rest st st.
Proof. unfold same_rest. split_and!; done. Qed.

Lemma same_rest_trans (st1 st2 st3 : atmsetup) :
  same_rest st1 st2 -> same_rest st2 st3 -> same_rest st1 st3.
Proof.
  unfold same_rest.
  intros (?&?&?&?&?&Hk1) (?&?&?&?&?&Hk2).
  split_and!; try congruence.
  intros k Hk. destruct (Hk1 k Hk), (Hk2 k Hk). split; congruence.
Qed.

Lemma same_rest_set (k : string) (a b : ndarray) (st : atmsetup) :
  k ∈ loader_keys -> same_rest st (set_layer k b (set_level k a st)).
Proof.
  intros Hk. unfold same_rest. simpl. split_and!; try done.
  intros k' Hk'. rewrite !lookup_insert_ne; [done| |]; intros ->; done.
Qed.

Lemma same_rest_set_level (k : string) (a : ndarray) (st : atmsetup) :
  k ∈ loader_keys -> same_rest st (set_level k a st).
Proof.
  intros Hk. unfold same_rest. simpl. split_and!; try done.
  intros k' Hk'. rewrite !lookup_insert_ne; [done|]; intros ->; done.
Qed.

Lemma same_rest_set_layer (k : string) (a : ndarray) (st : atmsetup) :
  k ∈ loader_keys -> same_rest st (set_layer k a st).
Proof.
  intros Hk. unfold same_rest. simpl. split_and!; try done.
  intros k' Hk'. rewrite !lookup_insert_ne; [done|]; intros ->; done.
Qed.

Lemma fill_facet3_raw k f g t col st st' :
  fill_facet3 k f g t col st = Ok st' ->
  exists lev lev' lay',
    level st !! k = Some (A3 lev) /\ assign3 lev g t col = Ok lev' /\
    st' = set_layer k (A3 lay') (set_level k (A3 lev') st).
Proof.
  unfold fill_facet3. intros H. bind_inv H as lev Hlev.
  bind_inv H as lev' Hlev'. bind_inv H as lay Hlay. bind_inv H as lev2 Hlev2.
  bind_inv H as hi Hhi. bind_inv H as lo Hlo. bind_inv H as lay' Hlay'.
  injection H as <-. apply item3_Ok in Hlev. eauto 10.
Qed.

Lemma fill_facet4_raw k g t m st st' :
  fill_facet4 k g t m st = Ok st' ->
  exists lev lev' lay',
    level st !! k = Some (A4 lev) /\ assign4 lev g t m = Ok lev' /\
    st' = set_layer k (A4 lay') (set_level k (A4 lev') st).
Proof.
  unfold fill_facet4. intros H. bind_inv H as lev Hlev.
  bind_inv H as lev' Hlev'. bind_inv H as lay Hlay. bind_inv H as lev2 Hlev2.
  bind_inv H as hi Hhi. bind_inv H as lo Hlo. bind_inv H as lay' Hlay'.
  injection H as <-. apply item4_Ok in Hlev. eauto 10.
Qed.

Section Run3d.
Variable ele : string -> option float.
Variable h5py_File : option string -> result h5file.
Variable cfg : config.

(** One turn of the facet loops: the registry and the frame. *)
Lemma facet_body_registry h5db header electron ielec nlev lc g t lc' :
  facet_body ele cfg h5db header electron ielec nlev lc g t = Ok lc' ->
  same_rest (lc_self lc) (lc_self lc') /\
  same_angles (lc_self lc) (lc_self lc') /\
  (lc_first lc = false ->
     lc_first lc' = false /\ lc_iheader lc' = lc_iheader lc /\
     lc_itemp lc' = lc_itemp lc /\ lc_ipress lc' = lc_ipress lc /\
     molecules (lc_self lc') = molecules (lc_self lc) /\
     weights (lc_self lc') = weights (lc_self lc)) /\
  (lc_first lc = true ->
     first_pass_facts ele header ielec (lc_iheader lc) lc').
Proof.
  unfold facet_body. intros H. bind_inv H as lc1 Hlc1.
  bind_inv H as gs Hgs. bind_inv H as ts Hts. bind_inv H as st1 Hst1.
  bind_inv H as tbl Htbl. bind_inv H as itemp Hitemp. bind_inv H as col Hcol.
  bind_inv H as st2 Hst2.
  bind_inv H as tbl2 Htbl2. bind_inv H as ipress Hipress.
  bind_inv H as col2 Hcol2. bind_inv H as st3 Hst3.
  bind_inv H as tbl3 Htbl3. bind_inv H as m Hm. bind_inv H as st4 Hst4.
  injection H as <-.
  assert (H1 : exists a b, st1 = lc_self lc1 \/
            st1 = set_layer "electrons" b (set_level "electrons" a (lc_self lc1))).
  { destruct electron.
    - bind_inv Hst1 as tblE HtblE. bind_inv Hst1 as ie Hie.
      bind_inv Hst1 as colE HcolE.
      apply fill_facet3_raw in Hst1 as (? & lev' & lay' & _ & _ & ->).
      exists (A3 lev'), (A3 lay'). by right.
    - injection Hst1 as <-. exists (A1 []), (A1 []). by left. }
  destruct H1 as (aE & bE & H1).
  apply fill_facet3_raw in Hst2 as (? & levT & layT & _ & _ & ->).
  apply fill_facet3_raw in Hst3 as (? & levP & layP & _ & _ & ->).
  apply fill_facet4_raw in Hst4 as (? & levM & layM & _ & _ & ->).
  assert (Hrest : forall s, s = st1 ->
            same_rest (lc_self lc1) s /\ same_angles (lc_self lc1) s /\
            molecules s = molecules (lc_self lc1) /\
            weights s = weights (lc_self lc1)).
  { intros s ->. destruct H1 as [-> | ->].
    - split; [apply same_rest_refl|]. by split.
    - split; [apply same_rest_set; unfold loader_keys;
              repeat (apply elem_of_cons; (by left) || right)|].
      by split. }
  destruct (Hrest st1 eq_refl) as (Hr1 & Ha1 & Hm1 & Hw1).
  assert (Hr4 : same_rest (lc_self lc1)
            (set_layer "mixingratios" (A4 layM)
               (set_level "mixingratios" (A4 levM)
                  (set_layer "pressure" (A3 layP)
                     (set_level "pressure" (A3 levP)
                        (set_layer "temperature" (A3 layT)
                           (set_level "temperature" (A3 levT) st1))))))).
  { eapply same_rest_trans; [exact Hr1|].
    eapply same_rest_trans;
      [apply (same_rest_set "temperature" (A3 levT) (A3 layT));
       unfold loader_keys; repeat (apply elem_of_cons; (by left) || right)|].
    eapply same_rest_trans;
      [apply (same_rest_set "pressure" (A3 levP) (A3 layP));
       unfold loader_keys; repeat (apply elem_of_cons; (by left) || right)|].
    apply (same_rest_set "mixingratios" (A4 levM) (A4 layM)).
    unfold loader_keys; repeat (apply elem_of_cons; (by left) || right). }
  destruct (lc_first lc) eqn:Hfirst.
  - apply first_pass_Ok in Hlc1
      as (ie & itemp' & ipress' & ih1 & ih2 & ih & lm & ym & w & mols & Hie
          & Hit & Hip & Hp1 & Hp2 & Hp3 & _ & _ & Hreg & ->).
    cbn [lc_self lc_first lc_itemp lc_ipress lc_iheader] in *.
    split_and!.
    + eapply same_rest_trans; [|exact Hr4].
      eapply same_rest_trans;
        [apply (same_rest_set "mixingratios" (A4 lm) (A4 ym));
         unfold loader_keys; repeat (apply elem_of_cons; (by left) || right)|].
      unfold same_rest. simpl. split_and!; done.
    + destruct Ha1 as (?&?&?&?&?). unfold same_angles. simpl in *.
      split_and!; congruence.
    + discriminate.
    + intros _. exists ie, itemp', ipress', ih1, ih2, ih, w, mols.
      simpl. split_and!; try done; simpl in *; congruence.
  - injection Hlc1 as <-. split_and!.
    + exact Hr4.
    + destruct Ha1 as (?&?&?&?&?). unfold same_angles. simpl in *.
      split_and!; congruence.
    + intros _. simpl. split_and!; try done; simpl in *; congruence.
    + discriminate.
Qed.

End Run3d.

Section Loop3d.
Variable ele : string -> option float.
Variable h5py_File : option string -> result h5file.
Variable cfg : config.

Local Abbreviation ng := (num_gangle cfg).
Local Abbreviation nt := (num_tangle cfg).

(** The run of [get_profile_3d] when it returns. *)
Lemma get_profile_3d_run (st st' : atmsetup) :
  get_profile_3d ele h5py_File cfg st = Ok st' ->
  exists h5db g0 grp0 t0 tbl0 st0 ielec lc,
    h5py_File (profile_filepath cfg) = Ok h5db /\
    (h5_groups h5db).*1 !! 0 = Some g0 /\
    assoc_get g0 (h5_groups h5db) = Some grp0 /\
    grp0.*1 !! 0 = Some t0 /\ assoc_get t0 grp0 = Some tbl0 /\
    1 <= length tbl0 /\
    same_rest st st0 /\
    molecules st0 = molecules st /\ weights st0 = weights st /\
    dimension st0 = Some "3d" /\
    nlevel st0 = Some (Z.of_nat (length tbl0)) /\
    gangles st0 = Some (h5_groups h5db).*1 /\ tangles st0 = Some grp0.*1 /\
    loader_inv (paired one_row_less st)
               (py_in "e-" (split_comma (h5_header h5db))) (length tbl0) ng nt
               (mk_locals3d true None None
                  (seq 0 (length (split_comma (h5_header h5db)))) st0) /\
    (if py_in "e-" (split_comma (h5_header h5db))
     then exists ie, ielec = Some ie /\
            index_of "e-" (split_comma (h5_header h5db)) = Ok ie
     else ielec = None) /\
    foldM (fun lc gt =>
             facet_body ele cfg h5db (split_comma (h5_header h5db))
               (py_in "e-" (split_comma (h5_header h5db))) ielec
               (length tbl0) lc gt.1 gt.2)
          (mk_locals3d true None None
             (seq 0 (length (split_comma (h5_header h5db)))) st0)
          (facets ng nt)
    = Ok lc /\
    st' = lc_self lc.
Proof.
  unfold get_profile_3d. intros H.
  bind_inv H as h5db Hdb. bind_inv H as g0 Hg0. bind_inv H as grp0 Hgrp0.
  bind_inv H as t0 Ht0. bind_inv H as tbl0 Htbl0.
  bind_inv H as aT HaT. bind_inv H as aP HaP.
  bind_inv H as yT HyT. bind_inv H as yP HyP.
  bind_inv H as els Hels. destruct els as [[electron ielec] st0].
  bind_inv H as lc Hlc. injection H as <-.
  apply zeros3_shape in HaT as [_ HaT]. apply zeros3_shape in HaP as [_ HaP].
  apply zeros3_shape in HyT as [Hn HyT]. apply zeros3_shape in HyP as [_ HyP].
  rewrite Nat2Z.id in HaT, HaP.
  replace (Z.to_nat (Z.of_nat (length tbl0) - 1)) with (length tbl0 - 1)
    in HyT, HyP by lia.
  unfold nth_r in Hg0, Ht0. unfold assoc_item in Hgrp0, Htbl0.
  destruct ((h5_groups h5db).*1 !! 0) as [g0'|] eqn:Eg0; [|discriminate].
  injection Hg0 as ->.
  destruct (assoc_get g0 (h5_groups h5db)) as [grp0'|] eqn:Egrp0;
    [|discriminate].
  injection Hgrp0 as ->.
  destruct (grp0.*1 !! 0) as [t0'|] eqn:Et0; [|discriminate].
  injection Ht0 as ->.
  destruct (assoc_get t0 grp0) as [tbl0'|] eqn:Etbl0; [|discriminate].
  injection Htbl0 as ->.
  exists h5db, g0, grp0, t0, tbl0, st0, ielec, lc.
  rewrite (foldM_nested
             (fun lc g t => facet_body ele cfg h5db
                              (split_comma (h5_header h5db)) electron
                              ielec (length tbl0) lc g t)) in Hlc.
  assert (Hkeys : forall k : string,
            k ∈ ["temperature"; "pressure"; "electrons"] -> k ∈ loader_keys).
  { intros k Hk. unfold loader_keys.
    repeat (apply elem_of_cons in Hk as [->|Hk];
            [repeat (apply elem_of_cons; (by left) || right)|]).
    by apply elem_of_nil in Hk. }
  assert (Hother : forall k : string, k ∉ loader_keys ->
            k <> "temperature" /\ k <> "pressure" /\ k <> "electrons").
  { intros k Hk. split_and!; intros ->; apply Hk; unfold loader_keys;
      repeat (apply elem_of_cons; (by left) || right). }
  destruct (py_in "e-" (split_comma (h5_header h5db))) eqn:He.
  - bind_inv Hels as aE HaE. bind_inv Hels as yE HyE.
    bind_inv Hels as ie Hie. injection Hels as <- <- <-.
    apply zeros3_shape in HaE as [_ HaE].
    apply zeros3_shape in HyE as [_ HyE]. rewrite Nat2Z.id in HaE.
    replace (Z.to_nat (Z.of_nat (length tbl0) - 1)) with (length tbl0 - 1)
      in HyE by lia.
    split_and!; try done; try lia; eauto.
    + unfold same_rest. simpl. split_and!; try done.
      intros k Hk. destruct (Hother k Hk) as (? & ? & ?).
      by rewrite !lookup_insert_ne by done.
    + split_and!; simpl; try done.
      * intros Hpr0. unfold paired. simpl.
        apply paired_insert; [by eapply (shapes3_one_row_less (length tbl0))|].
        apply paired_insert; [by eapply (shapes3_one_row_less (length tbl0))|].
        apply paired_insert; [by eapply (shapes3_one_row_less (length tbl0))|].
        exact Hpr0.
      * exists aT, yT. simpl. by simplify_map_eq.
      * exists aP, yP. simpl. by simplify_map_eq.
      * intros _. exists aE, yE. simpl. by simplify_map_eq.
  - injection Hels as <- <- <-.
    split_and!; try done; try lia.
    + unfold same_rest. simpl. split_and!; try done.
      intros k Hk. destruct (Hother k Hk) as (? & ? & ?).
      by rewrite !lookup_insert_ne by done.
    + split_and!; simpl; try done.
      * intros Hpr0. unfold paired. simpl.
        apply paired_insert; [by eapply (shapes3_one_row_less (length tbl0))|].
        apply paired_insert; [by eapply (shapes3_one_row_less (length tbl0))|].
        exact Hpr0.
      * exists aT, yT. simpl. by simplify_map_eq.
      * exists aP, yP. simpl. by simplify_map_eq.
Qed.

(** The loops after the first turn keep the registry of the first pass. *)
Lemma facet_loop_registry h5db header electron ielec nlev
    (l : list (nat * nat)) (lc lc' : locals3d) :
  foldM (fun lc gt =>
           facet_body ele cfg h5db header electron ielec nlev lc gt.1 gt.2)
        lc l = Ok lc' ->
  same_rest (lc_self lc) (lc_self lc') /\
  same_angles (lc_self lc) (lc_self lc') /\
  (lc_first lc = false ->
     lc_first lc' = false /\ lc_iheader lc' = lc_iheader lc /\
     lc_itemp lc' = lc_itemp lc /\ lc_ipress lc' = lc_ipress lc /\
     molecules (lc_self lc') = molecules (lc_self lc) /\
     weights (lc_self lc') = weights (lc_self lc)) /\
  (lc_first lc = true -> l <> [] ->
     first_pass_facts ele header ielec (lc_iheader lc) lc').
Proof.
  revert lc; induction l as [|[g t] l IH]; intros lc H; simpl in H.
  - injection H as <-. split; [apply same_rest_refl|].
    split; [by unfold same_angles|]. split; [done|]. done.
  - bind_inv H as lc1 Hlc1.
    destruct (facet_body_registry _ _ _ _ _ _ _ _ _ _ _ Hlc1)
      as (Hr1 & Ha1 & Hf1 & Ht1).
    destruct (IH _ H) as (Hr2 & Ha2 & Hf2 & _).
    split; [by eapply same_rest_trans|]. split.
    { destruct Ha1 as (?&?&?&?&?), Ha2 as (?&?&?&?&?).
      unfold same_angles. split_and!; congruence. }
    split.
    + intros Hfirst. destruct (Hf1 Hfirst) as (Hb & ? & ? & ? & ? & ?).
      destruct (Hf2 Hb) as (? & ? & ? & ? & ? & ?).
      split_and!; congruence.
    + intros Hfirst _.
      destruct (Ht1 Hfirst)
        as (ie & itemp & ipress & ih1 & ih2 & ih & w & mols & ? & ? & ? & ?
            & ? & ? & ? & Hb & ? & ? & ? & ? & ?).
      destruct (Hf2 Hb) as (? & ? & ? & ? & ? & ?).
      exists ie, itemp, ipress, ih1, ih2, ih, w, mols.
      split_and!; congruence.
Qed.

End Loop3d.

(** ** The three pops and the registry of the 3-D loader *)

(** [list.index] finds the name at the index it returns. *)
Lemma index_of_Ok (k : string) (header : list string) (i : nat) :
  index_of k header = Ok i -> header !! i = Some k.
Proof.
  revert i; induction header as [|h header IH]; intros i; simpl; [done|].
  destruct (String.eqb_spec k h) as [->|].
  - by intros [= <-].
  - destruct (index_of k header) as [j|]; simpl; [|done].
    intros [= <-]. by apply IH.
Qed.

Lemma mapR_delete {A B} (f : A -> result B) (l : list A) (r : list B)
    (k : nat) :
  mapR f l = Ok r -> mapR f (delete k l) = Ok (delete k r).
Proof.
  revert r k; induction l as [|a l IH]; intros r k H; simpl in H.
  - injection H as <-. by destruct k.
  - bind_inv H as b Hb. bind_inv H as bs Hbs. injection H as <-.
    destruct k as [|k]; simpl; [done|].
    rewrite Hb. simpl. by rewrite (IH _ _ Hbs).
Qed.

Lemma mapR_nth_seq {A} (l : list A) :
  mapR (nth_r l) (seq 0 (length l)) = Ok l.
Proof.
  assert (H : forall pre, mapR (nth_r (pre ++ l)) (seq (length pre) (length l))
                          = Ok l).
  { induction l as [|a l IH]; intros pre; [done|].
    cbn [length seq mapR].
    assert (Ha : nth_r (pre ++ a :: l) (length pre) = Ok a).
    { unfold nth_r. by rewrite lookup_app_r, Nat.sub_diag by lia. }
    rewrite Ha. cbn [mbind result_bind].
    specialize (IH (pre ++ [a])). rewrite <- app_assoc in IH. simpl in IH.
    rewrite length_app in IH. simpl in IH.
    replace (length pre + 1) with (S (length pre)) in IH by lia.
    by rewrite IH. }
  apply (H []).
Qed.

(** The indices [0 .. n-1] after three pops, read by position. *)
Lemma pops_lookup (n ie it ip j : nat) :
  delete ip (delete it (delete ie (seq 0 n))) !! j
  = seq 0 n !!
      (let j2 := if decide (j < ip) then j else S j in
       let j1 := if decide (j2 < it) then j2 else S j2 in
       if decide (j1 < ie) then j1 else S j1).
Proof. by rewrite !list_lookup_delete. Qed.

(** The three [pop] calls remove the three columns exactly when pressure
    stands before temperature and temperature before e-. *)
Lemma pops_left (n ie it ip j x : nat) :
  x < n ->
  x = (let j2 := if decide (j < ip) then j else S j in
       let j1 := if decide (j2 < it) then j2 else S j2 in
       if decide (j1 < ie) then j1 else S j1) ->
  x ∈ delete ip (delete it (delete ie (seq 0 n))).
Proof.
  intros Hx Hj. apply list_elem_of_lookup. exists j.
  rewrite pops_lookup, <- Hj. apply lookup_seq. lia.
Qed.

Lemma pops_order (n ie it ip : nat) :
  ie < n -> it < n -> ip < n -> it <> ie -> ip <> ie -> ip <> it ->
  it ∉ delete ip (delete it (delete ie (seq 0 n))) ->
  ip ∉ delete ip (delete it (delete ie (seq 0 n))) ->
  ip < it /\ it < ie.
Proof.
  intros Hie Hit Hip H1 H2 H3 Ht Hp.
  destruct (decide (ip < it)) as [Hpt|Hpt], (decide (it < ie)) as [Hte|Hte].
  - done.
  - exfalso. destruct (decide (ip < ie)) as [Hpe|Hpe].
    + apply Ht, (pops_left n ie it ip (it - 2)); [done|]. cbv zeta.
      rewrite (decide_False (P := it - 2 < ip)) by lia.
      rewrite (decide_True (P := S (it - 2) < it)) by lia.
      rewrite (decide_False (P := S (it - 2) < ie)) by lia. lia.
    + apply Hp, (pops_left n ie it ip (ip - 1)); [done|]. cbv zeta.
      rewrite (decide_True (P := ip - 1 < ip)) by lia.
      rewrite (decide_True (P := ip - 1 < it)) by lia.
      rewrite (decide_False (P := ip - 1 < ie)) by lia. lia.
  - exfalso. destruct (decide (ip < ie)) as [Hpe|Hpe].
    + apply Hp, (pops_left n ie it ip (ip - 1)); [done|]. cbv zeta.
      rewrite (decide_True (P := ip - 1 < ip)) by lia.
      rewrite (decide_False (P := ip - 1 < it)) by lia.
      rewrite (decide_True (P := S (ip - 1) < ie)) by lia. lia.
    + apply Hp, (pops_left n ie it ip (ip - 2)); [done|]. cbv zeta.
      rewrite (decide_True (P := ip - 2 < ip)) by lia.
      rewrite (decide_False (P := ip - 2 < it)) by lia.
      rewrite (decide_False (P := S (ip - 2) < ie)) by lia. lia.
  - exfalso.
    apply Ht, (pops_left n ie it ip (it - 1)); [done|]. cbv zeta.
    rewrite (decide_True (P := it - 1 < ip)) by lia.
    rewrite (decide_True (P := it - 1 < it)) by lia.
    rewrite (decide_False (P := it - 1 < ie)) by lia. lia.
Qed.

Section Register.
Variable ele : string -> option float.
Variable header : list string.

(** The loop that weighs the names left in the header. *)
Lemma register_loop (ih : list nat) (w0 : list (string * float))
    (m0 : list string) (w : list (string * float)) (mols : list string) :
  Forall (fun km => weight_lookup ele km.1 = Ok km.2) w0 ->
  foldM (register_step ele header) (w0, m0) ih = Ok (w, mols) ->
  exists names,
    mapR (nth_r header) ih = Ok names /\ mols = m0 ++ names /\
    Forall (fun k => resolves ele k = true) names /\
    Forall (fun km => weight_lookup ele km.1 = Ok km.2) w /\
    forall k, k ∈ frame_keys w <-> k ∈ frame_keys w0 \/ k ∈ names.
Proof.
  revert w0 m0; induction ih as [|i ih IH]; intros w0 m0 Hw0 H; simpl in H.
  - injection H as <- <-. exists []. rewrite app_nil_r.
    split_and!; try done. intros k. split; [by left|].
    intros [?|Hk]; [done|]. by apply elem_of_nil in Hk.
  - bind_inv H as acc Hacc. destruct acc as [w1 m1].
    unfold register_step in Hacc. bind_inv Hacc as name Hname.
    bind_inv Hacc as m Hm. injection Hacc as <- <-.
    destruct (IH _ _ (assoc_set_Forall _ _ _ _ Hm Hw0) H)
      as (names & Hnames & -> & Hres & Hw & Hk).
    exists (name :: names). simpl. rewrite Hname. simpl. rewrite Hnames.
    simpl. split; [done|]. split; [by rewrite <- app_assoc|].
    split; [constructor; [unfold resolves; by rewrite Hm | done]|].
    split; [done|].
    intros k. rewrite Hk, assoc_set_keys, elem_of_cons.
    destruct (py_in name (frame_keys w0)) eqn:Hin.
    + apply py_in_elem_of in Hin. split; [tauto|].
      intros [?|[->|?]]; tauto.
    + rewrite elem_of_app, list_elem_of_singleton. tauto.
Qed.

End Register.

(** A grid with a gangle and a tangle has a facet. *)
Lemma facets_nonempty (ng nt : nat) : 0 < ng -> 0 < nt -> facets ng nt <> [].
Proof.
  intros Hg Ht. destruct ng as [|ng]; [lia|]. destruct nt as [|nt]; [lia|].
  discriminate.
Qed.

Lemma name_fails ele (c : ascii) (s : string) :
  islower c = true -> resolves ele (String c s) = false.
Proof.
  intros Hc. unfold resolves. rewrite weight_lookup_of. unfold weight_of.
  by rewrite (scan_lower_first c s Hc).
Qed.

(** X18: the 3-D loader returns only for a header in which pressure
    comes before temperature and temperature before e-.  With at least
    one facet, when [get_profile_3d] returns, the header has the three
    names at indices [ip < it < ie]; [self.molecules] is the header
    without these three, in its order; each of them is a name
    [get_weights] weighs; and the weights table holds for each key the
    weight of that name, its keys being these molecules. *)
Theorem get_profile_3d_needs_header_order ele h5py_File cfg
    (st st' : atmsetup) (h5db : h5file) :
  h5py_File (profile_filepath cfg) = Ok h5db ->
  0 < num_gangle cfg -> 0 < num_tangle cfg ->
  get_profile_3d ele h5py_File cfg st = Ok st' ->
  exists ip it ie,
    index_of "pressure" (split_comma (h5_header h5db)) = Ok ip /\
    index_of "temperature" (split_comma (h5_header h5db)) = Ok it /\
    index_of "e-" (split_comma (h5_header h5db)) = Ok ie /\
    ip < it /\ it < ie /\
    molecules st'
    = Some (delete ip (delete it (delete ie (split_comma (h5_header h5db))))) /\
    Forall (fun k => resolves ele k = true)
           (delete ip (delete it (delete ie (split_comma (h5_header h5db))))) /\
    exists w,
      weights st' = Some w /\
      Forall (fun km => weight_lookup ele km.1 = Ok km.2) w /\
      forall k, k ∈ frame_keys w <->
        k ∈ delete ip (delete it (delete ie (split_comma (h5_header h5db)))).
Proof.
  intros Hdb Hg Ht H.
  destruct (get_profile_3d_run _ _ _ _ _ H)
    as (h5db' & g0 & grp0 & t0 & tbl0 & st0 & ielec & lc & Hdb' & _ & _ & _
        & _ & _ & _ & _ & _ & _ & _ & _ & _ & _ & Hie & Hloop & ->).
  rewrite Hdb in Hdb'. injection Hdb' as <-.
  set (hdr := split_comma (h5_header h5db)) in *.
  destruct (facet_loop_registry _ _ _ _ _ _ _ _ _ _ Hloop)
    as (_ & _ & _ & Hfirst).
  destruct (Hfirst eq_refl (facets_nonempty _ _ Hg Ht))
    as (ie & it & ip & ih1 & ih2 & ih & w & mols & Hielec & Hit & Hip & Hp1
        & Hp2 & Hp3 & Hreg & _ & _ & _ & _ & Hmols & Hw).
  cbn [lc_iheader] in Hp1.
  assert (Hie' : index_of "e-" hdr = Ok ie).
  { destruct (py_in "e-" hdr).
    - destruct Hie as (ie' & -> & Hie). by injection Hielec as ->.
    - congruence. }
  unfold list_pop in Hp1, Hp2, Hp3.
  destruct (decide (ie < length (seq 0 (length hdr)))) as [Hb1|]; [|discriminate].
  injection Hp1 as <-.
  destruct (decide (it < _)) as [Hb2|]; [|discriminate]. injection Hp2 as <-.
  destruct (decide (ip < _)) as [Hb3|]; [|discriminate]. injection Hp3 as <-.
  rewrite length_seq in Hb1.
  destruct (register_loop ele hdr _ [] [] w mols (List.Forall_nil _) Hreg)
    as (names & Hnames & -> & Hres & Hwok & Hk).
  pose proof (mapR_delete _ _ _ ip
                (mapR_delete _ _ _ it
                   (mapR_delete _ _ _ ie (mapR_nth_seq hdr)))) as Hdel.
  rewrite Hdel in Hnames. injection Hnames as <-.
  pose proof (index_of_Ok _ _ _ Hit) as Hhit.
  pose proof (index_of_Ok _ _ _ Hip) as Hhip.
  pose proof (index_of_Ok _ _ _ Hie') as Hhie.
  assert (Hin : forall i k c s,
            hdr !! i = Some k -> k = String c s -> islower c = true ->
            i ∉ delete ip (delete it (delete ie (seq 0 (length hdr))))).
  { intros i k c s Hi -> Hc Hmem.
    apply list_elem_of_lookup in Hmem as [j Hj].
    destruct (mapR_Ok_lookup _ _ _ Hdel j i Hj) as (name & Hname & Hnth).
    unfold nth_r in Hnth. rewrite Hi in Hnth. injection Hnth as <-.
    rewrite Forall_forall in Hres.
    assert (Hr : resolves ele (String c s) = true).
    { apply Hres. apply list_elem_of_lookup. by exists j. }
    rewrite name_fails in Hr by done. discriminate. }
  destruct (pops_order (length hdr) ie it ip) as [Hlt1 Hlt2].
  - done.
  - by apply lookup_lt_Some in Hhit.
  - by apply lookup_lt_Some in Hhip.
  - intros ->. congruence.
  - intros ->. congruence.
  - intros ->. congruence.
  - by apply (Hin it "temperature" "t"%char "emperature").
  - by apply (Hin ip "pressure" "p"%char "ressure").
  - exists ip, it, ie. split_and!; try done.
    exists w. split_and!; try done.
    intros k. rewrite Hk. split; [|by right].
    intros [Hk0|?]; [|done]. by apply elem_of_nil in Hk0.
Qed.

Lemma get_profile_3d_needs_header_order_witness :
  exists ip it ie,
    index_of "pressure" ["pressure"; "temperature"; "e-"; "H2O"] = Ok ip /\
    index_of "temperature" ["pressure"; "temperature"; "e-"; "H2O"] = Ok it /\
    index_of "e-" ["pressure"; "temperature"; "e-"; "H2O"] = Ok ie /\
    ip < it /\ it < ie /\
    molecules sample_state_3d = Some ["H2O"].
Proof.
  destruct (get_profile_3d_needs_header_order sample_elements
              (sample_h5py_File "pressure,temperature,e-,H2O") cfg_3d
              init_atmsetup sample_state_3d
              (sample_h5 "pressure,temperature,e-,H2O"))
    as (ip & it & ie & Hp & Ht & He & H1 & H2 & Hm & _).
  - reflexivity.
  - simpl. lia.
  - simpl. lia.
  - vm_compute. reflexivity.
  - exists ip, it, ie. split; [exact Hp|]. split; [exact Ht|].
    split; [exact He|]. split; [exact H1|]. split; [exact H2|].
    vm_compute in Hp. injection Hp as <-.
    vm_compute in Ht. injection Ht as <-.
    vm_compute in He. injection He as <-.
    exact Hm.
Defined.

(** X19: the 3-D loader raises ValueError when the first table of the
    file has no rows, the number of levels being read from it as 0 and
    the layer arrays then asked for with -1 rows. *)
Theorem get_profile_3d_refuses_no_rows ele h5py_File cfg (st : atmsetup)
    (h5db : h5file) (g0 t0 : string) tr gr :
  h5py_File (profile_filepath cfg) = Ok h5db ->
  h5_groups h5db = (g0, (t0, []) :: tr) :: gr ->
  get_profile_3d ele h5py_File cfg st = Raise ValueError.
Proof.
  intros Hdb Hgr. unfold get_profile_3d. rewrite Hdb. simpl.
  rewrite Hgr. simpl. unfold assoc_item. simpl.
  rewrite String.eqb_refl. simpl. rewrite String.eqb_refl. simpl.
  reflexivity.
Qed.

Lemma get_profile_3d_refuses_no_rows_witness :
  get_profile_3d sample_elements sample_h5py_empty cfg_3d init_atmsetup
  = Raise ValueError.
Proof.
  apply (get_profile_3d_refuses_no_rows sample_elements sample_h5py_empty
           cfg_3d init_atmsetup
           (mk_h5file "pressure,temperature,e-,H2O" [("g0", [("t0", [])])])
           "g0" "t0" [] []); reflexivity.
Defined.

(** ** The column disaggregator after the 3-D loader *)

Section After3d.
Variable ele : string -> option float.
Variable h5py_File : option string -> result h5file.
Variable cfg : config.

(** The 3-D loader writes its own keys only. *)
Lemma get_profile_3d_rest (st st' : atmsetup) :
  get_profile_3d ele h5py_File cfg st = Ok st' -> same_rest st st'.
Proof.
  intros H.
  destruct (get_profile_3d_run _ _ _ _ _ H)
    as (h5db & g0 & grp0 & t0 & tbl0 & st0 & ielec & lc & _ & _ & _ & _
        & _ & _ & Hr0 & _ & _ & _ & _ & _ & _ & _ & _ & Hloop & ->).
  destruct (facet_loop_registry _ _ _ _ _ _ _ _ _ _ Hloop) as (Hr & _).
  by eapply same_rest_trans.
Qed.

(** The shapes of the arrays the 3-D loader leaves. *)
Lemma get_profile_3d_shapes (st st' : atmsetup) :
  get_profile_3d ele h5py_File cfg st = Ok st' ->
  exists nlev,
    1 <= nlev /\ nlevel st' = Some (Z.of_nat nlev) /\
    nlayer st' = Some (Z.of_nat nlev - 1)%Z /\
    has3 "temperature" (shapes3 nlev (num_gangle cfg) (num_tangle cfg)) st' /\
    has3 "pressure" (shapes3 nlev (num_gangle cfg) (num_tangle cfg)) st'.
Proof.
  intros H.
  destruct (get_profile_3d_Ok _ _ _ _ _ H)
    as (h5db & nlev & lc & _ & Hn & -> & (Hn1 & Hn2 & _ & HT & HP & _) & _).
  exists nlev. split_and!; done.
Qed.

End After3d.

Lemma nd_slice_shape3 (n ng nt : nat) (a : arr3) (g t : nat) :
  shape3 n ng nt a -> g < ng -> t < nt ->
  exists c, nd_slice (A3 a) (Z.of_nat g) (Z.of_nat t) = Ok (A1 c).
Proof.
  intros Hs Hg Ht. rewrite nd_slice_A3.
  destruct (shape3_slice3 _ _ _ _ _ _ Hs Hg Ht) as [c ->]. by exists c.
Qed.

(** X20: [disect] right after [get_profile_3d] raises KeyError at the
    layer mmw, at every facet of the grid: it needs [get_mmw] (and what
    follows in the loop over the layer keys) first. *)
Theorem disect_needs_derivations ele h5py_File cfg (st st' : atmsetup)
    (g t : nat) :
  get_profile_3d ele h5py_File cfg st = Ok st' ->
  layer st !! "mmw" = None ->
  g < num_gangle cfg -> t < num_tangle cfg ->
  disect (Z.of_nat g) (Z.of_nat t) st' = Raise (KeyError "mmw").
Proof.
  intros H Hmmw Hg Ht.
  destruct (get_profile_3d_rest _ _ _ _ _ H) as (_ & _ & _ & _ & _ & Hk).
  destruct (Hk "mmw") as [_ Hlay].
  { unfold loader_keys. intros Hin.
    repeat (apply elem_of_cons in Hin as [Hin|Hin]; [discriminate|]).
    by apply elem_of_nil in Hin. }
  rewrite Hmmw in Hlay.
  destruct (get_profile_3d_shapes _ _ _ _ _ H)
    as (nlev & _ & _ & _ & (lT & yT & HlT & HyT & HsT & HsyT)
        & (lP & yP & HlP & HyP & HsP & HsyP)).
  destruct (nd_slice_shape3 _ _ _ _ g t HsT Hg Ht) as [cT HcT].
  destruct (nd_slice_shape3 _ _ _ _ g t HsP Hg Ht) as [cP HcP].
  destruct (nd_slice_shape3 _ _ _ _ g t HsyT Hg Ht) as [dT HdT].
  destruct (nd_slice_shape3 _ _ _ _ g t HsyP Hg Ht) as [dP HdP].
  unfold disect, disect_level, disect_layer, item.
  rewrite HlT. cbn [mbind result_bind]. rewrite HcT.
  cbn [mbind result_bind level set_level].
  rewrite lookup_insert_ne by done. rewrite HlP.
  cbn [mbind result_bind]. rewrite HcP.
  cbn [mbind result_bind level layer set_level]. rewrite HyT.
  cbn [mbind result_bind]. rewrite HdT.
  cbn [mbind result_bind level layer set_level set_layer].
  rewrite lookup_insert_ne by done. rewrite HyP.
  cbn [mbind result_bind]. rewrite HdP.
  cbn [mbind result_bind level layer set_level set_layer].
  rewrite !lookup_insert_ne by done. by rewrite Hlay.
Qed.

Lemma disect_needs_derivations_witness :
  disect 0 1 sample_state_3d = Raise (KeyError "mmw").
Proof.
  apply (disect_needs_derivations sample_elements
           (sample_h5py_File "pressure,temperature,e-,H2O") cfg_3d
           init_atmsetup sample_state_3d 0 1).
  - vm_compute. reflexivity.
  - reflexivity.
  - simpl. lia.
  - simpl. lia.
Defined.

(** ** The values of the 3-D loader *)

Lemma facet_col_level k col g t st st' :
  level st' !! k = level st !! k ->
  facet_col k col g t st -> facet_col k col g t st'.
Proof. intros Hk (lev & c & Hlev & Hb & Hs). exists lev, c. by rewrite Hk. Qed.

Lemma facet_mat_level k m g t st st' :
  level st' !! k = level st !! k ->
  facet_mat k m g t st -> facet_mat k m g t st'.
Proof. intros Hk (lev & c & Hlev & Hb & Hs). exists lev, c. by rewrite Hk. Qed.

Lemma assign3_length (a : arr3) (g t : nat) (col : arr1) (a' : arr3) :
  assign3 a g t col = Ok a' -> length a' = length a.
Proof.
  unfold assign3. intros H. bind_inv H as col' Hc.
  by destruct (zipR_Ok_length _ _ _ _ H) as [_ ->].
Qed.

Lemma assign4_length (a : arr4) (g t : nat) (m : arr2) (a' : arr4) :
  assign4 a g t m = Ok a' -> length a' = length a.
Proof.
  unfold assign4. intros H. bind_inv H as m' Hc.
  by destruct (zipR_Ok_length _ _ _ _ H) as [_ ->].
Qed.

(** A slice assignment of rank three stores the column at its facet and
    keeps the other keys. *)
Lemma fill_facet3_col k f g t col st st' :
  fill_facet3 k f g t col st = Ok st' ->
  facet_col k col g t st' /\
  (forall col' g' t', (g', t') <> (g, t) ->
     facet_col k col' g' t' st -> facet_col k col' g' t' st') /\
  (forall k', k' <> k -> level st' !! k' = level st !! k').
Proof.
  intros H.
  destruct (fill_facet3_raw _ _ _ _ _ _ _ H)
    as (lev & lev' & lay' & Hlev & Hasg & ->).
  split_and!.
  - destruct (assign3_slice3 _ _ _ _ _ Hasg) as (c & Hb & Hs).
    exists lev', c. simpl. rewrite lookup_insert_eq.
    by rewrite (assign3_length _ _ _ _ _ Hasg).
  - intros col' g' t' Hne (lev0 & c & Hlev0 & Hb & Hs).
    rewrite Hlev in Hlev0. injection Hlev0 as <-.
    exists lev', c. simpl. rewrite lookup_insert_eq.
    rewrite (assign3_length _ _ _ _ _ Hasg).
    by rewrite (assign3_frame _ _ _ _ _ _ _ Hasg Hne).
  - intros k' Hne. simpl. by rewrite lookup_insert_ne.
Qed.

Lemma fill_facet4_mat k g t m st st' (nm : nat) :
  fill_facet4 k g t m st = Ok st' ->
  Forall (fun row => length row = nm) m ->
  (forall lev, level st !! k = Some (A4 lev) ->
     Forall (fun lv => length lv = nm) lev) ->
  facet_mat k m g t st' /\
  (forall m' g' t', (g', t') <> (g, t) ->
     facet_mat k m' g' t' st -> facet_mat k m' g' t' st') /\
  (forall k', k' <> k -> level st' !! k' = level st !! k').
Proof.
  intros H Hm Hsh.
  destruct (fill_facet4_raw _ _ _ _ _ _ H)
    as (lev & lev' & lay' & Hlev & Hasg & ->).
  split_and!.
  - destruct (assign4_slice4 _ _ _ _ _ nm Hasg (Hsh _ Hlev) Hm)
      as (c & Hb & Hs).
    exists lev', c. simpl. rewrite lookup_insert_eq.
    by rewrite (assign4_length _ _ _ _ _ Hasg).
  - intros m' g' t' Hne (lev0 & c & Hlev0 & Hb & Hs).
    rewrite Hlev in Hlev0. injection Hlev0 as <-.
    exists lev', c. simpl. rewrite lookup_insert_eq.
    rewrite (assign4_length _ _ _ _ _ Hasg).
    by rewrite (assign4_frame _ _ _ _ _ _ _ Hasg Hne).
  - intros k' Hne. simpl. by rewrite lookup_insert_ne.
Qed.

Section Values3d.
Variable ele : string -> option float.
Variable cfg : config.
Variable h5db : h5file.
Variable header : list string.
Variable electron : bool.
Variable ielec : option nat.
Variable nlev : nat.
Variables gs ts : list string.
Variables it ip : nat.
Hypothesis Hit : index_of "temperature" header = Ok it.
Hypothesis Hip : index_of "pressure" header = Ok ip.

Local Abbreviation ng := (num_gangle cfg).
Local Abbreviation nt := (num_tangle cfg).

(** One turn of the facet loops: the values at the facet, and the values
    at the facets before. *)
Lemma facet_body_values (P0 : Prop) lc g t lc' :
  facet_body ele cfg h5db header electron ielec nlev lc g t = Ok lc' ->
  values_inv cfg electron nlev gs ts it ip P0 lc ->
  values_inv cfg electron nlev gs ts it ip P0 lc' /\ values_done h5db electron ielec gs ts it ip (g, t) lc' /\
  forall gt', gt' <> (g, t) -> values_done h5db electron ielec gs ts it ip gt' lc ->
    values_done h5db electron ielec gs ts it ip gt' lc'.
Proof.
  intros H (Hinv & Hgs & Hts & Hidx).
  destruct (facet_body_step ele cfg P0 _ _ _ _ _ _ _ _ _ H Hinv)
    as (Hinv' & _ & _).
  destruct (facet_body_registry _ _ _ _ _ _ _ _ _ _ _ H)
    as (_ & (_ & _ & _ & Hgs' & Hts') & Hkeep & Hfp).
  unfold facet_body in H. bind_inv H as lc1 Hlc1.
  assert (H1 : lc_first lc1 = false /\ lc_itemp lc1 = Some it /\
               lc_ipress lc1 = Some ip /\
               gangles (lc_self lc1) = Some gs /\
               tangles (lc_self lc1) = Some ts /\
               (forall k, k <> "mixingratios" ->
                  level (lc_self lc1) !! k = level (lc_self lc) !! k) /\
               (lc_first lc = false -> lc1 = lc) /\
               exists lev, level (lc_self lc1) !! "mixingratios" = Some (A4 lev) /\
                 Forall (fun lv => length lv = length (lc_iheader lc1)) lev).
  { destruct (lc_first lc) eqn:Hfirst.
    - apply first_pass_Ok in Hlc1
        as (ie & itemp & ipress & ih1 & ih2 & ih & lm & ym & w & mols & _
            & Hit' & Hip' & _ & _ & _ & Hsh & _ & _ & ->).
      rewrite Hit in Hit'. rewrite Hip in Hip'.
      injection Hit' as <-. injection Hip' as <-. simpl.
      split_and!; try done.
      + intros k Hk. by rewrite lookup_insert_ne.
      + exists lm. rewrite lookup_insert_eq. split; [done|].
        destruct Hsh as [[_ Hs] _]. eapply Forall_impl; [exact Hs|].
        by intros lv [Hl _].
    - injection Hlc1 as <-. destruct (Hidx eq_refl) as [? ?].
      split_and!; try done.
      destruct Hinv as (_ & _ & _ & _ & _ & _ & HM).
      destruct (HM Hfirst) as (lev & lay & Hlev & _ & [[_ Hs] _]).
      exists lev. split; [done|]. eapply Forall_impl; [exact Hs|].
      by intros lv [Hl _]. }
  clear Hlc1.
  destruct H1 as (Hf1 & Hit1 & Hip1 & Hgs1 & Hts1 & Hlev1 & Hsame & HM1).
  rewrite Hgs1, Hts1 in H. cbn [attr mbind result_bind] in H.
  bind_inv H as st1 Hst1.
  assert (HE : (electron = true ->
                  exists tbl ie colE,
                    dataset h5db gs ts g t = Ok tbl /\ ielec = Some ie /\
                    table_col tbl ie = Ok colE /\
                    facet_col "electrons" colE g t st1 /\
                    forall col' g' t', (g', t') <> (g, t) ->
                      facet_col "electrons" col' g' t' (lc_self lc1) ->
                      facet_col "electrons" col' g' t' st1) /\
               (forall k', k' <> "electrons" ->
                  level st1 !! k' = level (lc_self lc1) !! k')).
  { destruct electron.
    - bind_inv Hst1 as tblE HtblE. bind_inv Hst1 as ie Hie.
      bind_inv Hst1 as colE HcolE.
      destruct (fill_facet3_col _ _ _ _ _ _ _ Hst1) as (Hd & Hfr & Hk).
      split; [|done]. intros _. exists tblE, ie, colE.
      destruct ielec as [ie'|]; [|discriminate]. injection Hie as ->.
      split_and!; done.
    - injection Hst1 as <-. split; [discriminate|done]. }
  clear Hst1. destruct HE as [HE HkE].
  bind_inv H as tbl Htbl. rewrite Hit1 in H. cbn [local mbind result_bind] in H.
  bind_inv H as colT HcolT. bind_inv H as st2 Hst2.
  destruct (fill_facet3_col _ _ _ _ _ _ _ Hst2) as (HdT & HfrT & HkT).
  rewrite Htbl in H. cbn [mbind result_bind] in H.
  rewrite Hip1 in H. cbn [local mbind result_bind] in H.
  bind_inv H as colP HcolP. bind_inv H as st3 Hst3.
  destruct (fill_facet3_col _ _ _ _ _ _ _ Hst3) as (HdP & HfrP & HkP).
  cbn [mbind result_bind] in H.
  bind_inv H as m Hm. bind_inv H as st4 Hst4. injection H as <-.
  destruct HM1 as (levM & HlevM & HshM).
  destruct (fill_facet4_mat _ _ _ _ _ _ (length (lc_iheader lc1)) Hst4
              (table_cols_rows _ _ _ Hm)) as (HdM & HfrM & HkM).
  { intros lev Hlev. rewrite HkP, HkT, HkE in Hlev by done.
    rewrite HlevM in Hlev. by injection Hlev as <-. }
  split; [|split].
  - split; [exact Hinv'|]. cbn [lc_self lc_first lc_itemp lc_ipress] in *.
    split_and!; try congruence. done.
  - split; [done|]. exists tbl, colT, colP, m.
    cbn [lc_self lc_iheader fst snd]. split_and!; try done.
    + apply (facet_col_level _ _ _ _ st3); [by apply HkM|].
      apply (facet_col_level _ _ _ _ st2); [by apply HkP|]. done.
    + apply (facet_col_level _ _ _ _ st3); [by apply HkM|]. done.
    + intros He. destruct (HE He) as (tblE & ie & colE & HtE & Hie & HcE & Hd & _).
      rewrite Htbl in HtE. injection HtE as <-.
      exists ie, colE. split; [done|]. split; [done|].
      apply (facet_col_level _ _ _ _ st3); [by apply HkM|].
      apply (facet_col_level _ _ _ _ st2); [by apply HkP|].
      apply (facet_col_level _ _ _ _ st1); [by apply HkT|]. done.
  - intros [g' t'] Hne [Hfirst (tbl' & colT' & colP' & m' & Hd' & HcT' & HcP'
                                & Hm' & HT' & HP' & HM' & HE')].
    pose proof (Hsame Hfirst) as ->.
    split; [done|]. exists tbl', colT', colP', m'.
    cbn [lc_self lc_iheader fst snd] in *. split_and!; try done.
    + apply (facet_col_level _ _ _ _ st3); [by apply HkM|].
      apply (facet_col_level _ _ _ _ st2); [by apply HkP|].
      apply HfrT; [done|].
      apply (facet_col_level _ _ _ _ (lc_self lc)); [by apply HkE|]. done.
    + apply (facet_col_level _ _ _ _ st3); [by apply HkM|].
      apply HfrP; [done|].
      apply (facet_col_level _ _ _ _ st1); [by apply HkT|].
      apply (facet_col_level _ _ _ _ (lc_self lc)); [by apply HkE|]. done.
    + apply HfrM; [done|].
      apply (facet_mat_level _ _ _ _ st2); [by apply HkP|].
      apply (facet_mat_level _ _ _ _ st1); [by apply HkT|].
      apply (facet_mat_level _ _ _ _ (lc_self lc)); [by apply HkE|]. done.
    + intros He. destruct (HE' He) as (ie & colE & Hie & HcE & HdE).
      exists ie, colE. split; [done|]. split; [done|].
      apply (facet_col_level _ _ _ _ st3); [by apply HkM|].
      apply (facet_col_level _ _ _ _ st2); [by apply HkP|].
      apply (facet_col_level _ _ _ _ st1); [by apply HkT|].
      destruct (HE He) as (_ & _ & _ & _ & _ & _ & _ & Hfr). by apply Hfr.
Qed.

End Values3d.

Lemma facet_col_same (k : string) (col : arr1) (g t : nat) (st : atmsetup)
    (lev : arr3) :
  facet_col k col g t st -> level st !! k = Some (A3 lev) ->
  length col = length lev -> slice3 lev g t = Ok col.
Proof.
  intros (lev' & c & Hlev & Hb & Hs) Hl Hlen. rewrite Hl in Hlev.
  injection Hlev as <-. rewrite broadcast_same in Hb by done.
  by injection Hb as <-.
Qed.

(** X21: the arrays [get_profile_3d] stores at a facet.  When it
    returns, at every facet [(g, t)] of the grid the table of the
    facet's group and dataset exists, and the level arrays hold at
    [[:, g, t]] its temperature column, its pressure column times
    [pconv], its e- column, and at [[:, :, g, t]] its molecule columns
    in the order of the header, each as numpy's slice assignment stores
    it; when the table has [nlevel] rows, the slices are these columns
    themselves. *)
Theorem get_profile_3d_values ele h5py_File cfg (st st' : atmsetup)
    (h5db : h5file) (g t : nat) :
  h5py_File (profile_filepath cfg) = Ok h5db ->
  get_profile_3d ele h5py_File cfg st = Ok st' ->
  g < num_gangle cfg -> t < num_tangle cfg ->
  exists gs ts ip it ie tbl colT colP colE m,
    gangles st' = Some gs /\ tangles st' = Some ts /\
    index_of "pressure" (split_comma (h5_header h5db)) = Ok ip /\
    index_of "temperature" (split_comma (h5_header h5db)) = Ok it /\
    index_of "e-" (split_comma (h5_header h5db)) = Ok ie /\
    dataset h5db gs ts g t = Ok tbl /\
    table_col tbl it = Ok colT /\ table_col tbl ip = Ok colP /\
    table_col tbl ie = Ok colE /\
    table_cols tbl
      (delete ip (delete it (delete ie
         (seq 0 (length (split_comma (h5_header h5db)))))))
    = Ok m /\
    facet_col "temperature" colT g t st' /\
    facet_col "pressure" ((fun p => (p * pconv)%float) <$> colP) g t st' /\
    facet_col "electrons" colE g t st' /\
    facet_mat "mixingratios" m g t st' /\
    (nlevel st' = Some (Z.of_nat (length tbl)) ->
     exists levT levP,
       level st' !! "temperature" = Some (A3 levT) /\
       slice3 levT g t = Ok colT /\
       level st' !! "pressure" = Some (A3 levP) /\
       slice3 levP g t = Ok ((fun p => (p * pconv)%float) <$> colP)).
Proof.
  intros Hdb H Hg Ht.
  destruct (get_profile_3d_run _ _ _ _ _ H)
    as (h5db' & g0 & grp0 & t0 & tbl0 & st0 & ielec & lc & Hdb' & _ & _ & _
        & _ & _ & _ & _ & _ & _ & _ & Hgs & Hts & Hinit & Hie & Hloop & ->).
  rewrite Hdb in Hdb'. injection Hdb' as <-.
  set (hdr := split_comma (h5_header h5db)) in *.
  destruct (facet_loop_registry _ _ _ _ _ _ _ _ _ _ Hloop)
    as (_ & _ & _ & Hfirst).
  assert (Hne : facets (num_gangle cfg) (num_tangle cfg) <> []).
  { apply facets_nonempty; lia. }
  destruct (Hfirst eq_refl Hne)
    as (ie & it & ip & ih1 & ih2 & ih & w & mols & Hielec & Hit & Hip & Hp1
        & Hp2 & Hp3 & _ & _ & Hih & _ & _ & _ & _).
  cbn [lc_iheader] in Hp1.
  unfold list_pop in Hp1, Hp2, Hp3.
  destruct (decide (ie < _)) as [Hb1|]; [|discriminate]. injection Hp1 as <-.
  destruct (decide (it < _)) as [Hb2|]; [|discriminate]. injection Hp2 as <-.
  destruct (decide (ip < _)) as [Hb3|]; [|discriminate]. injection Hp3 as <-.
  assert (He : py_in "e-" hdr = true /\ index_of "e-" hdr = Ok ie).
  { destruct (py_in "e-" hdr).
    - destruct Hie as (ie' & -> & Hie). by injection Hielec as ->.
    - congruence. }
  destruct He as [He Hie']. rewrite He in *.
  destruct (foldM_establish
              (fun lc (gt : nat * nat) =>
                 facet_body ele cfg h5db hdr true ielec (length tbl0) lc
                            gt.1 gt.2)
              (values_inv cfg true (length tbl0) (h5_groups h5db).*1 grp0.*1
                 it ip (paired one_row_less st))
              (values_done h5db true ielec (h5_groups h5db).*1 grp0.*1 it ip)
              (facets (num_gangle cfg) (num_tangle cfg)))
    with (4 := Hloop) as [HI HQ].
  - intros a [g' t'] a' _ Ha Hstep. simpl in Hstep.
    by apply (facet_body_values ele cfg h5db hdr true ielec (length tbl0)
                _ _ it ip Hit Hip _ _ _ _ _ Hstep).
  - apply facets_NoDup.
  - split; [exact Hinit|]. simpl. split_and!; try done.
  - destruct (HQ (g, t) (facets_elem _ _ _ _ Hg Ht))
      as (_ & tbl & colT & colP & m & Hd & HcT & HcP & Hm & HT & HP & HM & HE).
    destruct (HE eq_refl) as (ie' & colE & Hie2 & HcE & HEl).
    rewrite Hielec in Hie2. injection Hie2 as <-.
    destruct HI as (Hinv & Hgs' & Hts' & _).
    exists (h5_groups h5db).*1, grp0.*1, ip, it, ie, tbl, colT, colP, colE, m.
    cbn [fst snd] in *. rewrite Hih in Hm.
    split_and!; try done.
    intros Hn. destruct Hinv as (Hn1 & _ & _ & HsT & HsP & _).
    rewrite Hn in Hn1. injection Hn1 as Hn1. apply Nat2Z.inj in Hn1.
    destruct HsT as (levT & layT & HlT & _ & [[HnT _] _]).
    destruct HsP as (levP & layP & HlP & _ & [[HnP _] _]).
    exists levT, levP. split_and!; try done.
    + apply (facet_col_same _ _ _ _ _ _ HT HlT).
      apply mapR_Ok_length in HcT. lia.
    + apply (facet_col_same _ _ _ _ _ _ HP HlP).
      rewrite length_fmap. apply mapR_Ok_length in HcP. lia.
Qed.

Lemma get_profile_3d_values_witness :
  exists gs ts it tbl colT,
    gangles sample_state_3d = Some gs /\ tangles sample_state_3d = Some ts /\
    dataset (sample_h5 "pressure,temperature,e-,H2O") gs ts 0 1 = Ok tbl /\
    table_col tbl it = Ok colT /\
    facet_col "temperature" colT 0 1 sample_state_3d.
Proof.
  destruct (get_profile_3d_values sample_elements
              (sample_h5py_File "pressure,temperature,e-,H2O") cfg_3d
              init_atmsetup sample_state_3d
              (sample_h5 "pressure,temperature,e-,H2O") 0 1)
    as (gs & ts & ip & it & ie & tbl & colT & colP & colE & m & Hgs & Hts & _
        & _ & _ & Htbl & HT & _ & _ & _ & HcT & _).
  - reflexivity.
  - vm_compute. reflexivity.
  - simpl. lia.
  - simpl. lia.
  - exists gs, ts, it, tbl, colT. split; [exact Hgs|]. split; [exact Hts|].
    split; [exact Htbl|]. split; [exact HT | exact HcT].
Defined.

(** ** Density and column density after the 3-D loader *)

Lemma zipR_pure_Forall {A B} (P : A -> Prop) (F : A -> A -> result B)
    (G : A -> A -> B) (a b : list A) :
  (forall x y, P x -> P y -> F x y = Ok (G x y)) ->
  Forall P a -> Forall P b -> length a = length b ->
  zipR F a b = Ok (zip_with G a b).
Proof.
  intros HF Ha. revert b. induction Ha as [|x a Hx Ha IH]; intros b Hb Hlen.
  - by destruct b.
  - destruct Hb as [|y b Hy Hb]; [done|]. simpl in *.
    rewrite (HF _ _ Hx Hy). simpl. rewrite IH by (done || lia). done.
Qed.

(** Cell by cell on two arrays of one shape of rank three. *)
Lemma zipR3_pure (f : float -> float -> float) (n g t : nat) (a b : arr3) :
  shape3 n g t a -> shape3 n g t b ->
  zipR (zipR (zipR (fun x y => Ok (f x y)))) a b
  = Ok (zip_with (zip_with (zip_with f)) a b).
Proof.
  intros [Hna Ha] [Hnb Hb].
  apply (zipR_pure_Forall (shape2 g t)); [|done|done|congruence].
  intros p q [Hgp Hp] [Hgq Hq].
  apply (zipR_pure_Forall (fun r => length r = t)); [|done|done|congruence].
  intros r s Hr Hs. apply zipR_pure. congruence.
Qed.

Lemma zip_with_shape3 (f : float -> float -> float) (n g t : nat)
    (a b : arr3) :
  shape3 n g t a -> shape3 n g t b ->
  shape3 n g t (zip_with (zip_with (zip_with f)) a b).
Proof.
  intros [Hna Ha] [Hnb Hb]. split; [rewrite length_zip_with; lia|].
  clear Hna Hnb. revert b Hb.
  induction Ha as [|p a [Hgp Hp] Ha IH]; intros b Hb; [constructor|].
  destruct Hb as [|q b [Hgq Hq] Hb]; [constructor|]. simpl.
  constructor; [|by apply IH]. split; [rewrite length_zip_with; lia|].
  clear Hgp Hgq. revert q Hq.
  induction Hp as [|r p Hr Hp IHp]; intros q Hq; [constructor|].
  destruct Hq as [|s q Hs Hq]; [constructor|]. simpl.
  constructor; [rewrite length_zip_with; lia | by apply IHp].
Qed.

Lemma slice3_layer_colden3 (grav : float) (p : arr3) (g t : nat) (c : arr1) :
  slice3 p g t = Ok c ->
  slice3 (layer_colden3 grav p) g t = Ok (layer_colden grav c).
Proof.
  intros Hc. unfold layer_colden3, layer_colden.
  apply slice3_zip_with; [by apply slice3_py_tail | by apply slice3_py_init].
Qed.

(** X22: density and column density after [get_profile_3d].  The level
    pressure and temperature have the shape nlevel by gangles by
    tangles; [get_density] returns, and the density at each facet is the
    facet's pressure over [k_b] times its temperature, level by level;
    [get_column_density] raises AttributeError on an instance without
    gravity, and with a gravity it returns and the column density at
    each facet is the difference of adjacent pressure levels of the
    facet over the gravity. *)
Theorem derived_arrays_3d ele h5py_File cfg (k_b : float)
    (st st1 : atmsetup) :
  get_profile_3d ele h5py_File cfg st = Ok st1 ->
  exists nlev levP levT,
    nlevel st1 = Some (Z.of_nat nlev) /\
    level st1 !! "pressure" = Some (A3 levP) /\
    level st1 !! "temperature" = Some (A3 levT) /\
    shape3 nlev (num_gangle cfg) (num_tangle cfg) levP /\
    shape3 nlev (num_gangle cfg) (num_tangle cfg) levT /\
    (exists st2 den,
       get_density k_b st1 = Ok st2 /\
       level st2 !! "den" = Some (A3 den) /\
       shape3 nlev (num_gangle cfg) (num_tangle cfg) den /\
       forall g t cP cT,
         slice3 levP g t = Ok cP -> slice3 levT g t = Ok cT ->
         slice3 den g t
         = Ok (zip_with (fun p t => (p / (k_b * t))%float) cP cT)) /\
    (gravity st = None ->
     get_column_density st1 = Raise (AttributeError "gravity")) /\
    (forall grav, exists st3 col,
       get_column_density (set_gravity grav st1) = Ok st3 /\
       layer st3 !! "colden" = Some (A3 col) /\
       forall g t cP,
         slice3 levP g t = Ok cP ->
         slice3 col g t = Ok (layer_colden grav cP)).
Proof.
  intros H.
  destruct (get_profile_3d_rest _ _ _ _ _ H) as (_ & _ & _ & Hgr & _).
  destruct (get_profile_3d_shapes _ _ _ _ _ H)
    as (nlev & _ & Hn & _ & (lT & yT & HlT & _ & HsT & _)
        & (lP & yP & HlP & _ & HsP & _)).
  exists nlev, lP, lT. split_and!; try done.
  - unfold get_density, item. rewrite HlP, HlT. cbn [mbind result_bind nd_zip].
    rewrite (zipR3_pure _ _ _ _ _ _ HsP HsT). cbn [fmap result_fmap mbind result_bind].
    eexists _, _. split; [reflexivity|]. split; [apply lookup_insert_eq|].
    split; [by apply zip_with_shape3|].
    intros g t cP cT. apply slice3_zip_with.
  - intros Hg. unfold get_column_density, item. rewrite HlP.
    cbn [mbind result_bind]. by rewrite Hgr, Hg.
  - intros grav. unfold get_column_density, item. simpl. rewrite HlP. simpl.
    eexists _, _. split; [reflexivity|]. split; [apply lookup_insert_eq|].
    intros g t cP. apply slice3_layer_colden3.
Qed.

Lemma derived_arrays_3d_witness :
  exists nlev st2 den,
    nlevel sample_state_3d = Some (Z.of_nat nlev) /\
    get_density sample_k_b sample_state_3d = Ok st2 /\
    level st2 !! "den" = Some (A3 den) /\
    shape3 nlev 1 2 den.
Proof.
  destruct (derived_arrays_3d sample_elements
              (sample_h5py_File "pressure,temperature,e-,H2O") cfg_3d
              sample_k_b init_atmsetup sample_state_3d)
    as (nlev & levP & levT & Hn & _ & _ & _ & _
        & (st2 & den & Hrun & Hden & Hs & _) & _).
  - vm_compute. reflexivity.
  - exists nlev, st2, den. split; [exact Hn|]. split; [exact Hrun|].
    split; [exact Hden | exact Hs].
Defined.

(** ** The mean molecular weight after the 3-D loader *)

(** [m @ w] when it returns. *)
Lemma matvec_inv np_dot (m : arr2) (w v : arr1) :
  matvec np_dot m w = Ok v -> v = (fun row => np_dot row w) <$> m.
Proof.
  unfold matvec. revert v; induction m as [|row m IH]; intros v H; simpl in H.
  - by injection H as <-.
  - bind_inv H as x Hx. bind_inv H as xs Hxs. injection H as <-.
    destruct (decide _); [|discriminate]. injection Hx as <-.
    rewrite (IH _ Hxs). reflexivity.
Qed.

Lemma get_profile_3d_dimension ele h5py_File cfg (st st' : atmsetup) :
  get_profile_3d ele h5py_File cfg st = Ok st' -> dimension st' = Some "3d".
Proof.
  intros H.
  destruct (get_profile_3d_run _ _ _ _ _ H)
    as (h5db & g0 & grp0 & t0 & tbl0 & st0 & ielec & lc & _ & _ & _ & _
        & _ & _ & _ & _ & _ & Hd & _ & _ & _ & _ & _ & Hloop & ->).
  destruct (facet_loop_registry _ _ _ _ _ _ _ _ _ _ Hloop)
    as (_ & (Hd' & _) & _).
  simpl in Hd'. congruence.
Qed.

(** X23: [get_mmw] after [get_profile_3d].  When it returns, the
    weights table is not empty, the level mmw at each facet of the grid
    is the dot product of each row of the facet's mixing ratios with the
    weights, and the layer mmw is the mean of adjacent levels. *)
Theorem get_mmw_3d_values ele h5py_File cfg np_dot (st st1 st2 : atmsetup)
    (g t : nat) :
  get_profile_3d ele h5py_File cfg st = Ok st1 ->
  get_mmw np_dot cfg st1 = Ok st2 ->
  g < num_gangle cfg -> t < num_tangle cfg ->
  exists levM m w wm,
    level st1 !! "mixingratios" = Some (A4 levM) /\
    slice4 levM g t = Ok m /\
    weights st1 = Some w /\ w <> [] /\
    level st2 !! "mmw" = Some (A3 wm) /\
    slice3 wm g t = Ok ((fun row => np_dot row w.*2) <$> m) /\
    layer st2 !! "mmw" = Some (A3 (layer_mean_mmw3 wm)).
Proof.
  intros H1 H2 Hg Ht.
  pose proof (get_profile_3d_dimension _ _ _ _ _ H1) as Hdim.
  destruct (get_profile_3d_Ok _ _ _ _ _ H1)
    as (h5db & nlev & lc & _ & _ & -> & (Hn & _ & _ & _ & _ & _ & HM) & Hdone).
  destruct (Hdone g t Hg Ht) as (Hfirst & _).
  destruct (HM Hfirst) as (levM & layM & HlM & _ & [[HnM _] _]).
  unfold get_mmw in H2. rewrite Hdim in H2. cbn [attr mbind result_bind] in H2.
  replace (String.eqb "3d" "1d") with false in H2 by reflexivity.
  replace (String.eqb "3d" "3d") with true in H2 by reflexivity.
  rewrite Hn in H2. cbn [attr mbind result_bind] in H2.
  bind_inv H2 as wmA HwmA. bind_inv H2 as lay Hlay. injection H2 as <-.
  bind_inv HwmA as wm0 Hwm0. apply fmap_Ok in HwmA as (wm & Hloop & ->).
  simpl in Hlay. injection Hlay as <-.
  apply zeros3_shape in Hwm0 as [_ Hwm0]. rewrite Nat2Z.id in Hwm0.
  rewrite (foldM_nested
             (fun wm g t =>
                m ← item4 "mixingratios" (level (lc_self lc));
                m ← slice4 m g t;
                w ← weights_row (lc_self lc);
                v ← matvec np_dot m w;
                assign3 wm g t v)) in Hloop.
  destruct (foldM_establish
              (fun wm (gt : nat * nat) =>
                 m ← item4 "mixingratios" (level (lc_self lc));
                 m ← slice4 m gt.1 gt.2;
                 w ← weights_row (lc_self lc);
                 v ← matvec np_dot m w;
                 assign3 wm gt.1 gt.2 v)
              (shape3 nlev (num_gangle cfg) (num_tangle cfg))
              (fun gt wm =>
                 exists m w,
                   slice4 levM gt.1 gt.2 = Ok m /\
                   weights_row (lc_self lc) = Ok w /\
                   slice3 wm gt.1 gt.2 = Ok ((fun row => np_dot row w) <$> m))
              (facets (num_gangle cfg) (num_tangle cfg)))
    with (3 := Hwm0) (4 := Hloop) as [HI HQ].
  - intros a [g' t'] a' _ Ha Hstep. cbn [fst snd] in *.
    bind_inv Hstep as levM' HlM'. apply item4_Ok in HlM'.
    rewrite HlM in HlM'. injection HlM' as <-.
    bind_inv Hstep as m Hm. bind_inv Hstep as w Hw. bind_inv Hstep as v Hv.
    split; [by eapply assign3_shape|]. split.
    + exists m, w. split; [done|]. split; [done|].
      destruct (assign3_slice3 _ _ _ _ _ Hstep) as (c & Hb & Hs).
      apply matvec_inv in Hv. subst v.
      rewrite broadcast_same in Hb.
      * by injection Hb as <-.
      * rewrite length_fmap. apply mapR_Ok_length in Hm.
        destruct Ha as [-> _]. lia.
    + intros [g2 t2] Hne (m2 & w2 & ? & ? & Hs2). exists m2, w2.
      split; [done|]. split; [done|]. cbn [fst snd] in *.
      by rewrite (assign3_frame _ _ _ _ _ _ _ Hstep Hne).
  - apply facets_NoDup.
  - destruct (HQ (g, t) (facets_elem _ _ _ _ Hg Ht)) as (m & w & Hm & Hw & Hs).
    cbn [fst snd] in *. unfold weights_row in Hw.
    destruct (weights (lc_self lc)) as [wl|] eqn:Hwl; [|discriminate].
    simpl in Hw. destruct wl as [|km wl]; [discriminate|].
    injection Hw as <-.
    exists levM, m, (km :: wl), wm. split_and!; try done.
    + simpl. apply lookup_insert_eq.
    + simpl. apply lookup_insert_eq.
Qed.

Lemma get_mmw_3d_values_witness :
  exists st2 levM m w wm,
    get_mmw dot_left cfg_3d sample_state_3d = Ok st2 /\
    level sample_state_3d !! "mixingratios" = Some (A4 levM) /\
    slice4 levM 0 1 = Ok m /\
    weights sample_state_3d = Some w /\
    level st2 !! "mmw" = Some (A3 wm) /\
    slice3 wm 0 1 = Ok ((fun row => dot_left row w.*2) <$> m).
Proof.
  set (st2 := state_of (get_mmw dot_left cfg_3d sample_state_3d)).
  assert (Hrun : get_mmw dot_left cfg_3d sample_state_3d = Ok st2)
    by (vm_compute; reflexivity).
  destruct (get_mmw_3d_values sample_elements
              (sample_h5py_File "pressure,temperature,e-,H2O") cfg_3d
              dot_left init_atmsetup sample_state_3d st2 0 1)
    as (levM & m & w & wm & HM & Hm & Hw & _ & Hwm & Hs & _).
  - vm_compute. reflexivity.
  - exact Hrun.
  - simpl. lia.
  - simpl. lia.
  - exists st2, levM, m, w, wm. split; [exact Hrun|]. split; [exact HM|].
    split; [exact Hm|]. split; [exact Hw|]. split; [exact Hwm | exact Hs].
Defined.

(** ** The cloud loader after the 3-D loader *)

Section Clouds3d.
Variable regrid : arr2 -> arr1 -> arr1 -> arr2.
Hypothesis regrid_rows :
  forall low input_wno wno,
    Forall (fun row => length row = length wno) (regrid low input_wno wno).

(** One slice assignment of the 3-D cloud branch. *)
Lemma cloud_facet_value (data : arr2) (k : nat) (nlay : Z)
    (input_wno wno : arr1) (a a' : arr4) (g t ng nt : nat) :
  cloud_facet regrid data k nlay input_wno wno a g t = Ok a' ->
  shape4 (Z.to_nat nlay) (length wno) ng nt a ->
  shape4 (Z.to_nat nlay) (length wno) ng nt a' /\
  cloud_value regrid data k nlay input_wno wno a' g t /\
  forall data' k' g' t', (g', t') <> (g, t) ->
    cloud_value regrid data' k' nlay input_wno wno a g' t' ->
    cloud_value regrid data' k' nlay input_wno wno a' g' t'.
Proof.
  unfold cloud_facet. intros H Hs. bind_inv H as col Hcol.
  bind_inv H as low Hlow. apply reshape2_row_major in Hlow as (_ & _ & Hrm).
  split; [by eapply assign4_shape|]. split.
  - destruct (assign4_slice4 _ _ _ _ _ (length wno) H) as (c & Hb & Hsl).
    + destruct Hs as [_ Hs]. eapply Forall_impl; [exact Hs|].
      by intros lv [Hl _].
    + apply regrid_rows.
    + exists col, low, c. rewrite (assign4_length _ _ _ _ _ H). done.
  - intros data' k' g' t' Hne (col' & low' & c' & ? & ? & Hb & Hsl).
    exists col', low', c'. rewrite (assign4_length _ _ _ _ _ H).
    split_and!; try done.
    by rewrite (assign4_frame _ _ _ _ _ _ _ H Hne).
Qed.

(** One turn of the loops of the 3-D cloud branch. *)
Lemma cloud_facets_step (cld_input : h5file) (iopd ig0 iw0 : nat) (nlay : Z)
    (input_wno wno : arr1) (ng nt : nat) (st0 : atmsetup) acc g t acc' :
  cloud_facets regrid cld_input iopd ig0 iw0 nlay input_wno wno acc g t
  = Ok acc' ->
  cloud_inv nlay (length wno) ng nt st0 acc ->
  cloud_inv nlay (length wno) ng nt st0 acc' /\
  cloud_done regrid cld_input iopd ig0 iw0 nlay input_wno wno st0 (g, t) acc' /\
  forall gt', gt' <> (g, t) ->
    cloud_done regrid cld_input iopd ig0 iw0 nlay input_wno wno st0 gt' acc ->
    cloud_done regrid cld_input iopd ig0 iw0 nlay input_wno wno st0 gt' acc'.
Proof.
  destruct acc as [[[opd g0] w0] st]. unfold cloud_facets.
  intros H (Ho & Hg & Hw & Hgs & Hts).
  bind_inv H as gs Hgs'. bind_inv H as ts Hts'. bind_inv H as data Hdata.
  bind_inv H as u Hu. bind_inv H as opd' Hopd.
  bind_inv H as g0' Hg0. cbn [attr layer_cloud set_cloud mbind result_bind] in H.
  bind_inv H as w0' Hw0. injection H as <-.
  destruct (cloud_facet_value _ _ _ _ _ _ _ _ _ _ _ Hopd Ho)
    as (Ho' & Hvo & Hfo).
  destruct (cloud_facet_value _ _ _ _ _ _ _ _ _ _ _ Hg0 Hg)
    as (Hg' & Hvg & Hfg).
  destruct (cloud_facet_value _ _ _ _ _ _ _ _ _ _ _ Hw0 Hw)
    as (Hw' & Hvw & Hfw).
  assert (Hgs0 : gangles st0 = Some gs).
  { rewrite <- Hgs. unfold attr in Hgs'.
    destruct (gangles st); [by injection Hgs' as ->|discriminate]. }
  assert (Hts0 : tangles st0 = Some ts).
  { rewrite <- Hts. unfold attr in Hts'.
    destruct (tangles st); [by injection Hts' as ->|discriminate]. }
  split; [|split].
  - unfold cloud_inv. simpl. split_and!; done.
  - unfold cloud_done. simpl. split; [done|].
    exists gs, ts, data. split_and!; try done.
    unfold py_assert in Hu.
    by destruct (Z.eqb_spec (Z.of_nat (length data))
                   (nlay * Z.of_nat (length input_wno))).
  - intros [g' t'] Hne. unfold cloud_done. simpl.
    intros (_ & gs2 & ts2 & data2 & ? & ? & ? & ? & Hv1 & Hv2 & Hv3).
    split; [done|]. exists gs2, ts2, data2. split_and!; try done.
    + by apply Hfo.
    + by apply Hfg.
    + by apply Hfw.
Qed.

End Clouds3d.

(** X24: the 3-D cloud arrays, for a regridder whose rows have the
    length of the output grid.  When [get_clouds] returns on a 3-D
    atmosphere, the cloud file opens, its header names opd, g0 and w0,
    the three arrays have the shape nlayer by output points by gangles
    by tangles, and at every facet of the grid the table of the facet
    has nlayer times input points rows and each array holds at
    [[:, :, g, t]] the regridded matrix of its column, read layer by
    layer. *)
Theorem get_clouds_3d_values read_csv h5py_File path_exists
    get_cld_input_grid regrid cfg (wno : arr1) (st st' : atmsetup)
    (g t : nat) :
  (forall low input_wno wno,
     Forall (fun row => length row = length wno) (regrid low input_wno wno)) ->
  dimension st = Some "3d" ->
  get_clouds read_csv h5py_File path_exists get_cld_input_grid regrid cfg
             wno st = Ok st' ->
  g < num_gangle cfg -> t < num_tangle cfg ->
  exists cld nlay gs ts data iopd ig0 iw0 opd g0 w0,
    h5py_File (clouds_filepath cfg) = Ok cld /\
    nlayer st = Some nlay /\ (0 <= nlay)%Z /\
    gangles st = Some gs /\ tangles st = Some ts /\
    index_of "opd" (split_comma (h5_header cld)) = Ok iopd /\
    index_of "g0" (split_comma (h5_header cld)) = Ok ig0 /\
    index_of "w0" (split_comma (h5_header cld)) = Ok iw0 /\
    dataset cld gs ts g t = Ok data /\
    Z.of_nat (length data)
    = (nlay * Z.of_nat (length (get_cld_input_grid (clouds_wavenumber cfg))))%Z /\
    layer_cloud st'
    = Some (<["w0" := A4 w0]> (<["g0" := A4 g0]> {["opd" := A4 opd]})) /\
    shape4 (Z.to_nat nlay) (length wno) (num_gangle cfg) (num_tangle cfg) opd /\
    shape4 (Z.to_nat nlay) (length wno) (num_gangle cfg) (num_tangle cfg) g0 /\
    shape4 (Z.to_nat nlay) (length wno) (num_gangle cfg) (num_tangle cfg) w0 /\
    cloud_value regrid data iopd nlay
      (get_cld_input_grid (clouds_wavenumber cfg)) wno opd g t /\
    cloud_value regrid data ig0 nlay
      (get_cld_input_grid (clouds_wavenumber cfg)) wno g0 g t /\
    cloud_value regrid data iw0 nlay
      (get_cld_input_grid (clouds_wavenumber cfg)) wno w0 g t.
Proof.
  intros Hregrid Hd H Hg Ht. unfold get_clouds in H.
  assert (Hcase : forall st1, dimension st1 = Some "3d" ->
            cloud_case_of cfg st1 = Ok Cloud3d).
  { intros st1 Hd1. unfold cloud_case_of. rewrite Hd1. simpl.
    destruct (clouds_filepath cfg); simpl; [done|].
    by destruct (scattering_g0 cfg). }
  rewrite Hcase in H by done. cbn [mbind result_bind] in H.
  bind_inv H as cld Hcld. bind_inv H as nlay Hnlay.
  bind_inv H as opd0 Hopd0. bind_inv H as g00 Hg00. bind_inv H as w00 Hw00.
  bind_inv H as u1 Hu1. bind_inv H as u2 Hu2. bind_inv H as u3 Hu3.
  bind_inv H as iopd Hiopd. bind_inv H as ig0 Hig0. bind_inv H as iw0 Hiw0.
  bind_inv H as acc Hloop. destruct acc as [[[opd g0] w0] st1].
  injection H as <-.
  apply zeros4_shape in Hopd0 as [Hn0 Hopd0].
  apply zeros4_shape in Hg00 as [_ Hg00].
  apply zeros4_shape in Hw00 as [_ Hw00].
  set (input_wno := get_cld_input_grid (clouds_wavenumber cfg)) in *.
  set (st0 := set_npts (length input_wno) (length wno) st) in *.
  rewrite (foldM_nested
             (fun acc g t =>
                cloud_facets regrid cld iopd ig0 iw0 nlay input_wno wno
                             acc g t)) in Hloop.
  destruct (foldM_establish
              (fun acc (gt : nat * nat) =>
                 cloud_facets regrid cld iopd ig0 iw0 nlay input_wno wno
                              acc gt.1 gt.2)
              (cloud_inv nlay (length wno) (num_gangle cfg) (num_tangle cfg)
                         st0)
              (cloud_done regrid cld iopd ig0 iw0 nlay input_wno wno st0)
              (facets (num_gangle cfg) (num_tangle cfg)))
    with (4 := Hloop) as [HI HQ].
  - intros a [g' t'] a' _ Ha Hstep. cbn [fst snd] in Hstep.
    by apply (cloud_facets_step regrid Hregrid _ _ _ _ _ _ _ _ _ _ _ _ _ _
                Hstep).
  - apply facets_NoDup.
  - unfold cloud_inv. split_and!; done.
  - destruct HI as (Ho & Hg0 & Hw0 & _).
    destruct (HQ (g, t) (facets_elem _ _ _ _ Hg Ht))
      as (Hdict & gs & ts & data & Hgs & Hts & Hdata & Hrows & Hv1 & Hv2 & Hv3).
    exists cld, nlay, gs, ts, data, iopd, ig0, iw0, opd, g0, w0.
    cbn [fst snd] in *. split_and!; try done.
    simpl in Hnlay. by destruct (nlayer st) as [?|]; inversion Hnlay.
Qed.

(** The sample regridder gives rows of the length of the output grid. *)
Lemma sample_regrid_rows (low : arr2) (input_wno wno : arr1) :
  Forall (fun row => length row = length wno)
         (sample_regrid low input_wno wno).
Proof.
  unfold sample_regrid. apply Forall_fmap, Forall_forall. intros row _.
  simpl. by rewrite length_fmap, length_seq.
Qed.

Lemma get_clouds_3d_values_witness :
  exists st' opd data,
    get_clouds no_csv sample_files no_file sample_grid sample_regrid
               cfg_3d_clouds [1000; 2000]%float sample_state_derived
    = Ok st' /\
    shape4 2 2 1 2 opd /\
    cloud_value sample_regrid data 0 2 [1000; 2000]%float [1000; 2000]%float
                opd 0 1.
Proof.
  set (st' := state_of (get_clouds no_csv sample_files no_file sample_grid
                          sample_regrid cfg_3d_clouds [1000; 2000]%float
                          sample_state_derived)).
  assert (Hrun : get_clouds no_csv sample_files no_file sample_grid
                   sample_regrid cfg_3d_clouds [1000; 2000]%float
                   sample_state_derived = Ok st')
    by (vm_compute; reflexivity).
  destruct (get_clouds_3d_values no_csv sample_files no_file sample_grid
              sample_regrid cfg_3d_clouds [1000; 2000]%float
              sample_state_derived st' 0 1)
    as (cld & nlay & gs & ts & data & iopd & ig0 & iw0 & opd & g0 & w0 & Hcld
        & Hnlay & _ & _ & _ & Hiopd & _ & _ & _ & _ & _ & Hs & _ & _ & Hv & _).
  - apply sample_regrid_rows.
  - vm_compute. reflexivity.
  - exact Hrun.
  - simpl. lia.
  - simpl. lia.
  - exists st', opd, data. split; [exact Hrun|].
    vm_compute in Hcld. injection Hcld as <-.
    vm_compute in Hnlay. injection Hnlay as <-.
    vm_compute in Hiopd. injection Hiopd as <-.
    split; [exact Hs | exact Hv].
Defined.
